(** * The streaming / tool-call decision loop and the role pipeline

    A shallow embedding of
    - [WebMCPAgent.chat_stream]            (backend/mcp_agent.py),
    - [AgentOrchestrator.chat_stream]      (backend/mcp_modules/agent_orchestrator.py),
    - [ModelManager.get_or_create_llm_instances] and
      [ModelManager.get_current_model_key] (backend/mcp_modules/model_manager.py),
    and, further down,
    - [ModelManager.__init__], [_load_llm_profiles_from_env] and
      [get_models_info], with [WebMCPAgent.get_models_info],
    - the consumer of a turn, [stream_and_persist] (backend/main.py).

    Generators are modelled by the list of events they yield, Python
    dictionaries ([os.environ], the binding cache, the session contexts) by
    [gmap], the Python set of text-only model identities by [gset], and the
    message history by a list that only grows. *)

From Stdlib Require Import ZArith DecimalString.
From Stdlib Require DecimalNat.
From stdpp Require Import base option list strings gmap.

#[local] Set Warnings "-register-all".

(** ** Python values carried as tool arguments *)

Inductive pyval : Type :=
| PNone
| PBool (b : bool)
| PInt (z : Z)
| PStr (s : string)
| PList (l : list pyval)
| PDict (d : list (string * pyval)).

(** Truth value of a Python object, as tested by [or], [if] and [not]. *)
Definition truthy (v : pyval) : bool :=
  match v with
  | PNone => false
  | PBool b => b
  | PInt z => negb (Z.eqb z 0)
  | PStr s => negb (String.eqb s "")
  | PList l => match l with [] => false | _ => true end
  | PDict d => match d with [] => false | _ => true end
  end.

(** [a or b] on strings: the empty string (and [None], which the model
    writes as the empty string) is falsy. *)
Definition str_or (a b : string) : string :=
  if String.eqb a "" then b else a.

(** [a or b] on values. *)
Definition py_or (a b : pyval) : pyval :=
  if truthy a then a else b.

(** Decimal rendering of a loop index, as in [f"call_{i}"]. *)
Definition dec (n : nat) : string := NilZero.string_of_uint (Nat.to_uint n).

(** ** Tool calls

    A tool call is either a dictionary (with an optional ["function"]
    sub-dictionary, the OpenAI wire shape) or an object with attributes
    [id], [name] and [args].  A missing key, a [None] and an empty string
    are all falsy and go through the same [or] chain, so an absent string is
    written [""], an absent value [PNone]; the object form is the record
    with both [function] fields absent. *)

Record ToolCall : Type := mkToolCall {
  tc_id : string;
  tc_name : string;
  tc_args : pyval;
  tc_fn_name : string;
  tc_fn_arguments : pyval
}.

(** [tool_call.get('id') or f"call_{i}"] *)
Definition tool_id_of (i : nat) (c : ToolCall) : string :=
  str_or (tc_id c) ("call_" +:+ dec i).

(** [fn.get('name') or tool_call.get('name') or ''] *)
Definition tool_name_of (c : ToolCall) : string :=
  str_or (tc_fn_name c) (str_or (tc_name c) "").

(** [fn.get('arguments') or tool_call.get('args') or {}] *)
Definition tool_args_raw_of (c : ToolCall) : pyval :=
  py_or (tc_fn_arguments c) (py_or (tc_args c) (PDict [])).

(** [{"$raw": text}] *)
Definition raw_wrap (text : string) : pyval := PDict [("$raw", PStr text)].

Section ArgumentNormalisation.

(** [json.loads]: [None] stands for a raised decoding error. *)
Variable json_loads : string -> option pyval.
(** The builtin [str]. *)
Variable py_str : pyval -> string.

(** The block under the comment "解析参数", the same in both loops. *)
Definition parse_args (tool_args_raw : pyval) : pyval :=
  match tool_args_raw with
  | PStr s =>
      if String.eqb s "" then PDict []
      else match json_loads s with
           | Some v => v
           | None => raw_wrap s
           end
  | PDict d => PDict d
  | v => raw_wrap (py_str v)
  end.

(** Extraction followed by normalisation: what one tool call is run with. *)
Definition parsed_args_of (c : ToolCall) : pyval :=
  parse_args (tool_args_raw_of c).

End ArgumentNormalisation.

(** ** Messages *)

Inductive Role : Type := system | user | assistant | tool.

(** Message content is plain text or, for multimodal input, a list of
    parts. *)
Inductive ContentPart : Type :=
| text_part (text : string)
| image_part (image_url : string).

Inductive Content : Type :=
| Text (s : string)
| Parts (ps : list ContentPart).

Record Message : Type := mkMessage {
  role : Role;
  content : Content;
  tool_calls : option (list ToolCall);
  tool_call_id : option string;
  name : option string
}.

(** [{"role": r, "content": s}] *)
Definition plain_message (r : Role) (s : string) : Message :=
  mkMessage r (Text s) None None None.

(** [{"role": "assistant", "content": "", "tool_calls": calls}] *)
Definition assistant_tool_calls (calls : list ToolCall) : Message :=
  mkMessage assistant (Text "") (Some calls) None None.

(** [{"role": "tool", "tool_call_id": id, "name": n, "content": str(result)}] *)
Definition tool_message (tool_id tool_name result : string) : Message :=
  mkMessage tool (Text result) None (Some tool_id) (Some tool_name).

(** Is [m] a tool-role message answering the call [id]? *)
Definition answers (id : string) (m : Message) : bool :=
  match role m, tool_call_id m with
  | tool, Some i => String.eqb i id
  | _, _ => false
  end.

(** Number of tool-role messages in [ms] that answer [id]. *)
Definition count_answers (id : string) (ms : list Message) : nat :=
  length (filter (fun m => answers id m = true) ms).

(** ** Stream events yielded to the caller *)

Record Usage : Type := mkUsage {
  input_tokens : option Z;
  output_tokens : option Z;
  total_tokens : option Z
}.

(** The constant ["content"] of [ai_response_start] ("AI正在回复...") is left
    out.  [progress] is set by the single agent only, [by_role] by the role
    pipeline only. *)
Inductive StreamEvent : Type :=
| status (text : string)
| ai_response_start
| ai_response_chunk (text : string)
| ai_response_end (text : string)
| tool_plan (text : string) (tool_count : nat)
| tool_start (tool_id tool_name : string) (tool_args : pyval)
             (progress by_role : option string)
| tool_end (tool_id tool_name result : string) (by_role : option string)
| tool_error (tool_id error : string) (by_role : option string)
| fallback_triggered (text : string) (error_count : nat)
| token_usage (u : Usage)
| error (text : string).

Definition is_response_start (e : StreamEvent) : bool :=
  match e with ai_response_start => true | _ => false end.
Definition is_response_end (e : StreamEvent) : bool :=
  match e with ai_response_end _ => true | _ => false end.
Definition is_error (e : StreamEvent) : bool :=
  match e with error _ => true | _ => false end.

Definition count_events (p : StreamEvent -> bool) (evs : list StreamEvent) : nat :=
  length (filter (fun e => p e = true) evs).

(** ** The model client and the tools

    One call of [astream_events] is the list of events it delivers followed,
    possibly, by a raised exception ([run_raises] holds [str(e)]).  Models
    and tools are not functions of their input alone, so each takes the
    number of external calls awaited so far in the process. *)

Record AIMessage : Type := mkAIMessage {
  out_content : string;
  out_tool_calls : list ToolCall;       (* [None] is written [[]] *)
  out_usage : option Usage              (* the usage found on the output *)
}.

Inductive LLMEvent : Type :=
| on_chat_model_stream (content_piece : string)  (* [""]: no chunk or no content *)
| on_chat_model_end (output : AIMessage)
| on_other_event.

Record ModelRun : Type := mkModelRun {
  run_events : list LLMEvent;
  run_raises : option string
}.

Definition LLM : Type := nat -> list Message -> ModelRun.

Inductive ToolOutcome : Type :=
| returns (result : string)          (* [str(tool_result)] *)
| raises (exc : string).             (* [str(e)] *)

Record Tool : Type := mkTool {
  t_name : string;
  ainvoke : nat -> pyval -> ToolOutcome
}.

(** [for tool in tools: if tool.name == tool_name: target_tool = tool; break] *)
Fixpoint find_tool (tools : list Tool) (tool_name : string) : option Tool :=
  match tools with
  | [] => None
  | t :: rest => if String.eqb (t_name t) tool_name then Some t else find_tool rest tool_name
  end.

(** External calls awaited by the process, in order. *)
Inductive Invocation : Type :=
| llm_invoked (messages : list Message)
| tool_invoked (tool_name : string) (args : pyval).

Definition is_llm_invocation (c : Invocation) : bool :=
  match c with llm_invoked _ => true | _ => false end.
Definition is_tool_invocation (c : Invocation) : bool :=
  match c with tool_invoked _ _ => true | _ => false end.

(** ** Profiles, bindings and role specifications *)

(** One entry of [ModelManager.llm_profiles]; every key is always present. *)
Record Profile : Type := mkProfile {
  api_key : string;
  base_url : string;
  model : string;
  kind : string;
  agent_file : string;
  backing_profile : string
}.

(** A user-defined model of a session ([user_models][profile_id]). *)
Record UserModel : Type := mkUserModel {
  um_api_key : string;
  um_base_url : string;
  um_model : option string
}.

(** A session context; absent keys are written [""] and the empty map. *)
Record SessionContext : Type := mkSessionContext {
  ctx_model : string;                      (* ["model"] *)
  ctx_llm_profile : string;                (* ["llm_profile"] *)
  user_models : gmap string UserModel
}.

(** A [ChatOpenAI] instance.  The client takes the model name as a
    parameter and reads its credentials from the environment when it is
    constructed. *)
Record Binding : Type := mkBinding {
  b_model : string;
  b_api_key : option string;
  b_base_url : option string
}.

(** [{"llm": base_llm, "llm_nontool": llm_nontool, "llm_tools": llm_tools}] *)
Record Bundle : Type := mkBundle {
  llm : Binding;
  llm_nontool : Binding;
  llm_tools : Binding
}.

Record RoleSpec : Type := mkRoleSpec {
  id : string;
  system_prompt : string;
  model_profile : string
}.

(** An agent file as [chat_stream] reads it.  [max_rounds_raises] stands
    for [int(spec.get("max_rounds", 1) or 1)], whose value is never used:
    [Some (str e)] when the conversion raises [e]. *)
Record AgentSpec : Type := mkAgentSpec {
  roles : list RoleSpec;
  tools_allowlist : list string;
  max_rounds_raises : option string
}.

(** ** What the single agent and the role pipeline are given

    The collaborators that live outside the modelled files, and the
    configuration read once at start-up. *)

Record World : Type := mkWorld {
  json_loads : string -> option pyval;        (* [None]: decoding error *)
  py_str : pyval -> string;                   (* the builtin [str] *)
  is_multimodal_error : string -> bool;       (* MultimodalProcessor.is_multimodal_error *)
  tools_system_prompt : string;               (* self._get_tools_system_prompt() *)
  tools : list Tool;                          (* self.tools *)
  construction_raises : Binding -> option string;  (* [Some (str e)]: the client refuses *)
  llm_of : Binding -> LLM;                    (* the model behind a binding *)
  yaml_load : string -> option AgentSpec;     (* [None]: unreadable agent file *)
  llm_profiles : gmap string Profile;
  default_profile_id : string;
  model_name : string;
  session_contexts : gmap string SessionContext
}.

(** Modelled from the spec: [MultimodalProcessor.convert_multimodal_to_text]
    (backend/mcp_modules/multimodal.py is not part of the sources) strips
    the non-text content from every message. *)
Definition is_text_part (p : ContentPart) : bool :=
  match p with text_part _ => true | image_part _ => false end.

Definition strip_non_text (m : Message) : Message :=
  match content m with
  | Text _ => m
  | Parts ps =>
      mkMessage (role m) (Parts (filter (fun p => is_text_part p = true) ps))
                (tool_calls m) (tool_call_id m) (name m)
  end.

Definition convert_multimodal_to_text (messages : list Message) : list Message :=
  map strip_non_text messages.

Definition text_only (m : Message) : bool :=
  match content m with
  | Text _ => true
  | Parts ps => forallb is_text_part ps
  end.

Definition nl : string := String (Ascii.ascii_of_nat 10) EmptyString.

(** [sep.join(parts)] *)
Fixpoint join (sep : string) (parts : list string) : string :=
  match parts with
  | [] => ""
  | [p] => p
  | p :: rest => p +:+ sep +:+ join sep rest
  end.

(** [l[-n:]] *)
Definition last_n {A} (n : nat) (l : list A) : list A :=
  drop (length l - n) l.

(** ** Process-wide state *)

Record Process : Type := mkProcess {
  environ : gmap string string;                 (* os.environ *)
  llm_cache : gmap string Bundle;               (* ModelManager._llm_cache *)
  constructed : list Binding;                   (* every ChatOpenAI built so far *)
  non_multimodal_models : gset string;          (* WebMCPAgent._non_multimodal_models *)
  external_calls : list Invocation
}.

Module ModelManager.

Definition KEY : string := "OPENAI_API_KEY".
Definition BASE : string := "OPENAI_BASE_URL".

(** The two assignments at the head of the [try] block. *)
Definition override (api_key base_url : string) (env : gmap string string)
  : gmap string string :=
  let env1 := if String.eqb api_key "" then env else <[KEY := api_key]> env in
  if String.eqb base_url "" then env1 else <[BASE := base_url]> env1.

(** The [finally] block. *)
Definition restore (prev_key prev_base : option string) (env : gmap string string)
  : gmap string string :=
  let env1 := match prev_key with Some k => <[KEY := k]> env | None => env end in
  match prev_base with Some b => <[BASE := b]> env1 | None => env1 end.

(** [ChatOpenAI(model=...)] under the environment [env]. *)
Definition ChatOpenAI (env : gmap string string) (model : string) : Binding :=
  mkBinding model (env !! KEY) (env !! BASE).

Definition with_environ (env : gmap string string) (p : Process) : Process :=
  mkProcess env (llm_cache p) (constructed p) (non_multimodal_models p) (external_calls p).

Definition built (bs : list Binding) (p : Process) : Process :=
  mkProcess (environ p) (llm_cache p) (constructed p ++ bs)
    (non_multimodal_models p) (external_calls p).

Definition mark_non_multimodal (key : string) (p : Process) : Process :=
  mkProcess (environ p) (llm_cache p) (constructed p)
    ({[ key ]} ∪ non_multimodal_models p) (external_calls p).

Definition await (c : Invocation) (p : Process) : Process :=
  mkProcess (environ p) (llm_cache p) (constructed p)
    (non_multimodal_models p) (external_calls p ++ [c]).

Definition cache (pid : string) (b : Bundle) (p : Process) : Process :=
  mkProcess (environ p) (<[pid := b]> (llm_cache p)) (constructed p)
    (non_multimodal_models p) (external_calls p).

Section WithWorld.

Variable W : World.

(** The profile id a request resolves to. *)
Definition resolve (profile_id : string) : string :=
  let pid := str_or profile_id (default_profile_id W) in
  if bool_decide (is_Some (llm_profiles W !! pid)) then pid
  else default_profile_id W.

(** [get_or_create_llm_instances(profile_id, tools)]; [inr text] is a
    raised exception. *)
Definition get_or_create_llm_instances (profile_id : string) (p : Process)
  : (Bundle + string) * Process :=
  let pid := resolve profile_id in
  match llm_cache p !! pid with
  | Some bundle => (inl bundle, p)
  | None =>
      match llm_profiles W !! pid with
      | None => (inr ("'" +:+ pid +:+ "'"), p)          (* KeyError *)
      | Some cfg =>
          let prev_key := environ p !! KEY in
          let prev_base := environ p !! BASE in
          let env1 := override (api_key cfg) (base_url cfg) (environ p) in
          let base_llm := ChatOpenAI env1 (model cfg) in
          let llm_nontool := ChatOpenAI env1 (model cfg) in
          let p1 := with_environ (restore prev_key prev_base env1) p in
          match construction_raises W base_llm with
          | Some e => (inr e, p1)
          | None =>
              let bundle := mkBundle base_llm llm_nontool base_llm in
              (inl bundle, cache pid bundle (built [base_llm; llm_nontool] p1))
          end
      end
  end.

(** [get_current_model_key(session_contexts, session_id)] *)
Definition session_profile (session_id : string) : string :=
  if String.eqb session_id "" then ""
  else match session_contexts W !! session_id with
       | Some ctx => str_or (ctx_model ctx) (ctx_llm_profile ctx)
       | None => ""
       end.

Definition get_current_model_key (session_id : string) : string :=
  let profile_id := str_or (session_profile session_id) (default_profile_id W) in
  match llm_profiles W !! profile_id with
  | Some cfg => model cfg +:+ "@" +:+ base_url cfg
  | None => "@"
  end.

End WithWorld.

End ModelManager.

Module SingleAgent.

(** The variables of [WebMCPAgent.chat_stream] that live across rounds,
    with the process state the loop touches. *)
Record LoopState : Type := mkLoopState {
  shared_history : list Message;
  round_index : nat;
  combined_response_started : bool;
  consecutive_tool_failures : nat;
  tool_error_history : list (string * string);   (* {"tool": _, "error": _} *)
  process : Process
}.

Definition max_rounds : nat := 25.
Definition max_consecutive_failures : nat := 3.

Definition append_history (m : Message) (st : LoopState) : LoopState :=
  mkLoopState (shared_history st ++ [m]) (round_index st)
    (combined_response_started st) (consecutive_tool_failures st)
    (tool_error_history st) (process st).

Definition next_round (st : LoopState) : LoopState :=
  mkLoopState (shared_history st) (S (round_index st))
    (combined_response_started st) (consecutive_tool_failures st)
    (tool_error_history st) (process st).

Definition set_started (b : bool) (st : LoopState) : LoopState :=
  mkLoopState (shared_history st) (round_index st) b
    (consecutive_tool_failures st) (tool_error_history st) (process st).

Definition set_failures (n : nat) (st : LoopState) : LoopState :=
  mkLoopState (shared_history st) (round_index st)
    (combined_response_started st) n (tool_error_history st) (process st).

Definition set_error_history (h : list (string * string)) (st : LoopState) : LoopState :=
  mkLoopState (shared_history st) (round_index st)
    (combined_response_started st) (consecutive_tool_failures st) h (process st).

Definition on_process (f : Process -> Process) (st : LoopState) : LoopState :=
  mkLoopState (shared_history st) (round_index st)
    (combined_response_started st) (consecutive_tool_failures st)
    (tool_error_history st) (f (process st)).

Definition mark_non_multimodal (key : string) : LoopState -> LoopState :=
  on_process (ModelManager.mark_non_multimodal key).

Definition await (c : Invocation) : LoopState -> LoopState :=
  on_process (ModelManager.await c).

(** Number of external calls awaited so far. *)
Definition now (st : LoopState) : nat := length (external_calls (process st)).

(** The variables one round starts afresh. *)
Record RoundVars : Type := mkRoundVars {
  tool_calls_check : list ToolCall;      (* [None] is written [[]] *)
  last_usage : option Usage;
  buffered_chunks : list string;
  content_preview : string;
  response_started : bool
}.

Definition fresh_round : RoundVars := mkRoundVars [] None [] "" false.

(** The dictionary built from the usage of a finalized output. *)
Definition normalise_usage (u : Usage) : Usage :=
  mkUsage (input_tokens u) (output_tokens u)
    (match total_tokens u with
     | Some t => if Z.eqb t 0
                 then Some (default 0%Z (input_tokens u) + default 0%Z (output_tokens u))%Z
                 else Some t
     | None => Some (default 0%Z (input_tokens u) + default 0%Z (output_tokens u))%Z
     end).

(** Body of the first [async for] over the model's events.  Returns the
    events yielded, the new [combined_response_started] and the round
    variables. *)
Fixpoint consume (evs : list LLMEvent) (started : bool) (rv : RoundVars)
  : list StreamEvent * bool * RoundVars :=
  match evs with
  | [] => ([], started, rv)
  | on_chat_model_stream content_piece :: rest =>
      if String.eqb content_piece "" then consume rest started rv
      else
        let rv' := mkRoundVars (tool_calls_check rv) (last_usage rv)
                     (buffered_chunks rv ++ [content_piece]) (content_preview rv) true in
        let '(out, started', rv'') := consume rest true rv' in
        ((if started then [] else [ai_response_start])
           ++ ai_response_chunk content_piece :: out, started', rv'')
  | on_chat_model_end output :: rest =>
      let rv' := mkRoundVars (out_tool_calls output)
                   (match out_usage output with
                    | Some u => Some (normalise_usage u)
                    | None => last_usage rv
                    end)
                   (buffered_chunks rv) (out_content output) (response_started rv) in
      consume rest started rv'
  | on_other_event :: rest => consume rest started rv
  end.

(** Body of the [async for] of the text-only retry: no start event and no
    usage capture. *)
Fixpoint consume_retry (evs : list LLMEvent) (rv : RoundVars)
  : list StreamEvent * RoundVars :=
  match evs with
  | [] => ([], rv)
  | on_chat_model_stream content_piece :: rest =>
      if String.eqb content_piece "" then consume_retry rest rv
      else
        let rv' := mkRoundVars (tool_calls_check rv) (last_usage rv)
                     (buffered_chunks rv ++ [content_piece]) (content_preview rv) true in
        let '(out, rv'') := consume_retry rest rv' in
        (ai_response_chunk content_piece :: out, rv'')
  | on_chat_model_end output :: rest =>
      let rv' := mkRoundVars (out_tool_calls output) (last_usage rv)
                   (buffered_chunks rv) (out_content output) (response_started rv) in
      consume_retry rest rv'
  | on_other_event :: rest => consume_retry rest rv
  end.

(** [tool_calls_check = None; content_preview = ""] *)
Definition clear_output (rv : RoundVars) : RoundVars :=
  mkRoundVars [] (last_usage rv) (buffered_chunks rv) "" (response_started rv).

Definition downgrade_notice : string :=
  "⚠️ 当前模型不支持图片识别，已自动转换为纯文本模式处理。" +:+ nl +:+ nl.

Section Rounds.

Variable W : World.
Variable current_llm_tools : LLM.
Variable current_model_key : string.

(** Step 2 of a round: the streamed call of the tool-bound model with
    its [except] branch. *)
Definition detect (st : LoopState) : list StreamEvent * LoopState * RoundVars :=
  let tools_messages :=
    plain_message system (tools_system_prompt W) :: shared_history st in
  let run := current_llm_tools (now st) tools_messages in
  let '(out1, started1, rv1) :=
    consume (run_events run) (combined_response_started st) fresh_round in
  let st1 := set_started started1 (await (llm_invoked tools_messages) st) in
  match run_raises run with
  | None => (out1, st1, rv1)
  | Some error_msg =>
      if is_multimodal_error W error_msg then
        let st2 := mark_non_multimodal current_model_key st1 in
        let out2 :=
          (if combined_response_started st2 then [] else [ai_response_start])
            ++ [ai_response_chunk downgrade_notice] in
        let st3 := set_started true st2 in
        let text_only_messages := convert_multimodal_to_text tools_messages in
        let run' := current_llm_tools (now st3) text_only_messages in
        let '(out3, rv3) := consume_retry (run_events run') rv1 in
        let st4 := await (llm_invoked text_only_messages) st3 in
        match run_raises run' with
        | None => (out1 ++ out2 ++ out3, st4, rv3)
        | Some _ => (out1 ++ out2 ++ out3, st4, clear_output rv3)
        end
      else (out1, st1, clear_output rv1)
  end.

Definition not_found_msg (tool_name : string) : string :=
  "工具 '" +:+ tool_name +:+ "' 未找到".

(** Body of [for i, tool_call in enumerate(tool_calls_to_run, 1)].
    [has_error] is [current_round_has_error]. *)
Definition run_tool_call (i n : nat) (tool_call : ToolCall)
    (st : LoopState) (has_error : bool) : list StreamEvent * LoopState * bool :=
  let tool_id := tool_id_of i tool_call in
  let tool_name := tool_name_of tool_call in
  let parsed_args := parsed_args_of (json_loads W) (py_str W) tool_call in
  let started :=
    tool_start tool_id tool_name parsed_args (Some (dec i +:+ "/" +:+ dec n)) None in
  match find_tool (tools W) tool_name with
  | None =>
      let error_msg := not_found_msg tool_name in
      ([started; tool_error tool_id error_msg None],
       append_history (tool_message tool_id tool_name ("错误: " +:+ error_msg))
         (set_error_history (tool_error_history st ++ [(tool_name, error_msg)]) st),
       true)
  | Some target_tool =>
      let st1 := await (tool_invoked tool_name parsed_args) st in
      match ainvoke target_tool (now st) parsed_args with
      | returns tool_result =>
          ([started; tool_end tool_id tool_name tool_result None],
           append_history (tool_message tool_id tool_name tool_result)
             (set_failures 0 st1),
           has_error)
      | raises e =>
          let error_msg := "工具执行出错: " +:+ e in
          ([started; tool_error tool_id error_msg None],
           append_history (tool_message tool_id tool_name ("错误: " +:+ error_msg))
             (set_error_history (tool_error_history st1 ++ [(tool_name, e)]) st1),
           true)
      end
  end.

(** The whole [for] loop; [exit_to_stream] is never set, so no call of
    the batch is skipped. *)
Fixpoint run_tools (i n : nat) (calls : list ToolCall)
    (st : LoopState) (has_error : bool) : list StreamEvent * LoopState * bool :=
  match calls with
  | [] => ([], st, has_error)
  | tool_call :: rest =>
      let '(out, st1, e1) := run_tool_call i n tool_call st has_error in
      let '(out', st2, e2) := run_tools (S i) n rest st1 e1 in
      (out ++ out', st2, e2)
  end.

(** [f"- {err.get('tool', ...)}: {err.get('error', ...)}"] joined over
    the last three recorded errors. *)
Definition error_summary (h : list (string * string)) : string :=
  join nl (map (fun err => "- " +:+ fst err +:+ ": " +:+ snd err) (last_n 3 h)).

Definition fallback_prompt (h : list (string * string)) : string :=
  "工具调用出现异常,请根据当前已有信息给用户一个合理的回复。" +:+ nl +:+ nl
  +:+ "错误情况:" +:+ nl +:+ error_summary h +:+ nl +:+ nl
  +:+ "请告知用户:" +:+ nl
  +:+ "1. 系统暂时无法获取所需数据" +:+ nl
  +:+ "2. 根据对话历史,给出基于已知信息的建议或替代方案" +:+ nl
  +:+ "3. 语气友好专业,不要过分道歉".

(** "更新连续失败计数器": runs once, after the [for] loop. *)
Definition update_failures (st : LoopState) (has_error : bool)
  : list StreamEvent * LoopState :=
  if has_error then
    let st1 := set_failures (S (consecutive_tool_failures st)) st in
    if max_consecutive_failures <=? consecutive_tool_failures st1 then
      ([fallback_triggered "工具调用异常,正在生成替代回复..." (consecutive_tool_failures st1)],
       set_error_history []
         (set_failures 0
            (append_history
               (plain_message user (fallback_prompt (tool_error_history st1))) st1)))
    else ([], st1)
  else ([], st).

Inductive RoundOutcome : Type :=
| ANSWER_DECIDED (final_text : string)
| TOOL_DECIDED.

(** ["".join(buffered_chunks) if buffered_chunks else (content_preview or "")] *)
Definition final_text_of (rv : RoundVars) : string :=
  match buffered_chunks rv with
  | [] => content_preview rv
  | chunks => join "" chunks
  end.

(** The branch [if tool_calls_check:] from the tool plan to its
    [continue]: the plan, the assistant message, the batch and the
    failure counter.  It reads nothing of what the round streamed. *)
Definition execute_tools (tool_calls_to_run : list ToolCall) (st : LoopState)
  : list StreamEvent * LoopState :=
  let plan :=
    tool_plan ("AI决定调用 " +:+ dec (length tool_calls_to_run) +:+ " 个工具")
              (length tool_calls_to_run) in
  let st2 := append_history (assistant_tool_calls tool_calls_to_run) st in
  let '(out_t, st3, has_error) :=
    run_tools 1 (length tool_calls_to_run) tool_calls_to_run st2 false in
  let '(out_f, st4) := update_failures st3 has_error in
  (plan :: out_t ++ out_f, st4).

(** The separator sent in place of an end marker when the round streamed
    text and then asked for tools. *)
Definition separator (rv : RoundVars) : list StreamEvent :=
  if response_started rv && negb (bool_decide (buffered_chunks rv = []))
  then [ai_response_chunk (nl +:+ nl)] else [].

(** Step 3, the events that end the answer. *)
Definition closing (started : bool) (final_text : string) : list StreamEvent :=
  if started then [ai_response_end ""]
  else ai_response_start
         :: (if String.eqb final_text "" then [] else [ai_response_chunk final_text])
         ++ [ai_response_end ""].

(** One pass through the body of [while round_index < max_rounds],
    after [round_index += 1]. *)
Definition run_round (st : LoopState) : list StreamEvent * LoopState * RoundOutcome :=
  let '(out, st1, rv) := detect st in
  match tool_calls_check rv with
  | [] =>
      let final_text := final_text_of rv in
      let usage :=
        match last_usage rv with Some u => [token_usage u] | None => [] end in
      (out ++ closing (combined_response_started st1) final_text ++ usage,
       set_started true st1, ANSWER_DECIDED final_text)
  | tool_calls_to_run =>
      let '(out_t, st4) := execute_tools tool_calls_to_run st1 in
      (out ++ separator rv ++ out_t, st4, TOOL_DECIDED)
  end.

Inductive LoopResult : Type :=
| answered (final_text : string)
| budget_exhausted.

(** [while round_index < max_rounds], on the rounds that remain. *)
Fixpoint round_loop (remaining : nat) (st : LoopState)
  : list StreamEvent * LoopState * LoopResult :=
  match remaining with
  | O => ([], st, budget_exhausted)
  | S k =>
      let '(out, st1, outcome) := run_round (next_round st) in
      match outcome with
      | ANSWER_DECIDED final_text => (out, st1, answered final_text)
      | TOOL_DECIDED =>
          let '(out', st2, r) := round_loop k st1 in
          (out ++ out', st2, r)
      end
  end.

Definition exhausted_text : string :=
  "已达到最大推理轮数，请缩小问题范围或稍后重试。".

(** From [max_rounds = 25] to the end of the [try] block. *)
Definition rounds (st : LoopState) : list StreamEvent * LoopState * LoopResult :=
  let '(out, st1, r) := round_loop (max_rounds - round_index st) st in
  match r with
  | answered _ => (out, st1, r)
  | budget_exhausted =>
      (out ++ [ai_response_start; ai_response_chunk exhausted_text;
               ai_response_end exhausted_text], st1, r)
  end.

End Rounds.

End SingleAgent.

(** An insertion-ordered Python dictionary with string values: assigning to
    a key that is present keeps its position. *)
Fixpoint dict_set (k v : string) (d : list (string * string)) : list (string * string) :=
  match d with
  | [] => [(k, v)]
  | (k', v') :: rest =>
      if String.eqb k' k then (k, v) :: rest else (k', v') :: dict_set k v rest
  end.

Fixpoint dict_get (k : string) (d : list (string * string)) : option string :=
  match d with
  | [] => None
  | (k', v') :: rest => if String.eqb k' k then Some v' else dict_get k rest
  end.

Module Orchestrator.

Definition max_tool_iterations : nat := 6.

(** [_default_spec()]; its [max_rounds] entry is 1. *)
Definition default_spec : AgentSpec :=
  mkAgentSpec
    [ mkRoleSpec "planner" "你是任务规划师，负责拆解用户问题，给出明确的子任务步骤与所需数据。" "";
      mkRoleSpec "researcher" "你是研究员，负责检索并调用可用工具完成事实性数据收集与要点总结。" "";
      mkRoleSpec "writer" "你是撰写者，整合规划与证据，给出结构化、清晰、可执行的最终回答。" "" ]
    [] None.

(** The variables of [AgentOrchestrator.chat_stream] a role works on. *)
Record RoleState : Type := mkRoleState {
  messages : list Message;
  shared_history : list Message;
  role_last_content : string;
  role_prefix_sent : bool;
  any_streamed : bool;
  process : Process
}.

Definition append_message (m : Message) (st : RoleState) : RoleState :=
  mkRoleState (messages st ++ [m]) (shared_history st) (role_last_content st)
    (role_prefix_sent st) (any_streamed st) (process st).

Definition await (c : Invocation) (st : RoleState) : RoleState :=
  mkRoleState (messages st) (shared_history st) (role_last_content st)
    (role_prefix_sent st) (any_streamed st) (ModelManager.await c (process st)).

Definition streamed (st : RoleState) : RoleState :=
  mkRoleState (messages st) (shared_history st) (role_last_content st)
    true true (process st).

(** The three statements of the branch "无工具：写回并结束该角色". *)
Definition write_back (role_id content_preview : string) (st : RoleState) : RoleState :=
  mkRoleState (messages st ++ [plain_message assistant content_preview])
    (shared_history st
       ++ [plain_message assistant ("[" +:+ role_id +:+ "] " +:+ content_preview)])
    content_preview (role_prefix_sent st) (any_streamed st) (process st).

Definition now (st : RoleState) : nat := length (external_calls (process st)).

(** The variables one iteration starts afresh. *)
Record IterVars : Type := mkIterVars {
  role_tool_calls : list ToolCall;      (* [tool_calls]; [None] is written [[]] *)
  content_preview : string;
  buffered_chunks : list string
}.

Definition fresh_iter : IterVars := mkIterVars [] "" [].

(** Body of the [async for] over the role model's events. *)
Fixpoint consume (role_id : string) (evs : list LLMEvent) (st : RoleState) (iv : IterVars)
  : list StreamEvent * RoleState * IterVars :=
  match evs with
  | [] => ([], st, iv)
  | on_chat_model_stream content_piece :: rest =>
      if String.eqb content_piece "" then consume role_id rest st iv
      else
        let chunk :=
          if role_prefix_sent st then ai_response_chunk content_piece
          else ai_response_chunk ("[" +:+ role_id +:+ "] " +:+ content_piece) in
        let iv' := mkIterVars (role_tool_calls iv) (content_preview iv)
                     (buffered_chunks iv ++ [content_piece]) in
        let '(out, st', iv'') := consume role_id rest (streamed st) iv' in
        (chunk :: out, st', iv'')
  | on_chat_model_end output :: rest =>
      let iv' := mkIterVars (out_tool_calls output)
                   (str_or (out_content output) (join "" (buffered_chunks iv)))
                   (buffered_chunks iv) in
      consume role_id rest st iv'
  | on_other_event :: rest => consume role_id rest st iv
  end.

Section Pipeline.

Variable W : World.

(** [_load_spec(agent_file)] *)
Definition load_spec (agent_file : string) : AgentSpec :=
  if String.eqb agent_file "" then default_spec
  else default default_spec (yaml_load W agent_file).

(** "白名单过滤" *)
Definition rejected (tools_allowlist : list string) (tool_name : string) : bool :=
  negb (bool_decide (tools_allowlist = []))
  && negb (String.eqb tool_name "")
  && negb (bool_decide (tool_name ∈ tools_allowlist)).

(** Body of [for i, tool_call in enumerate(tool_calls, 1)]. *)
Definition run_tool_call (role_id : string) (tools_allowlist : list string)
    (i : nat) (tool_call : ToolCall) (st : RoleState) : list StreamEvent * RoleState :=
  let tool_id := tool_id_of i tool_call in
  let tool_name := tool_name_of tool_call in
  if rejected tools_allowlist tool_name then
    ([tool_error tool_id ("工具 '" +:+ tool_name +:+ "' 不在允许列表中") (Some role_id)],
     append_message
       (tool_message tool_id tool_name ("错误: 工具 '" +:+ tool_name +:+ "' 未被允许")) st)
  else
    let parsed_args := parsed_args_of (json_loads W) (py_str W) tool_call in
    let started := tool_start tool_id tool_name parsed_args None (Some role_id) in
    match find_tool (tools W) tool_name with
    | None =>
        let error_msg := "工具 '" +:+ tool_name +:+ "' 未找到" in
        ([started; tool_error tool_id error_msg (Some role_id)],
         append_message (tool_message tool_id tool_name ("错误: " +:+ error_msg)) st)
    | Some target_tool =>
        let st1 := await (tool_invoked tool_name parsed_args) st in
        match ainvoke target_tool (now st) parsed_args with
        | returns tool_result =>
            ([started; tool_end tool_id tool_name tool_result (Some role_id)],
             append_message (tool_message tool_id tool_name tool_result) st1)
        | raises e =>
            let error_msg := "工具执行出错: " +:+ e in
            ([started; tool_error tool_id error_msg (Some role_id)],
             append_message (tool_message tool_id tool_name ("错误: " +:+ error_msg)) st1)
        end
    end.

Fixpoint run_tools (role_id : string) (tools_allowlist : list string)
    (i : nat) (calls : list ToolCall) (st : RoleState) : list StreamEvent * RoleState :=
  match calls with
  | [] => ([], st)
  | tool_call :: rest =>
      let '(out, st1) := run_tool_call role_id tools_allowlist i tool_call st in
      let '(out', st2) := run_tools role_id tools_allowlist (S i) rest st1 in
      (out ++ out', st2)
  end.

Inductive IterOutcome : Type :=
| role_failed            (* the model call raised: [break] *)
| role_answered          (* no tool calls: [break] *)
| role_used_tools.       (* next iteration *)

(** One pass through the body of
    [while tool_iterations < max_tool_iterations]. *)
Definition run_iteration (role_id : string) (tools_allowlist : list string)
    (role_llm_tools : LLM) (st : RoleState) : list StreamEvent * RoleState * IterOutcome :=
  let run := role_llm_tools (now st) (messages st) in
  let '(out, st1, iv) :=
    consume role_id (run_events run) (await (llm_invoked (messages st)) st) fresh_iter in
  match run_raises run with
  | Some e =>
      (out ++ [ai_response_chunk (nl +:+ "⚠️ " +:+ role_id +:+ " 执行失败: " +:+ e +:+ nl)],
       st1, role_failed)
  | None =>
      match role_tool_calls iv with
      | [] =>
          (out ++ (if role_prefix_sent st1 then [ai_response_chunk nl] else []),
           write_back role_id (content_preview iv) st1, role_answered)
      | calls =>
          let plan :=
            tool_plan (role_id +:+ " 将调用 " +:+ dec (length calls) +:+ " 个工具")
                      (length calls) in
          let '(out_t, st2) := run_tools role_id tools_allowlist 1 calls st1 in
          (out ++ plan :: out_t, st2, role_used_tools)
      end
  end.

Fixpoint role_loop (remaining : nat) (role_id : string) (tools_allowlist : list string)
    (role_llm_tools : LLM) (st : RoleState) : list StreamEvent * RoleState :=
  match remaining with
  | O => ([], st)
  | S k =>
      let '(out, st1, outcome) := run_iteration role_id tools_allowlist role_llm_tools st in
      match outcome with
      | role_used_tools =>
          let '(out', st2) := role_loop k role_id tools_allowlist role_llm_tools st1 in
          (out ++ out', st2)
      | _ => (out, st1)
      end
  end.

(** What the loop over the roles carries from one role to the next. *)
Record PipelineState : Type := mkPipelineState {
  p_shared_history : list Message;
  p_any_streamed : bool;
  role_outputs : list (string * string);
  p_process : Process
}.

(** "选择该角色使用的模型档位": the role's own profile when it names one
    and its bundle can be had, the default binding otherwise. *)
Definition role_binding (default_llm_tools : Binding) (role : RoleSpec) (p : Process)
  : Binding * Process :=
  let role_profile := model_profile role in
  if String.eqb role_profile "" then (default_llm_tools, p)
  else match ModelManager.get_or_create_llm_instances W role_profile p with
       | (inl role_bundle, p') => (llm_tools role_bundle, p')
       | (inr _, p') => (default_llm_tools, p')
       end.

(** Body of [for role in roles]. *)
Definition run_role (tools_allowlist : list string) (default_llm_tools : Binding)
    (role : RoleSpec) (ps : PipelineState) : list StreamEvent * PipelineState :=
  let role_id := str_or (id role) "role" in
  let sys_prompt := system_prompt role in
  let '(role_llm_tools, proc) := role_binding default_llm_tools role (p_process ps) in
  let st := mkRoleState (plain_message system sys_prompt :: p_shared_history ps)
              (p_shared_history ps) "" false (p_any_streamed ps) proc in
  let '(out, st') :=
    role_loop max_tool_iterations role_id tools_allowlist (llm_of W role_llm_tools) st in
  (out, mkPipelineState (shared_history st') (any_streamed st')
          (dict_set role_id (role_last_content st') (role_outputs ps)) (process st')).

Fixpoint run_roles (tools_allowlist : list string) (default_llm_tools : Binding)
    (rs : list RoleSpec) (ps : PipelineState) : list StreamEvent * PipelineState :=
  match rs with
  | [] => ([], ps)
  | role :: rest =>
      let '(out, ps1) := run_role tools_allowlist default_llm_tools role ps in
      let '(out', ps2) := run_roles tools_allowlist default_llm_tools rest ps1 in
      (out ++ out', ps2)
  end.

(** [role_outputs.get("writer") or (list(role_outputs.values())[-1] if role_outputs else "")] *)
Definition final_text_of (role_outputs : list (string * string)) : string :=
  str_or (default "" (dict_get "writer" role_outputs))
         (default "" (last (map snd role_outputs))).

(** [AgentOrchestrator.chat_stream].  [build_shared_history] is
    [message_processor.build_shared_history(history, user_input, _, concise=True)]
    for the history and input of this turn; [agent_cfg] is the selected
    profile. *)
Definition chat_stream (build_shared_history : bool -> list Message)
    (agent_cfg : Profile) (p : Process) : list StreamEvent * Process :=
  let spec := load_spec (agent_file agent_cfg) in
  match max_rounds_raises spec with
  | Some e => ([error ("Agent 执行出错: " +:+ e)], p)
  | None =>
      let shared_history := build_shared_history false in
      match ModelManager.get_or_create_llm_instances W (backing_profile agent_cfg) p with
      | (inr e, p1) => ([error ("Agent 执行出错: " +:+ e)], p1)
      | (inl default_llm_bundle, p1) =>
          let '(out, ps) :=
            run_roles (tools_allowlist spec) (llm_tools default_llm_bundle) (roles spec)
              (mkPipelineState shared_history false [] p1) in
          let final_text := final_text_of (role_outputs ps) in
          (ai_response_start :: out
             ++ (if negb (p_any_streamed ps) && negb (String.eqb final_text "")
                 then [ai_response_chunk final_text] else [])
             ++ [ai_response_end ""],
           p_process ps)
      end
  end.

End Pipeline.

End Orchestrator.

Module WebMCPAgent.

Section ChatStream.

Variable W : World.

(** The block "支持用户自定义模型": a binding for a user-defined
    model is built on every turn; any exception leaves
    [current_llm_tools] at [None]. *)
Definition bind_user_model (profile_id session_id : string) (p : Process)
  : option Binding * Process :=
  if negb (String.eqb profile_id "") && String.prefix "user-" profile_id then
    match session_contexts W !! session_id with
    | None => (None, p)
    | Some ctx =>
        match user_models ctx !! profile_id with
        | None => (None, p)
        | Some cfg =>
            let prev_key := environ p !! ModelManager.KEY in
            let prev_base := environ p !! ModelManager.BASE in
            let env1 :=
              ModelManager.override (um_api_key cfg) (um_base_url cfg) (environ p) in
            let _base :=
              ModelManager.ChatOpenAI env1 (default (model_name W) (um_model cfg)) in
            let p1 :=
              ModelManager.with_environ
                (ModelManager.restore prev_key prev_base env1) p in
            match construction_raises W _base with
            | Some _ => (None, p1)
            | None => (Some _base, ModelManager.built [_base] p1)
            end
        end
    end
  else (None, p).

(** The model binding of the turn: the user-defined one, else the
    cached bundle of the profile. *)
Definition select_binding (profile_id session_id : string) (p : Process)
  : (Binding + string) * Process :=
  match bind_user_model profile_id session_id p with
  | (Some current_llm_tools, p1) => (inl current_llm_tools, p1)
  | (None, p1) =>
      match ModelManager.get_or_create_llm_instances W profile_id p1 with
      | (inl llm_bundle, p2) => (inl (llm_tools llm_bundle), p2)
      | (inr e, p2) => (inr e, p2)
      end
  end.

Definition agent_profile (profile_id : string) : option Profile :=
  if String.eqb profile_id "" then None
  else match llm_profiles W !! profile_id with
       | Some cfg => if String.eqb (kind cfg) "agent" then Some cfg else None
       | None => None
       end.

(** The state the round loop of a turn starts from. *)
Definition initial_state (shared_history : list Message) (p : Process)
  : SingleAgent.LoopState :=
  SingleAgent.mkLoopState shared_history 0 false 0 [] p.

(** [WebMCPAgent.chat_stream(user_input, history, session_id)];
    [build_shared_history] is
    [message_processor.build_shared_history(history, user_input, _, concise=True)]
    for the history and input of this turn. *)
Definition chat_stream (build_shared_history : bool -> list Message)
    (session_id : string) (p : Process) : list StreamEvent * Process :=
  let begin := status "开始生成..." in
  let profile_id := ModelManager.session_profile W session_id in
  match agent_profile profile_id with
  | Some agent_cfg =>
      let '(out, p') := Orchestrator.chat_stream W build_shared_history agent_cfg p in
      (begin :: out, p')
  | None =>
      match select_binding profile_id session_id p with
      | (inr e, p1) => ([begin; error ("处理请求时出错: " +:+ e)], p1)
      | (inl current_llm_tools, p1) =>
          let current_model_key := ModelManager.get_current_model_key W session_id in
          let force_text_only :=
            bool_decide (current_model_key ∈ non_multimodal_models p1) in
          let shared_history := build_shared_history force_text_only in
          let '(out, st, _) :=
            SingleAgent.rounds W (llm_of W current_llm_tools) current_model_key
              (initial_state shared_history p1) in
          (begin :: out, SingleAgent.process st)
      end
  end.

End ChatStream.

End WebMCPAgent.

(** ** Concrete collaborators used by the examples *)

Module Examples.

(** A decoder that rejects every text. *)
Definition no_json : string -> option pyval := fun _ => None.

(** [str] on the values it is total on here. *)
Definition scalar_str (v : pyval) : string :=
  match v with
  | PNone => "None"
  | PBool true => "True"
  | PBool false => "False"
  | PInt z => NilZero.string_of_int (Z.to_int z)
  | PStr s => s
  | PList _ | PDict _ => ""
  end.

Definition price_tool : Tool := mkTool "get_price" (fun _ _ => returns "42").
Definition failing_tool : Tool := mkTool "get_price" (fun _ _ => raises "timeout").

Definition default_profile : Profile := mkProfile "k0" "https://base0" "m0" "model" "" "".

(** A world with one profile, no session and a single model. *)
Definition world (matches_signature : string -> bool) (ts : list Tool) (m : LLM) : World :=
  mkWorld no_json scalar_str matches_signature "sys" ts (fun _ => None) (fun _ => m)
    (fun _ => None) {[ "default" := default_profile ]} "default" "m0" ∅.

Definition call (i n : string) : ToolCall := mkToolCall i n (PDict []) "" PNone.

(** A model that streams one token and asks for one tool, every time. *)
Definition eager_llm : LLM := fun _ _ =>
  mkModelRun [on_chat_model_stream "x";
              on_chat_model_end (mkAIMessage "x" [call "c1" "get_price"] None)] None.

(** A model that asks for the given calls and streams nothing. *)
Definition asking_llm (calls : list ToolCall) : LLM := fun _ _ =>
  mkModelRun [on_chat_model_end (mkAIMessage "" calls None)] None.

(** A model whose every call raises the given text. *)
Definition broken_llm (text : string) : LLM := fun _ _ => mkModelRun [] (Some text).

Definition empty_process : Process := mkProcess ∅ ∅ [] ∅ [].

Definition hello : bool -> list Message := fun _ => [plain_message user "hi"].

Definition start_state : SingleAgent.LoopState :=
  WebMCPAgent.initial_state (hello false) empty_process.

End Examples.

(** ** Vocabulary of the statements *)

(** The argument value a tool call carries: [function.arguments], else
    [args]. *)
Definition carried_args (c : ToolCall) : pyval :=
  py_or (tc_fn_arguments c) (tc_args c).

(** The identifiers the tool messages of a batch carry, the loop index
    starting at [i]. *)
Fixpoint effective_ids (i : nat) (calls : list ToolCall) : list string :=
  match calls with
  | [] => []
  | c :: rest => tool_id_of i c :: effective_ids (S i) rest
  end.

(** Every call of the batch has an identifier and no two share one. *)
Definition well_formed_ids (calls : list ToolCall) : Prop :=
  Forall (fun c => tc_id c <> "") calls /\ NoDup (map tc_id calls).

(** [m] is the tool-role message for the call [tool_id]. *)
Definition answer_to (m : Message) (tool_id : string) : Prop :=
  role m = tool /\ tool_call_id m = Some tool_id.

Definition is_tool_start (e : StreamEvent) : bool :=
  match e with tool_start _ _ _ _ _ => true | _ => false end.

(** [e] is the [tool_end] or [tool_error] event of the call [tool_id]. *)
Definition closes (tool_id : string) (e : StreamEvent) : bool :=
  match e with
  | tool_end i _ _ _ => String.eqb i tool_id
  | tool_error i _ _ => String.eqb i tool_id
  | _ => false
  end.

Definition is_tool_closing (e : StreamEvent) : bool :=
  match e with tool_end _ _ _ _ | tool_error _ _ _ => true | _ => false end.

Definition is_fallback (e : StreamEvent) : bool :=
  match e with fallback_triggered _ _ => true | _ => false end.

(** *** What a model call returned

    Read off the events of the call alone, not off the loops. *)

(** The finalized outputs a call delivered, in order. *)
Definition finalized (evs : list LLMEvent) : list AIMessage :=
  omap (fun ev => match ev with on_chat_model_end output => Some output | _ => None end) evs.

(** The tool-call list, the content and the usage of the last finalized
    output that carries one; [init] when there is none. *)
Definition calls_after (init : list ToolCall) (evs : list LLMEvent) : list ToolCall :=
  match last (finalized evs) with
  | Some output => out_tool_calls output
  | None => init
  end.

Definition content_after (init : string) (evs : list LLMEvent) : string :=
  match last (finalized evs) with
  | Some output => out_content output
  | None => init
  end.

Definition usage_after (init : option Usage) (evs : list LLMEvent) : option Usage :=
  match last (omap out_usage (finalized evs)) with
  | Some u => Some (SingleAgent.normalise_usage u)
  | None => init
  end.

Definition returned_calls (evs : list LLMEvent) : list ToolCall := calls_after [] evs.
Definition returned_content (evs : list LLMEvent) : string := content_after "" evs.
Definition reported_usage (evs : list LLMEvent) : option Usage := usage_after None evs.

(** The tool-call list the model returned to a round of the single agent:
    that of the call when it completes; that of the call and its text-only
    retry, read as one stream, when the call raises the unsupported-input
    signature and the retry completes; none when the call or the retry
    fails otherwise. *)
Definition agent_returned (W : World) (current_llm_tools : LLM)
    (st : SingleAgent.LoopState) : list ToolCall :=
  let tools_messages :=
    plain_message system (tools_system_prompt W) :: SingleAgent.shared_history st in
  let run := current_llm_tools (SingleAgent.now st) tools_messages in
  match run_raises run with
  | None => returned_calls (run_events run)
  | Some error_msg =>
      if is_multimodal_error W error_msg then
        let run' :=
          current_llm_tools (S (SingleAgent.now st))
            (convert_multimodal_to_text tools_messages) in
        match run_raises run' with
        | None => returned_calls (run_events run ++ run_events run')
        | Some _ => []
        end
      else []
  end.

(** The tool-call list the model returned to an iteration of a role: that
    of the call when it completes, none when it raises. *)
Definition role_returned (role_llm_tools : LLM) (st : Orchestrator.RoleState)
  : list ToolCall :=
  let run := role_llm_tools (Orchestrator.now st) (Orchestrator.messages st) in
  match run_raises run with
  | Some _ => []
  | None => returned_calls (run_events run)
  end.

(** The tool-call list a round of the single agent reads from the model. *)
Definition agent_requested (W : World) (current_llm_tools : LLM) (key : string)
    (st : SingleAgent.LoopState) : list ToolCall :=
  SingleAgent.tool_calls_check (SingleAgent.detect W current_llm_tools key st).2.

(** The tool-call list an iteration of a role reads from the model; a call
    that raises returns none. *)
Definition role_requested (role_id : string) (role_llm_tools : LLM)
    (st : Orchestrator.RoleState) : list ToolCall :=
  let run := role_llm_tools (Orchestrator.now st) (Orchestrator.messages st) in
  match run_raises run with
  | Some _ => []
  | None =>
      Orchestrator.role_tool_calls
        (Orchestrator.consume role_id (run_events run)
           (Orchestrator.await (llm_invoked (Orchestrator.messages st)) st)
           Orchestrator.fresh_iter).2
  end.

(** The messages the tool-bound model of the single agent is called with. *)
Definition tools_messages (W : World) (st : SingleAgent.LoopState) : list Message :=
  plain_message system (tools_system_prompt W) :: SingleAgent.shared_history st.

(** A round of the single agent answers each call the model returned once
    and hands the answers to the next model call. *)
Definition agent_round_answers (W : World) (current_llm_tools : LLM) (key : string)
    (st : SingleAgent.LoopState) : Prop :=
  let st' := (SingleAgent.run_round W current_llm_tools key st).1.2 in
  (exists appended,
     SingleAgent.shared_history st' = SingleAgent.shared_history st ++ appended
     /\ forall c, c ∈ agent_returned W current_llm_tools st ->
                  count_answers (tc_id c) appended = 1)
  /\ (exists more,
        external_calls
          (SingleAgent.process (SingleAgent.detect W current_llm_tools key st').1.2)
        = external_calls (SingleAgent.process st')
            ++ llm_invoked (tools_messages W st') :: more).

(** The same for one iteration of a role of the pipeline, on the role's
    message list. *)
Definition role_iteration_answers (W : World) (role_id : string)
    (tools_allowlist : list string) (role_llm_tools : LLM)
    (st : Orchestrator.RoleState) : Prop :=
  let st' :=
    (Orchestrator.run_iteration W role_id tools_allowlist role_llm_tools st).1.2 in
  (exists appended,
     Orchestrator.messages st' = Orchestrator.messages st ++ appended
     /\ forall c, c ∈ role_returned role_llm_tools st ->
                  count_answers (tc_id c) appended = 1)
  /\ (exists more,
        external_calls
          (Orchestrator.process
             (Orchestrator.run_iteration W role_id tools_allowlist role_llm_tools st').1.2)
        = external_calls (Orchestrator.process st')
            ++ llm_invoked (Orchestrator.messages st') :: more).

(** The content pieces of a stream that carry text. *)
Definition streamed_of (toks : list string) : list string :=
  filter (fun t => t <> "") toks.

Definition nonempty {A} (l : list A) : bool :=
  match l with [] => false | _ => true end.

(** The events the first [async for] yields for the pieces [streamed]:
    a start when the turn has not started yet, then one chunk a piece. *)
Definition stream_events (started : bool) (streamed : list string) : list StreamEvent :=
  match streamed with
  | [] => []
  | _ => (if started then [] else [ai_response_start]) ++ map ai_response_chunk streamed
  end.

(** The content pieces of a call's events that carry text. *)
Definition stream_pieces (evs : list LLMEvent) : list string :=
  streamed_of
    (omap (fun ev => match ev with on_chat_model_stream t => Some t | _ => None end) evs).

(** What a round that answers sends: the [pieces] it streamed, behind a
    start marker when the response had not [started]; the finalized
    [content] as one chunk when nothing was streamed and the response had
    not started; the end marker; the [usage]. *)
Definition answer_sent (started : bool) (pieces : list string) (content : string)
    (usage : option Usage) : list StreamEvent :=
  match pieces with
  | [] =>
      if started then []
      else ai_response_start
             :: (if String.eqb content "" then [] else [ai_response_chunk content])
  | _ => (if started then [] else [ai_response_start]) ++ map ai_response_chunk pieces
  end
  ++ [ai_response_end ""]
  ++ match usage with Some u => [token_usage u] | None => [] end.

(** The final answer of a round: the pieces it streamed, joined, or the
    finalized content when it streamed none. *)
Definition final_answer (pieces : list string) (content : string) : string :=
  match pieces with
  | [] => content
  | _ => join "" pieces
  end.

(** The separator that follows the pieces a tool round streamed. *)
Definition separator_after (pieces : list string) : list StreamEvent :=
  if nonempty pieces then [ai_response_chunk (nl +:+ nl)] else [].

(** The text an iteration of a role ends with: the content of the last
    finalized output or, when that is empty, the pieces streamed before it
    joined; [preview] when no output was finalized. *)
Fixpoint role_text_of (evs : list LLMEvent) (buffered : list string) (preview : string)
  : string :=
  match evs with
  | [] => preview
  | on_chat_model_stream t :: rest =>
      role_text_of rest (if String.eqb t "" then buffered else buffered ++ [t]) preview
  | on_chat_model_end output :: rest =>
      role_text_of rest buffered (str_or (out_content output) (join "" buffered))
  | on_other_event :: rest => role_text_of rest buffered preview
  end.

(** The texts of the chunks of a stream. *)
Definition chunk_texts (out : list StreamEvent) : list string :=
  omap (fun e => match e with ai_response_chunk t => Some t | _ => None end) out.

(** Events of a batch of tool calls and of the failure step. *)
Definition batch_event (e : StreamEvent) : bool :=
  match e with
  | tool_start _ _ _ _ _ | tool_end _ _ _ _
  | tool_error _ _ _ | fallback_triggered _ _ => true
  | _ => false
  end.

(** Events of the tool phase of either loop. *)
Definition tool_phase_event (e : StreamEvent) : bool :=
  match e with
  | tool_plan _ _ | tool_start _ _ _ _ _ | tool_end _ _ _ _
  | tool_error _ _ _ | fallback_triggered _ _ => true
  | _ => false
  end.

Definition is_tool_error (e : StreamEvent) : bool :=
  match e with tool_error _ _ _ => true | _ => false end.

(** What a process keeps for good: the text-only identities are never
    forgotten and the record of external calls only grows. *)
Definition extends (p p' : Process) : Prop :=
  non_multimodal_models p ⊆ non_multimodal_models p'
  /\ exists more, external_calls p' = external_calls p ++ more.

Definition is_tool_plan (e : StreamEvent) : bool :=
  match e with tool_plan _ _ => true | _ => false end.

(** Events yielded while the model's stream is read. *)
Definition stream_phase_event (e : StreamEvent) : bool :=
  match e with ai_response_start | ai_response_chunk _ => true | _ => false end.

(** Events a role of the pipeline may yield. *)
Definition role_event (e : StreamEvent) : bool :=
  match e with
  | ai_response_chunk _ => true
  | _ => tool_phase_event e
  end.

Definition flag (b : bool) : nat := if b then 1 else 0.

(** ** Further inputs of the examples *)

Module ToolExamples.
Import Examples.

Definition two_calls : list ToolCall := [call "c1" "get_price"; call "c2" "lookup"].

Definition role_state : Orchestrator.RoleState :=
  Orchestrator.mkRoleState [plain_message system "plan"; plain_message user "hi"]
    [plain_message user "hi"] "" false false empty_process.

Definition tool_world : World := world (fun _ => false) [price_tool] (asking_llm two_calls).
End ToolExamples.

Module DecisionExamples.
Import Examples.

(** A model that first streams a token and asks for a tool, and on every
    later call streams nothing and delivers its answer as finalized
    content. *)
Definition late_llm : LLM := fun clock _ =>
  match clock with
  | O => mkModelRun [on_chat_model_stream "x";
                     on_chat_model_end (mkAIMessage "x" [call "c1" "get_price"] None)] None
  | S _ => mkModelRun [on_chat_model_end (mkAIMessage "42" [] None)] None
  end.

Definition late_world : World := world (fun _ => false) [price_tool] late_llm.
End DecisionExamples.

Module FailureExamples.
Import Examples.

Definition failing_world (m : LLM) : World := world (fun _ => false) [failing_tool] m.

Definition two_price_calls : list ToolCall :=
  [call "c1" "get_price"; call "c2" "get_price"].

Definition three_calls : list ToolCall :=
  [call "c1" "get_price"; call "c2" "get_price"; call "c3" "get_price"].

(** A turn that has already seen two failed rounds. *)
Definition after_two_failures : SingleAgent.LoopState :=
  SingleAgent.mkLoopState (hello false) 2 false 2
    [("get_price", "timeout"); ("get_price", "timeout")] empty_process.
End FailureExamples.

Module DowngradeExamples.
Import Examples.

Definition signature_text : string := "image_url is not supported by this model".

(** A world whose model refuses every input with the unsupported-input
    signature. *)
Definition blind_world : World := world (fun _ => true) [] (broken_llm signature_text).

Definition model_key : string := "m0@https://base0".

(** A process in which the identity is already recorded. *)
Definition marked_process : Process := mkProcess ∅ ∅ [] {[ model_key ]} [].
End DowngradeExamples.

Module CredentialExamples.
Import Examples.

Definition user_model : UserModel := mkUserModel "uk" "https://user" (Some "um").

(** A world in which session ["s1"] has selected its own model. *)
Definition user_world : World :=
  mkWorld no_json scalar_str (fun _ => false) "sys" [] (fun _ => None)
    (fun _ => broken_llm "down") (fun _ => None)
    {[ "default" := default_profile ]} "default" "m0"
    {[ "s1" := mkSessionContext "user-1" "" {[ "user-1" := user_model ]} ]}.

(** A process whose environment holds both credentials. *)
Definition configured_process : Process :=
  mkProcess {[ ModelManager.KEY := "k-env"; ModelManager.BASE := "https://env" ]}
    ∅ [] ∅ [].
End CredentialExamples.

(** ** Inputs of the further examples *)

Module TurnExamples.
Import Examples.

(** A model that streams [text] and answers with it, asking for nothing. *)
Definition answer_llm (text : string) : LLM := fun _ _ =>
  mkModelRun [on_chat_model_stream text; on_chat_model_end (mkAIMessage text [] None)] None.

Definition answer_world (text : string) : World :=
  world (fun _ => false) [price_tool] (answer_llm text).

(** A model that streams nothing and delivers [text] as finalized content. *)
Definition silent_llm (text : string) : LLM := fun _ _ =>
  mkModelRun (map on_chat_model_stream [] ++ [on_chat_model_end (mkAIMessage text [] None)])
    None.

(** A turn in which an earlier round has streamed already. *)
Definition started_state : SingleAgent.LoopState :=
  SingleAgent.set_started true Examples.start_state.

(** Two sessions that have each selected a model of their own; the
    manager knows the default profile only. *)
Definition two_user_world : World :=
  mkWorld no_json scalar_str (fun _ => false) "sys" [] (fun _ => None)
    (fun _ => answer_llm "ok") (fun _ => None)
    {[ "default" := default_profile ]} "default" "m0"
    {[ "s1" := mkSessionContext "user-1" "" ∅;
       "s2" := mkSessionContext "user-2" "" ∅ ]}.

(** A process in which the identity ["@"] is recorded as text-only. *)
Definition marked_process : Process := mkProcess ∅ ∅ [] {[ "@" ]} [].

End TurnExamples.

(** ** Vocabulary of the further statements *)

Definition role_eqb (a b : Role) : bool :=
  match a, b with
  | system, system | user, user | assistant, assistant | tool, tool => true
  | _, _ => false
  end.

(** Number of messages of role [r]. *)
Definition count_role (r : Role) (ms : list Message) : nat :=
  length (filter (fun m => role_eqb (role m) r = true) ms).

(** Number of external calls that satisfy [q]. *)
Definition count_calls (q : Invocation -> bool) (cs : list Invocation) : nat :=
  length (filter (fun c => q c = true) cs).

(** The events of a batch put together: each start followed by its closing
    event. *)
Fixpoint paired (starts closings : list StreamEvent) : list StreamEvent :=
  match starts, closings with
  | s :: ss, c :: cs => s :: c :: paired ss cs
  | _, _ => []
  end.

(** The [tool_start] events of a batch of the single agent, in request
    order, the loop index starting at [i]. *)
Fixpoint agent_starts (W : World) (i n : nat) (calls : list ToolCall) : list StreamEvent :=
  match calls with
  | [] => []
  | c :: rest =>
      tool_start (tool_id_of i c) (tool_name_of c)
        (parsed_args_of (json_loads W) (py_str W) c)
        (Some (dec i +:+ "/" +:+ dec n)) None
      :: agent_starts W (S i) n rest
  end.

(** What [k] rounds added to the history ([hist]) and to the record of
    external calls ([calls]) against the events they yielded ([out]). *)
Definition tally (k : nat) (hist : list Message) (calls : list Invocation)
    (out : list StreamEvent) : Prop :=
  count_role tool hist = count_events is_tool_closing out
  /\ count_events is_tool_start out = count_events is_tool_closing out
  /\ count_role assistant hist = count_events is_tool_plan out
  /\ count_role system hist = 0
  /\ count_calls is_tool_invocation calls <= count_events is_tool_start out
  /\ k <= count_calls is_llm_invocation calls <= 2 * k.

(** A [fallback_triggered] event reports three failures. *)
Definition reports_three (e : StreamEvent) : bool :=
  match e with
  | fallback_triggered _ n => Nat.eqb n 3
  | _ => true
  end.

(** The events that end an answer round: what was streamed in the round
    ([streamed]), the finalized content and the usage of the model's output,
    in a turn that had or had not [started] its response before. *)
Definition answer_events (started : bool) (streamed : list string) (output : AIMessage)
  : list StreamEvent :=
  (if started then map ai_response_chunk streamed ++ [ai_response_end ""]
   else match streamed with
        | [] => ai_response_start
                  :: (if String.eqb (out_content output) "" then []
                      else [ai_response_chunk (out_content output)])
                  ++ [ai_response_end ""]
        | _ => ai_response_start :: map ai_response_chunk streamed ++ [ai_response_end ""]
        end)
  ++ match out_usage output with
     | Some u => [token_usage (SingleAgent.normalise_usage u)]
     | None => []
     end.

(** What a role that answered hands to the roles after it. *)
Definition note_of (role_id text : string) : Message :=
  plain_message assistant ("[" +:+ role_id +:+ "] " +:+ text).

(** [role.get("id") or "role"] *)
Definition role_id_of (r : RoleSpec) : string := str_or (id r) "role".

(** The answer of a role that has [remaining] iterations left: the text
    ([role_text_of]) of the first model call that completes and returns no
    tool call.  There is none when a model call raises before that, or when
    every one of the iterations returns tool calls. *)
Fixpoint role_answer (W : World) (role_id : string) (tools_allowlist : list string)
    (role_llm_tools : LLM) (remaining : nat) (st : Orchestrator.RoleState)
  : option string :=
  match remaining with
  | O => None
  | S k =>
      let run := role_llm_tools (Orchestrator.now st) (Orchestrator.messages st) in
      match run_raises run with
      | Some _ => None
      | None =>
          match returned_calls (run_events run) with
          | [] => Some (role_text_of (run_events run) [] "")
          | _ =>
              role_answer W role_id tools_allowlist role_llm_tools k
                (Orchestrator.run_iteration W role_id tools_allowlist role_llm_tools st).1.2
          end
      end
  end.

(** The state a role of the pipeline starts from. *)
Definition role_start (W : World) (default_llm_tools : Binding) (role : RoleSpec)
    (ps : Orchestrator.PipelineState) : Orchestrator.RoleState :=
  Orchestrator.mkRoleState
    (plain_message system (system_prompt role) :: Orchestrator.p_shared_history ps)
    (Orchestrator.p_shared_history ps) "" false (Orchestrator.p_any_streamed ps)
    (Orchestrator.role_binding W default_llm_tools role (Orchestrator.p_process ps)).2.

(** The answer of a role of the pipeline, on the model it is bound to. *)
Definition answer_of_role (W : World) (tools_allowlist : list string)
    (default_llm_tools : Binding) (role : RoleSpec) (ps : Orchestrator.PipelineState)
  : option string :=
  role_answer W (role_id_of role) tools_allowlist
    (llm_of W (Orchestrator.role_binding W default_llm_tools role
                 (Orchestrator.p_process ps)).1)
    Orchestrator.max_tool_iterations (role_start W default_llm_tools role ps).

(** The notes of the roles that answer, in role order, each role starting
    from what the roles before it left. *)
Fixpoint pipeline_notes (W : World) (tools_allowlist : list string)
    (default_llm_tools : Binding) (rs : list RoleSpec) (ps : Orchestrator.PipelineState)
  : list Message :=
  match rs with
  | [] => []
  | role :: rest =>
      match answer_of_role W tools_allowlist default_llm_tools role ps with
      | Some text => [note_of (role_id_of role) text]
      | None => []
      end
      ++ pipeline_notes W tools_allowlist default_llm_tools rest
           (Orchestrator.run_role W tools_allowlist default_llm_tools role ps).2
  end.

(** A call made while a role runs: a tool, or the model on the role's base
    messages followed by tool messages only. *)
Definition role_call (base : list Message) (c : Invocation) : Prop :=
  match c with
  | llm_invoked ms =>
      exists answers, ms = base ++ answers /\ Forall (fun m => role m = tool) answers
  | tool_invoked _ _ => True
  end.

(** The calls [more] of roles that ran between [lo] and [hi] iterations
    against the events [out] they yielded. *)
Definition role_tally (lo hi : nat) (more : list Invocation) (out : list StreamEvent)
  : Prop :=
  lo <= count_calls is_llm_invocation more <= hi
  /\ count_events is_tool_plan out <= count_calls is_llm_invocation more
  /\ count_calls is_tool_invocation more <= count_events is_tool_start out.


(** ** The consumer of a turn (backend/main.py)

    [stream_and_persist], the task [websocket_chat] starts for a user
    message: the loop over the events of [mcp_agent.chat_stream] and the
    value [ai_response_final] of its [finally] block, on the path where the
    socket accepts every message and the task is not cancelled. *)

Module Consumer.

(** An entry of [conversation_data["mcp_tools_called"]]. *)
Record ToolCalled : Type := mkToolCalled {
  called_id : string;
  called_name : string;
  called_args : pyval;
  called_progress : option string
}.

(** An entry of [conversation_data["mcp_results"]]: ["success": True] with
    the result, or ["success": False] with the error. *)
Inductive ToolResult : Type :=
| succeeded (tool_id tool_name result : string)
| failed (tool_id error_text : string).

Definition result_id (r : ToolResult) : string :=
  match r with succeeded i _ _ => i | failed i _ => i end.

Record ConversationData : Type := mkConversationData {
  mcp_tools_called : list ToolCalled;
  mcp_results : list ToolResult;
  ai_response_parts : list string;
  usage : option Usage
}.

Definition fresh_data : ConversationData := mkConversationData [] [] [] None.

(** The [if]/[elif] chain on [chunk_type], the [error] branch apart.  The
    type [ai_thinking_chunk], recorded like a chunk, is yielded by neither
    loop. *)
Definition record (e : StreamEvent) (cd : ConversationData) : ConversationData :=
  match e with
  | tool_start tool_id tool_name tool_args progress _ =>
      mkConversationData
        (mcp_tools_called cd ++ [mkToolCalled tool_id tool_name tool_args progress])
        (mcp_results cd) (ai_response_parts cd) (usage cd)
  | tool_end tool_id tool_name result _ =>
      mkConversationData (mcp_tools_called cd)
        (mcp_results cd ++ [succeeded tool_id tool_name result])
        (ai_response_parts cd) (usage cd)
  | tool_error tool_id error_text _ =>
      mkConversationData (mcp_tools_called cd)
        (mcp_results cd ++ [failed tool_id error_text])
        (ai_response_parts cd) (usage cd)
  | ai_response_chunk text =>
      mkConversationData (mcp_tools_called cd) (mcp_results cd)
        (ai_response_parts cd ++ [text]) (usage cd)
  | token_usage u =>
      mkConversationData (mcp_tools_called cd) (mcp_results cd) (ai_response_parts cd)
        (Some (mkUsage (input_tokens u) (output_tokens u) (total_tokens u)))
  | _ => cd
  end.

(** [async for response_chunk in mcp_agent.chat_stream(...)]: every event
    is sent to the socket and then recorded; an [error] event ends the
    loop.  The result holds the events sent. *)
Fixpoint consume (evs : list StreamEvent) (cd : ConversationData)
  : list StreamEvent * ConversationData :=
  match evs with
  | [] => ([], cd)
  | e :: rest =>
      if is_error e then ([e], cd)
      else let '(sent, cd') := consume rest (record e cd) in (e :: sent, cd')
  end.

Definition is_failed (r : ToolResult) : bool :=
  match r with failed _ _ => true | succeeded _ _ _ => false end.

(** [r.get("error", "未知错误")] *)
Definition error_of (r : ToolResult) : string :=
  match r with failed _ e => e | succeeded _ _ _ => "未知错误" end.

(** The text saved as the answer: the parts joined, or, when that is empty
    and some tool failed, the summary of the failures. *)
Definition ai_response_final (cd : ConversationData) : string :=
  let joined := join "" (ai_response_parts cd) in
  if String.eqb joined "" then
    match filter (fun r => is_failed r = true) (mcp_results cd) with
    | [] => ""
    | error_results =>
        "处理过程中遇到错误：" +:+ nl +:+ join nl (map error_of error_results)
    end
  else joined.

(** What the task sends and what it hands to [chat_db.save_conversation]
    as [mcp_tools_called], [mcp_results], [usage] and [ai_response]. *)
Definition stream_and_persist (evs : list StreamEvent)
  : list StreamEvent * ConversationData * string :=
  let '(sent, cd) := consume evs fresh_data in
  (sent, cd, ai_response_final cd).

End Consumer.

(** The identifiers of the [tool_start] events, and of the [tool_end] and
    [tool_error] events, in the order of the stream. *)
Definition started_ids (out : list StreamEvent) : list string :=
  omap (fun e => match e with tool_start i _ _ _ _ => Some i | _ => None end) out.

Definition closed_ids (out : list StreamEvent) : list string :=
  omap (fun e => match e with
                 | tool_end i _ _ _ | tool_error i _ _ => Some i
                 | _ => None
                 end) out.

(** ** Reading the profiles (backend/mcp_modules/model_manager.py)

    [ModelManager.__init__], [_load_llm_profiles_from_env] and
    [get_models_info], with [WebMCPAgent.get_models_info] beside them.  The
    environment is the one [load_dotenv] has left; the string and number
    builtins are parameters. *)

(** [profiles[k] = v] on a dictionary kept in insertion order: an existing
    key keeps its place. *)
Fixpoint dict_put {V} (k : string) (v : V) (d : list (string * V)) : list (string * V) :=
  match d with
  | [] => [(k, v)]
  | (k', v') :: rest =>
      if String.eqb k' k then (k, v) :: rest else (k', v') :: dict_put k v rest
  end.

(** [d.get(k)] *)
Fixpoint dict_lookup {V} (k : string) (d : list (string * V)) : option V :=
  match d with
  | [] => None
  | (k', v') :: rest => if String.eqb k' k then Some v' else dict_lookup k rest
  end.

(** The character [","]. *)
Definition comma : Ascii.ascii := Ascii.ascii_of_nat 44.

(** [s.split(",")] *)
Fixpoint split_comma (s : string) : list string :=
  match s with
  | EmptyString => [""]
  | String c rest =>
      if Ascii.eqb c comma then "" :: split_comma rest
      else match split_comma rest with
           | x :: xs => String c x :: xs
           | [] => [String c ""]
           end
  end.

Module ManagerSetup.

(** One value of the dictionary of profiles. *)
Record Entry (F : Type) : Type := mkEntry {
  e_id : string;
  e_label : string;
  e_api_key : string;
  e_base_url : string;
  e_model : string;
  e_temperature : F;
  e_timeout : Z;
  e_system_prompt : string;
  e_kind : string;
  e_agent_file : string;
  e_backing_profile : string
}.
Arguments mkEntry {F}.
Arguments e_id {F}.
Arguments e_label {F}.
Arguments e_api_key {F}.
Arguments e_base_url {F}.
Arguments e_model {F}.
Arguments e_temperature {F}.
Arguments e_timeout {F}.
Arguments e_system_prompt {F}.
Arguments e_kind {F}.
Arguments e_agent_file {F}.
Arguments e_backing_profile {F}.

(** The fields of an entry the loops read. *)
Definition profile_of {F} (e : Entry F) : Profile :=
  mkProfile (e_api_key e) (e_base_url e) (e_model e) (e_kind e) (e_agent_file e)
    (e_backing_profile e).

(** What [__init__] leaves in [self]. *)
Record Manager (F : Type) : Type := mkManager {
  m_llm_profiles : list (string * Entry F);
  m_default_profile_id : string;
  m_temperature : F;
  m_timeout : Z;
  m_api_key : string;
  m_base_url : string;
  m_model_name : string
}.
Arguments mkManager {F}.
Arguments m_llm_profiles {F}.
Arguments m_default_profile_id {F}.
Arguments m_temperature {F}.
Arguments m_timeout {F}.
Arguments m_api_key {F}.
Arguments m_base_url {F}.
Arguments m_model_name {F}.

(** An entry of the list [get_models_info] returns; [mi_type] and
    [mi_is_agent] are the keys ["type"] and ["is_agent"], which the
    agent's own listing does not set. *)
Record ModelInfo : Type := mkModelInfo {
  mi_id : string;
  mi_label : string;
  mi_model : string;
  mi_is_default : bool;
  mi_type : option string;
  mi_is_agent : option bool
}.

Section Builtins.

(** Floats, with [float(s)] ([None]: [ValueError]) and the literal [0.2]. *)
Context {F : Type}.
Variable py_float : string -> option F.
Variable float_0_2 : F.
(** [int(s)] *)
Variable py_int : string -> option Z.
(** [s.strip()], [s.upper()], [s.lower()] *)
Variables strip upper lower : string -> string.

(** [os.getenv(k, d)] *)
Definition getenv (env : gmap string string) (k d : string) : string :=
  default d (env !! k).

(** The ["default"] profile, from the [OPENAI_*] variables.  The two
    numbers are parsed outside any [try]: [None] is the [ValueError] of
    [float] or [int]. *)
Definition default_entry (env : gmap string string) : option (Entry F) :=
  match py_float (getenv env "OPENAI_TEMPERATURE" "0.2") with
  | None => None
  | Some temperature =>
      match py_int (getenv env "OPENAI_TIMEOUT" "60") with
      | None => None
      | Some timeout =>
          Some (mkEntry "default"
                  (getenv env "LLM_DEFAULT_LABEL" "Default")
                  (strip (getenv env "OPENAI_API_KEY" ""))
                  (strip (getenv env "OPENAI_BASE_URL" ""))
                  (strip (getenv env "OPENAI_MODEL"
                            (getenv env "OPENAI_MODEL_NAME" "deepseek-chat")))
                  temperature timeout
                  (strip (getenv env "LLM_DEFAULT_SYSTEM_PROMPT" ""))
                  (str_or (strip (getenv env "LLM_DEFAULT_KIND" "model")) "model")
                  (strip (getenv env "LLM_DEFAULT_AGENT_FILE" ""))
                  (strip (getenv env "LLM_DEFAULT_BACKING_PROFILE" "")))
      end
  end.

(** The body of [for pid in ...]: the entry written for [pid], or [None]
    when the loop [continue]s. *)
Definition profile_entry (env : gmap string string) (pid : string) : option (Entry F) :=
  let pid_upper := upper pid in
  let var := fun suffix => "LLM_" +:+ pid_upper +:+ suffix in
  let kind := lower (str_or (strip (getenv env (var "_KIND") "model")) "model") in
  let api_key := strip (getenv env (var "_API_KEY") "") in
  let model_name := strip (getenv env (var "_MODEL") "") in
  let base_url := strip (getenv env (var "_BASE_URL") "") in
  let label := getenv env (var "_LABEL") pid in
  let temperature :=
    default float_0_2
      (py_float (getenv env (var "_TEMPERATURE") (getenv env "OPENAI_TEMPERATURE" "0.2"))) in
  let timeout :=
    default 60%Z
      (py_int (getenv env (var "_TIMEOUT") (getenv env "OPENAI_TIMEOUT" "60"))) in
  let system_prompt := strip (getenv env (var "_SYSTEM_PROMPT") "") in
  let agent_file := strip (getenv env (var "_AGENT_FILE") "") in
  let backing_profile := strip (getenv env (var "_BACKING_PROFILE") "") in
  if negb (String.eqb kind "agent")
     && (String.eqb api_key "" || String.eqb model_name "")
  then None
  else Some (mkEntry pid label api_key base_url model_name temperature timeout
               system_prompt kind agent_file backing_profile).

(** [[x.strip() for x in ids_raw.split(",") if x.strip()]], or nothing when
    [LLM_PROFILES] is empty. *)
Definition profile_ids (env : gmap string string) : list string :=
  let ids_raw := strip (getenv env "LLM_PROFILES" "") in
  if String.eqb ids_raw "" then []
  else filter (fun x => x <> "") (map strip (split_comma ids_raw)).

(** The [for] loop over the declared ids. *)
Definition add_profiles (env : gmap string string) (pids : list string)
    (profiles : list (string * Entry F)) : list (string * Entry F) :=
  foldl (fun profiles pid =>
           match profile_entry env pid with
           | Some e => dict_put pid e profiles
           | None => profiles
           end) profiles pids.

(** [_load_llm_profiles_from_env()]; [None]: it raises. *)
Definition load_llm_profiles_from_env (env : gmap string string)
  : option (list (string * Entry F)) :=
  match default_entry env with
  | None => None
  | Some d => Some (add_profiles env (profile_ids env) [("default", d)])
  end.

(** [ModelManager.__init__()]; [None]: it raises. *)
Definition init (env : gmap string string) : option (Manager F) :=
  match load_llm_profiles_from_env env with
  | None => None
  | Some llm_profiles =>
      let default_profile_id :=
        str_or (strip (getenv env "LLM_DEFAULT" "default")) "default" in
      let default_profile_id :=
        if bool_decide (default_profile_id ∈ map fst llm_profiles)
        then default_profile_id else "default" in
      Some (mkManager llm_profiles default_profile_id
              (default float_0_2 (py_float (getenv env "OPENAI_TEMPERATURE" "0.2")))
              (default 60%Z (py_int (getenv env "OPENAI_TIMEOUT" "60")))
              (strip (getenv env "OPENAI_API_KEY" ""))
              (strip (getenv env "OPENAI_BASE_URL" ""))
              (strip (getenv env "OPENAI_MODEL"
                        (getenv env "OPENAI_MODEL_NAME" "deepseek-chat"))))
  end.

(** The id both listings report as the default. *)
Definition effective_default (ids : list string) (default_profile_id : string) : string :=
  let non_default_ids := filter (fun pid => pid <> "default") ids in
  if negb (String.eqb default_profile_id "")
     && negb (String.eqb default_profile_id "default")
     && bool_decide (default_profile_id ∈ ids)
  then default_profile_id
  else match non_default_ids with
       | pid :: _ => pid
       | [] => "default"
       end.

(** The ids both listings show. *)
Definition show_ids (ids : list string) : list string :=
  match filter (fun pid => pid <> "default") ids with
  | [] => if bool_decide ("default" ∈ ids) then ["default"] else []
  | non_default_ids => non_default_ids
  end.

(** [ModelManager.get_models_info()] *)
Definition get_models_info (profiles : list (string * Entry F))
    (default_profile_id : string) : list ModelInfo * string :=
  let ids := map fst profiles in
  let effective := effective_default ids default_profile_id in
  (map (fun pid =>
          match dict_lookup pid profiles with
          | Some cfg =>
              let kind := e_kind cfg in
              let model_for_display :=
                if String.eqb kind "agent" then
                  let backing_id := e_backing_profile cfg in
                  if negb (String.eqb backing_id "") then
                    match dict_lookup backing_id profiles with
                    | Some backing => e_model backing
                    | None => e_model cfg
                    end
                  else e_model cfg
                else e_model cfg in
              mkModelInfo pid (e_label cfg) model_for_display
                (String.eqb pid effective) (Some kind) (Some (String.eqb kind "agent"))
          | None =>                              (* [profiles.get(pid, {})] *)
              mkModelInfo pid pid "" (String.eqb pid effective) (Some "model") (Some false)
          end) (show_ids ids),
   effective).

(** [WebMCPAgent.get_models_info()] *)
Definition agent_get_models_info (profiles : list (string * Entry F))
    (default_profile_id : string) : list ModelInfo * string :=
  let ids := map fst profiles in
  let effective := effective_default ids default_profile_id in
  (map (fun pid =>
          match dict_lookup pid profiles with
          | Some cfg =>
              mkModelInfo pid (e_label cfg) (e_model cfg) (String.eqb pid effective)
                None None
          | None => mkModelInfo pid pid "" (String.eqb pid effective) None None
          end) (show_ids ids),
   effective).

End Builtins.

(** The profiles as the loops look them up. *)
Definition profiles_map {F} (profiles : list (string * Entry F)) : gmap string Profile :=
  list_to_map (map (fun kv => (kv.1, profile_of kv.2)) profiles).

End ManagerSetup.

Module SetupExamples.

(** Builtins good enough for text without blanks and capitals. *)
Definition digits_float (s : string) : option string :=
  if String.eqb s "hot" then None else Some s.
Definition digits_int (s : string) : option Z :=
  if String.eqb s "60" then Some 60%Z else None.
Definition same (s : string) : string := s.

(** An environment that declares the profile [fast] and makes it the
    default. *)
Definition env_fast : gmap string string :=
  {[ "OPENAI_API_KEY" := "k0"; "OPENAI_MODEL" := "m0";
     "LLM_PROFILES" := "fast,slow"; "LLM_DEFAULT" := "fast";
     "LLM_fast_API_KEY" := "k1"; "LLM_fast_MODEL" := "m1" ]}.

Definition load (env : gmap string string)
  : option (list (string * ManagerSetup.Entry string)) :=
  ManagerSetup.load_llm_profiles_from_env digits_float "0.2" digits_int same same same env.

Definition init (env : gmap string string) : option (ManagerSetup.Manager string) :=
  ManagerSetup.init digits_float "0.2" digits_int same same same env.

End SetupExamples.

Definition is_token_usage (e : StreamEvent) : bool :=
  match e with token_usage _ => true | _ => false end.

(** A [token_usage] event carries a total. *)
Definition reports_total (e : StreamEvent) : bool :=
  match e with
  | token_usage u => match total_tokens u with Some _ => true | None => false end
  | _ => true
  end.

(** A stream that reports usage does so once, as its last event, after the
    end marker; [quiet] is a stream that reports none. *)
Definition quiet (out : list StreamEvent) : Prop :=
  count_events is_token_usage out = 0.

Definition usage_at_the_end (out : list StreamEvent) : Prop :=
  quiet out
  \/ exists body u,
       out = body ++ [ai_response_end ""; token_usage u]
       /\ quiet body
       /\ is_Some (total_tokens u).

(** The chunks a role sends for the pieces it streams: the first piece of
    the role carries the role's label. *)
Definition labelled (role_id : string) (prefix_sent : bool) (pieces : list string)
  : list string :=
  match pieces with
  | [] => []
  | t :: ts => (if prefix_sent then t else "[" +:+ role_id +:+ "] " +:+ t) :: ts
  end.

(** What the loop of [_load_llm_profiles_from_env] knows of the dictionary
    it is filling, [pids] being the ids it has gone through. *)
Definition loaded {F} (pids : list string)
    (profiles : list (string * ManagerSetup.Entry F)) : Prop :=
  (exists d rest, profiles = ("default", d) :: rest)
  /\ NoDup (map fst profiles)
  /\ Forall (fun kv => ManagerSetup.e_id kv.2 = kv.1) profiles
  /\ Forall (fun kv => kv.1 <> "default" -> ManagerSetup.e_kind kv.2 <> "agent" ->
                       ManagerSetup.e_api_key kv.2 <> ""
                       /\ ManagerSetup.e_model kv.2 <> "") profiles
  /\ Forall (fun kv => kv.1 = "default" \/ kv.1 ∈ pids) profiles.

(** The usage a round holds has gone through [normalise_usage]. *)
Definition totalled (rv : SingleAgent.RoundVars) : Prop :=
  match SingleAgent.last_usage rv with
  | Some u => is_Some (total_tokens u)
  | None => True
  end.

(** * Argument normalisation *)

Lemma tool_args_raw_truthy (c : ToolCall) :
  truthy (carried_args c) = true -> tool_args_raw_of c = carried_args c.
Proof.
  unfold tool_args_raw_of, carried_args, py_or.
  destruct (truthy (tc_fn_arguments c)) eqn:Hf; [done|].
  intros ->. done.
Qed.

Lemma tool_args_raw_falsy (c : ToolCall) :
  truthy (carried_args c) = false -> tool_args_raw_of c = PDict [].
Proof.
  unfold tool_args_raw_of, carried_args, py_or.
  destruct (truthy (tc_fn_arguments c)) eqn:Hf; [congruence|].
  intros ->. done.
Qed.

Lemma truthy_str (s : string) : truthy (PStr s) = true -> String.eqb s "" = false.
Proof. simpl. by destruct (String.eqb s ""). Qed.

(** C6 (as amended): what a tool call is run with.  A falsy argument value
    gives the empty mapping; a non-empty text is decoded, and wrapped under
    ["$raw"] when decoding fails; a non-empty mapping is used as it is; any
    other truthy value is wrapped as [{"$raw": str(value)}]. *)
Theorem normalisation_of_arguments
    (json_loads : string -> option pyval) (py_str : pyval -> string) (c : ToolCall) :
  parsed_args_of json_loads py_str c =
    if truthy (carried_args c) then
      match carried_args c with
      | PStr s => match json_loads s with Some v => v | None => raw_wrap s end
      | PDict d => PDict d
      | other => raw_wrap (py_str other)
      end
    else PDict [].
Proof.
  unfold parsed_args_of.
  destruct (truthy (carried_args c)) eqn:Ht.
  - rewrite (tool_args_raw_truthy c Ht).
    destruct (carried_args c) as [| b | z | s | l | d]; simpl; try reflexivity.
    by rewrite (truthy_str s Ht).
  - by rewrite (tool_args_raw_falsy c Ht).
Qed.

(** C6, counterexample: a call whose argument is the number [0] is run with
    the empty mapping, not with [{"$raw": "0"}]. *)
Lemma zero_argument_is_not_wrapped :
  let c := mkToolCall "call_a" "get_price" (PInt 0) "" PNone in
  parsed_args_of Examples.no_json Examples.scalar_str c = PDict []
  /\ raw_wrap (Examples.scalar_str (tc_args c)) = PDict [("$raw", PStr "0")]
  /\ parsed_args_of Examples.no_json Examples.scalar_str c
     <> raw_wrap (Examples.scalar_str (tc_args c)).
Proof. cbv zeta. split; [reflexivity | split; [reflexivity | discriminate]]. Qed.

(** * Counting answers *)

Lemma count_answers_app (id : string) (l1 l2 : list Message) :
  count_answers id (l1 ++ l2) = count_answers id l1 + count_answers id l2.
Proof. unfold count_answers. by rewrite filter_app, length_app. Qed.

Lemma count_answers_cons (id : string) (m : Message) (l : list Message) :
  count_answers id (m :: l) = (if answers id m then 1 else 0) + count_answers id l.
Proof.
  unfold count_answers. rewrite filter_cons.
  destruct (answers id m); by case_decide.
Qed.

Lemma answers_answer_to (id tid : string) (m : Message) :
  answer_to m tid -> answers id m = bool_decide (tid = id).
Proof.
  intros [Hr Hi]. unfold answers. rewrite Hr, Hi.
  destruct (String.eqb tid id) eqn:E.
  - apply String.eqb_eq in E. by rewrite bool_decide_eq_true_2.
  - apply String.eqb_neq in E. by rewrite bool_decide_eq_false_2.
Qed.

(** A list of messages that answers the identifiers [ids] one by one holds,
    for each [id], as many answers as [ids] has occurrences of it. *)
Lemma count_answers_Forall2 (id : string) (ms : list Message) (ids : list string) :
  Forall2 answer_to ms ids ->
  count_answers id ms = length (filter (fun t => t = id) ids).
Proof.
  induction 1 as [| m t ms ids Hm _ IH]; [reflexivity|].
  rewrite count_answers_cons, (answers_answer_to id t m Hm), filter_cons, IH.
  case_bool_decide; case_decide; simpl; congruence.
Qed.

Lemma occurrences_absent (id : string) (ids : list string) :
  id ∉ ids -> filter (fun t => t = id) ids = [].
Proof.
  induction ids as [| t ids IH]; [done|].
  intros Hn. apply not_elem_of_cons in Hn as [Hne Hn].
  rewrite filter_cons_False by congruence. by apply IH.
Qed.

Lemma occurrences_NoDup (id : string) (ids : list string) :
  NoDup ids -> id ∈ ids -> length (filter (fun t => t = id) ids) = 1.
Proof.
  induction 1 as [| t ids Hnot Hnd IH]; intros Hin.
  - by apply elem_of_nil in Hin.
  - apply elem_of_cons in Hin as [-> | Hin].
    + rewrite filter_cons_True by done. by rewrite occurrences_absent.
    + rewrite filter_cons_False; [by apply IH|].
      intros ->. contradiction.
Qed.

(** With well-formed identifiers the loop index is never used. *)
Lemma effective_ids_well_formed (i : nat) (calls : list ToolCall) :
  Forall (fun c => tc_id c <> "") calls -> effective_ids i calls = map tc_id calls.
Proof.
  intros H. revert i. induction H as [| c calls Hc _ IH]; intros i; [done|].
  simpl. rewrite IH. f_equal. unfold tool_id_of, str_or.
  destruct (String.eqb (tc_id c) "") eqn:E; [|done].
  by apply String.eqb_eq in E.
Qed.

Lemma answered_once (ms : list Message) (i : nat) (calls : list ToolCall) (c : ToolCall) :
  well_formed_ids calls -> Forall2 answer_to ms (effective_ids i calls) ->
  c ∈ calls -> count_answers (tc_id c) ms = 1.
Proof.
  intros [Hne Hnd] Hms Hc.
  rewrite (count_answers_Forall2 _ _ _ Hms), (effective_ids_well_formed _ _ Hne).
  apply occurrences_NoDup; [done|]. by apply list_elem_of_fmap_2.
Qed.

(** * Reading the events of a model call *)

Lemma stream_pieces_cons (ev : LLMEvent) (evs : list LLMEvent) :
  stream_pieces (ev :: evs)
  = match ev with
    | on_chat_model_stream t => if String.eqb t "" then stream_pieces evs
                                else t :: stream_pieces evs
    | _ => stream_pieces evs
    end.
Proof.
  unfold stream_pieces, streamed_of. destruct ev as [t | output |]; try done.
  change (omap ?f (on_chat_model_stream t :: evs)) with (t :: omap f evs).
  rewrite filter_cons. destruct (String.eqb t "") eqn:E.
  - apply String.eqb_eq in E. by rewrite decide_False by (intros H; by apply H).
  - apply String.eqb_neq in E. by rewrite decide_True.
Qed.

Lemma stream_events_started (pieces : list string) :
  stream_events true pieces = map ai_response_chunk pieces.
Proof. by destruct pieces. Qed.

Lemma stream_events_cons (started : bool) (t : string) (pieces : list string) :
  stream_events started (t :: pieces)
  = (if started then [] else [ai_response_start])
      ++ ai_response_chunk t :: map ai_response_chunk pieces.
Proof. reflexivity. Qed.

Lemma calls_after_cons (init : list ToolCall) (ev : LLMEvent) (evs : list LLMEvent) :
  calls_after init (ev :: evs)
  = calls_after (match ev with on_chat_model_end o => out_tool_calls o | _ => init end) evs.
Proof.
  unfold calls_after, finalized. destruct ev as [t | o |]; try done.
  change (omap ?f (on_chat_model_end o :: evs)) with (o :: omap f evs).
  rewrite last_cons. by destruct (last _).
Qed.

Lemma content_after_cons (init : string) (ev : LLMEvent) (evs : list LLMEvent) :
  content_after init (ev :: evs)
  = content_after (match ev with on_chat_model_end o => out_content o | _ => init end) evs.
Proof.
  unfold content_after, finalized. destruct ev as [t | o |]; try done.
  change (omap ?f (on_chat_model_end o :: evs)) with (o :: omap f evs).
  rewrite last_cons. by destruct (last _).
Qed.

Lemma usage_after_cons (init : option Usage) (ev : LLMEvent) (evs : list LLMEvent) :
  usage_after init (ev :: evs)
  = usage_after (match ev with
                 | on_chat_model_end o =>
                     match out_usage o with
                     | Some u => Some (SingleAgent.normalise_usage u)
                     | None => init
                     end
                 | _ => init
                 end) evs.
Proof.
  unfold usage_after, finalized. destruct ev as [t | o |]; try done.
  change (omap ?f (on_chat_model_end o :: evs)) with (o :: omap f evs).
  change (omap out_usage (o :: ?l))
    with (match out_usage o with
          | Some u => u :: omap out_usage l
          | None => omap out_usage l
          end).
  destruct (out_usage o) as [u|]; [|done].
  rewrite last_cons. by destruct (last _).
Qed.

Lemma calls_after_app (init : list ToolCall) (evs evs' : list LLMEvent) :
  calls_after init (evs ++ evs') = calls_after (calls_after init evs) evs'.
Proof.
  revert init. induction evs as [| ev evs IH]; intros init; [done|].
  cbn [app]. by rewrite !calls_after_cons, IH.
Qed.

Lemma content_after_app (init : string) (evs evs' : list LLMEvent) :
  content_after init (evs ++ evs') = content_after (content_after init evs) evs'.
Proof.
  revert init. induction evs as [| ev evs IH]; intros init; [done|].
  cbn [app]. by rewrite !content_after_cons, IH.
Qed.

Module ReadFacts.
Import SingleAgent.

(** The first [async for], on any events. *)
Lemma consume_general (evs : list LLMEvent) (started : bool) (rv : RoundVars) :
  consume evs started rv
  = (stream_events started (stream_pieces evs),
     started || nonempty (stream_pieces evs),
     mkRoundVars (calls_after (tool_calls_check rv) evs)
       (usage_after (last_usage rv) evs)
       (buffered_chunks rv ++ stream_pieces evs)
       (content_after (content_preview rv) evs)
       (response_started rv || nonempty (stream_pieces evs))).
Proof.
  revert started rv. induction evs as [| ev evs IH]; intros started rv.
  { cbn. rewrite app_nil_r, !orb_false_r. by destruct rv. }
  rewrite stream_pieces_cons, calls_after_cons, content_after_cons, usage_after_cons.
  destruct ev as [t | o |]; cbn [consume].
  - destruct (String.eqb t ""); [apply IH|].
    rewrite IH. cbn [tool_calls_check last_usage buffered_chunks content_preview
                       response_started nonempty orb].
    by rewrite stream_events_started, stream_events_cons, !orb_true_r, <- app_assoc.
  - by rewrite IH.
  - apply IH.
Qed.

(** The [async for] of the retry, on any events. *)
Lemma consume_retry_general (evs : list LLMEvent) (rv : RoundVars) :
  consume_retry evs rv
  = (map ai_response_chunk (stream_pieces evs),
     mkRoundVars (calls_after (tool_calls_check rv) evs) (last_usage rv)
       (buffered_chunks rv ++ stream_pieces evs)
       (content_after (content_preview rv) evs)
       (response_started rv || nonempty (stream_pieces evs))).
Proof.
  revert rv. induction evs as [| ev evs IH]; intros rv.
  { cbn. rewrite app_nil_r, orb_false_r. by destruct rv. }
  rewrite stream_pieces_cons, calls_after_cons, content_after_cons.
  destruct ev as [t | o |]; cbn [consume_retry].
  - destruct (String.eqb t ""); [apply IH|].
    rewrite IH. cbn [tool_calls_check last_usage buffered_chunks content_preview
                       response_started nonempty orb map].
    by rewrite !orb_true_r, <- app_assoc.
  - by rewrite IH.
  - apply IH.
Qed.

Section Facts.
Variable W : World.
Variable current_llm_tools : LLM.
Variable current_model_key : string.

(** Detection on a call that completes. *)
Lemma detect_completed (st : LoopState) :
  let run := current_llm_tools (now st) (tools_messages W st) in
  let evs := run_events run in
  run_raises run = None ->
  detect W current_llm_tools current_model_key st
  = (stream_events (combined_response_started st) (stream_pieces evs),
     set_started (combined_response_started st || nonempty (stream_pieces evs))
       (await (llm_invoked (tools_messages W st)) st),
     mkRoundVars (returned_calls evs) (reported_usage evs) (stream_pieces evs)
       (returned_content evs) (nonempty (stream_pieces evs))).
Proof.
  cbv zeta. intros Hrun. unfold detect. fold (tools_messages W st).
  rewrite consume_general, Hrun. reflexivity.
Qed.

(** The round reads the list the model returned. *)
Lemma agent_reads_returned (st : LoopState) :
  agent_requested W current_llm_tools current_model_key st
  = agent_returned W current_llm_tools st.
Proof.
  unfold agent_requested, agent_returned, detect. cbv zeta.
  rewrite consume_general.
  destruct (run_raises _) as [error_msg|]; [|reflexivity].
  destruct (is_multimodal_error W error_msg); [|reflexivity].
  assert (forall b1 b2 c,
            now (set_started b1
                   (mark_non_multimodal current_model_key
                      (set_started b2 (await c st)))) = S (now st)) as Hnow.
  { intros b1 b2 c. unfold now. cbn. rewrite length_app. cbn. lia. }
  rewrite Hnow, consume_retry_general.
  destruct (run_raises _); [reflexivity|].
  cbn [snd tool_calls_check fresh_round]. unfold returned_calls.
  by rewrite calls_after_app.
Qed.

End Facts.
End ReadFacts.

Module RoleReadFacts.
Import Orchestrator.

(** What an iteration of a role reads, on any events. *)
Lemma role_consume_general (role_id : string) (evs : list LLMEvent)
    (st : RoleState) (iv : IterVars) :
  (consume role_id evs st iv).2
  = mkIterVars (calls_after (role_tool_calls iv) evs)
      (role_text_of evs (buffered_chunks iv) (content_preview iv))
      (buffered_chunks iv ++ stream_pieces evs).
Proof.
  revert st iv. induction evs as [| ev evs IH]; intros st iv.
  { cbn. rewrite app_nil_r. by destruct iv. }
  rewrite stream_pieces_cons, calls_after_cons.
  destruct ev as [t | o |]; cbn [consume role_text_of].
  - destruct (String.eqb t ""); [apply IH|].
    specialize (IH (streamed st)
                  (mkIterVars (role_tool_calls iv) (content_preview iv)
                     (buffered_chunks iv ++ [t]))).
    destruct (consume role_id evs _ _) as [[out st'] iv']. cbn [fst snd] in *.
    rewrite IH. cbn [role_tool_calls content_preview buffered_chunks].
    by rewrite <- app_assoc.
  - by rewrite IH.
  - apply IH.
Qed.

(** The iteration reads the list the model returned. *)
Lemma role_reads_returned (role_id : string) (role_llm_tools : LLM) (st : RoleState) :
  role_requested role_id role_llm_tools st = role_returned role_llm_tools st.
Proof.
  unfold role_requested, role_returned. cbv zeta.
  destruct (run_raises _); [done|]. by rewrite role_consume_general.
Qed.

End RoleReadFacts.

Module RoundReadFacts.
Import SingleAgent.

Section Facts.
Variable W : World.
Variable current_llm_tools : LLM.
Variable current_model_key : string.

(** Detection on a call that raises anything but the signature. *)
Lemma detect_failed (st : LoopState) (error_msg : string) :
  let run := current_llm_tools (now st) (tools_messages W st) in
  let evs := run_events run in
  run_raises run = Some error_msg ->
  is_multimodal_error W error_msg = false ->
  detect W current_llm_tools current_model_key st
  = (stream_events (combined_response_started st) (stream_pieces evs),
     set_started (combined_response_started st || nonempty (stream_pieces evs))
       (await (llm_invoked (tools_messages W st)) st),
     mkRoundVars [] (reported_usage evs) (stream_pieces evs) ""
       (nonempty (stream_pieces evs))).
Proof.
  cbv zeta. intros Hrun Hsig. unfold detect. fold (tools_messages W st).
  rewrite ReadFacts.consume_general, Hrun, Hsig. reflexivity.
Qed.

(** Detection on a call that raises the signature: the retry goes on from
    what the call has read. *)
Lemma detect_retried (st : LoopState) (error_msg : string) :
  let messages := tools_messages W st in
  let run := current_llm_tools (now st) messages in
  let evs := run_events run in
  let pieces := stream_pieces evs in
  let started := combined_response_started st in
  let run' := current_llm_tools (S (now st)) (convert_multimodal_to_text messages) in
  let evs' := run_events run' in
  let rv3 :=
    mkRoundVars (returned_calls (evs ++ evs')) (reported_usage evs)
      (pieces ++ stream_pieces evs') (returned_content (evs ++ evs'))
      (nonempty (pieces ++ stream_pieces evs')) in
  run_raises run = Some error_msg ->
  is_multimodal_error W error_msg = true ->
  detect W current_llm_tools current_model_key st
  = (stream_events started pieces
       ++ ((if started || nonempty pieces then [] else [ai_response_start])
             ++ [ai_response_chunk downgrade_notice])
       ++ map ai_response_chunk (stream_pieces evs'),
     await (llm_invoked (convert_multimodal_to_text messages))
       (set_started true
          (mark_non_multimodal current_model_key
             (set_started (started || nonempty pieces)
                (await (llm_invoked messages) st)))),
     match run_raises run' with
     | None => rv3
     | Some _ => clear_output rv3
     end).
Proof.
  cbv zeta. intros Hrun Hsig. unfold detect. fold (tools_messages W st).
  rewrite ReadFacts.consume_general, Hrun, Hsig.
  assert (forall b1 b2 c,
            now (set_started b1
                   (mark_non_multimodal current_model_key
                      (set_started b2 (await c st)))) = S (now st)) as Hnow.
  { intros b1 b2 c. unfold now. cbn. rewrite length_app. cbn. lia. }
  rewrite Hnow, ReadFacts.consume_retry_general.
  cbn [tool_calls_check last_usage buffered_chunks content_preview response_started
         fresh_round app orb].
  unfold returned_calls, returned_content.
  rewrite calls_after_app, content_after_app.
  assert (forall (p q : list string), nonempty p || nonempty q = nonempty (p ++ q)) as Hne.
  { intros [|] [|]; reflexivity. }
  rewrite Hne.
  cbn [combined_response_started mark_non_multimodal on_process set_started].
  destruct (run_raises (current_llm_tools (S (now st)) _)); reflexivity.
Qed.

(** A round, from what detection read. *)
Lemma run_round_eq (st : LoopState) :
  run_round W current_llm_tools current_model_key st
  = let d := detect W current_llm_tools current_model_key st in
    match tool_calls_check d.2 with
    | [] =>
        (d.1.1 ++ closing (combined_response_started d.1.2) (final_text_of d.2)
           ++ match last_usage d.2 with Some u => [token_usage u] | None => [] end,
         set_started true d.1.2, ANSWER_DECIDED (final_text_of d.2))
    | calls =>
        (d.1.1 ++ separator d.2 ++ (execute_tools W calls d.1.2).1,
         (execute_tools W calls d.1.2).2, TOOL_DECIDED)
    end.
Proof.
  unfold run_round. destruct (detect _ _ _ _) as [[out st1] rv]. cbn [fst snd].
  destruct (tool_calls_check rv); [done|]. by destruct (execute_tools _ _ _).
Qed.

End Facts.

Lemma closing_sent (started : bool) (pieces : list string) (content : string)
    (usage : option Usage) :
  stream_events started pieces
    ++ closing (started || nonempty pieces) (final_answer pieces content)
    ++ match usage with Some u => [token_usage u] | None => [] end
  = answer_sent started pieces content usage.
Proof.
  unfold answer_sent, closing, stream_events, final_answer.
  destruct pieces as [| t s].
  - cbn [nonempty]. rewrite orb_false_r. destruct started; [done|].
    cbn [app]. by rewrite <- app_assoc.
  - cbn [nonempty]. rewrite orb_true_r. by rewrite <- !app_assoc.
Qed.

Lemma separator_of (calls : list ToolCall) (usage : option Usage) (pieces : list string)
    (content : string) :
  separator (mkRoundVars calls usage pieces content (nonempty pieces))
  = separator_after pieces.
Proof. unfold separator, separator_after. by destruct pieces. Qed.

Lemma final_text_read (calls : list ToolCall) (usage : option Usage)
    (pieces : list string) (content : string) (b : bool) :
  final_text_of (mkRoundVars calls usage pieces content b) = final_answer pieces content.
Proof. by destruct pieces. Qed.

End RoundReadFacts.

Lemma count_events_app (p : StreamEvent -> bool) (l1 l2 : list StreamEvent) :
  count_events p (l1 ++ l2) = count_events p l1 + count_events p l2.
Proof. unfold count_events. by rewrite filter_app, length_app. Qed.

Lemma count_events_nil (p : StreamEvent -> bool) : count_events p [] = 0.
Proof. reflexivity. Qed.

Lemma count_events_cons (p : StreamEvent -> bool) (e : StreamEvent) (l : list StreamEvent) :
  count_events p (e :: l) = (if p e then 1 else 0) + count_events p l.
Proof.
  unfold count_events. rewrite filter_cons. destruct (p e); by case_decide.
Qed.

(** Push [count_events] through a list written out with [++] and [::]. *)
Ltac count_out :=
  repeat first [ rewrite count_events_app
               | rewrite count_events_cons
               | rewrite count_events_nil ];
  cbn [is_response_start is_response_end is_error flag app] in *.

(** * The role pipeline: one tool call, one batch *)

Module PipelineFacts.
Import Orchestrator.

Section Facts.
Variable W : World.
Variables (role_id : string) (tools_allowlist : list string).

Lemma rejected_true (tool_name : string) :
  rejected tools_allowlist tool_name = true <->
  tools_allowlist <> [] /\ tool_name <> "" /\ tool_name ∉ tools_allowlist.
Proof.
  unfold rejected. rewrite !andb_true_iff, !negb_true_iff.
  rewrite !bool_decide_eq_false, String.eqb_neq. tauto.
Qed.

(** What a single call adds to the role's messages and to the record of
    external calls. *)
Lemma role_tool_call_messages (i : nat) (c : ToolCall) (st : RoleState) :
  exists m,
    messages (run_tool_call W role_id tools_allowlist i c st).2 = messages st ++ [m]
    /\ answer_to m (tool_id_of i c).
Proof.
  unfold run_tool_call.
  destruct (rejected tools_allowlist (tool_name_of c)); [by eexists|].
  destruct (find_tool (tools W) (tool_name_of c)) as [t|]; [|by eexists].
  destruct (ainvoke t _ _); by eexists.
Qed.

Lemma role_tool_call_frame (i : nat) (c : ToolCall) (st : RoleState) :
  let st' := (run_tool_call W role_id tools_allowlist i c st).2 in
  shared_history st' = shared_history st
  /\ role_last_content st' = role_last_content st
  /\ role_prefix_sent st' = role_prefix_sent st
  /\ any_streamed st' = any_streamed st.
Proof.
  unfold run_tool_call.
  destruct (rejected tools_allowlist (tool_name_of c)); [done|].
  destruct (find_tool (tools W) (tool_name_of c)) as [t|]; [|done].
  by destruct (ainvoke t _ _).
Qed.

Lemma role_tools_cons (i : nat) (c : ToolCall) (rest : list ToolCall) (st : RoleState) :
  run_tools W role_id tools_allowlist i (c :: rest) st =
    let r1 := run_tool_call W role_id tools_allowlist i c st in
    let r2 := run_tools W role_id tools_allowlist (S i) rest r1.2 in
    (r1.1 ++ r2.1, r2.2).
Proof.
  simpl. destruct (run_tool_call _ _ _ _ _ _) as [out st1]. simpl.
  by destruct (run_tools _ _ _ _ _ _).
Qed.

(** Every call of the batch is answered, in request order. *)
Lemma role_tools_messages (calls : list ToolCall) (i : nat) (st : RoleState) :
  exists ms,
    messages (run_tools W role_id tools_allowlist i calls st).2 = messages st ++ ms
    /\ Forall2 answer_to ms (effective_ids i calls).
Proof.
  revert i st. induction calls as [| c rest IH]; intros i st.
  - exists []. split; [by rewrite app_nil_r | constructor].
  - rewrite role_tools_cons. cbv zeta. simpl.
    destruct (role_tool_call_messages i c st) as (m & Hm & Ha).
    destruct (IH (S i) (run_tool_call W role_id tools_allowlist i c st).2)
      as (ms & Hms & Hall).
    exists (m :: ms). split; [|by constructor].
    by rewrite Hms, Hm, <- app_assoc.
Qed.

(** The events of one call: an error alone for a rejected call, a start
    and its closing event otherwise. *)
Lemma role_tool_call_events (i : nat) (c : ToolCall) (st : RoleState) :
  let out := (run_tool_call W role_id tools_allowlist i c st).1 in
  if rejected tools_allowlist (tool_name_of c)
  then out = [tool_error (tool_id_of i c)
                ("工具 '" +:+ tool_name_of c +:+ "' 不在允许列表中") (Some role_id)]
  else exists closing,
         out = [tool_start (tool_id_of i c) (tool_name_of c)
                  (parsed_args_of (json_loads W) (py_str W) c) None (Some role_id);
                closing]
         /\ closes (tool_id_of i c) closing = true.
Proof.
  unfold run_tool_call.
  destruct (rejected tools_allowlist (tool_name_of c)); [done|].
  destruct (find_tool (tools W) (tool_name_of c)) as [t|].
  - destruct (ainvoke t _ _); eexists; (split; [reflexivity|]);
      simpl; apply String.eqb_refl.
  - eexists; split; [reflexivity|]. simpl; apply String.eqb_refl.
Qed.

Lemma role_tools_starts (calls : list ToolCall) (i : nat) (st : RoleState) :
  let out := (run_tools W role_id tools_allowlist i calls st).1 in
  count_events is_tool_start out
    = length (filter (fun c => rejected tools_allowlist (tool_name_of c) = false) calls)
  /\ count_events is_tool_closing out = length calls.
Proof.
  revert i st. induction calls as [| c rest IH]; intros i st; [done|].
  rewrite role_tools_cons. cbv zeta. simpl fst.
  rewrite !count_events_app.
  destruct (IH (S i) (run_tool_call W role_id tools_allowlist i c st).2) as [-> ->].
  pose proof (role_tool_call_events i c st) as H. cbv zeta in H.
  rewrite filter_cons.
  destruct (rejected tools_allowlist (tool_name_of c)).
  - rewrite H. rewrite decide_False by done. done.
  - destruct H as (closing & -> & Hc). rewrite decide_True by done.
    destruct closing; try discriminate; done.
Qed.

End Facts.
End PipelineFacts.

(** * The single agent: one tool call, one batch *)

Module AgentFacts.
Import SingleAgent.

Section Facts.
Variable W : World.
Variable current_llm_tools : LLM.
Variable current_model_key : string.

Lemma agent_tool_call_history (i n : nat) (c : ToolCall) (st : LoopState) (e : bool) :
  exists m,
    shared_history (run_tool_call W i n c st e).1.2 = shared_history st ++ [m]
    /\ answer_to m (tool_id_of i c).
Proof.
  unfold run_tool_call.
  destruct (find_tool (tools W) (tool_name_of c)) as [t|]; [|by eexists].
  destruct (ainvoke t _ _); by eexists.
Qed.

Lemma agent_tools_cons (i n : nat) (c : ToolCall) (rest : list ToolCall)
    (st : LoopState) (e : bool) :
  run_tools W i n (c :: rest) st e =
    let r1 := run_tool_call W i n c st e in
    let r2 := run_tools W (S i) n rest r1.1.2 r1.2 in
    (r1.1.1 ++ r2.1.1, r2.1.2, r2.2).
Proof.
  simpl. destruct (run_tool_call _ _ _ _ _ _) as [[out st1] e1]. simpl.
  by destruct (run_tools _ _ _ _ _ _) as [[? ?] ?].
Qed.

(** Every call of the batch is answered, in request order: nothing is
    skipped. *)
Lemma agent_tools_history (calls : list ToolCall) (i n : nat) (st : LoopState) (e : bool) :
  exists ms,
    shared_history (run_tools W i n calls st e).1.2 = shared_history st ++ ms
    /\ Forall2 answer_to ms (effective_ids i calls).
Proof.
  revert i st e. induction calls as [| c rest IH]; intros i st e.
  - exists []. split; [by rewrite app_nil_r | constructor].
  - rewrite agent_tools_cons. cbv zeta. simpl.
    destruct (agent_tool_call_history i n c st e) as (m & Hm & Ha).
    destruct (IH (S i) (run_tool_call W i n c st e).1.2 (run_tool_call W i n c st e).2)
      as (ms & Hms & Hall).
    exists (m :: ms). split; [|by constructor].
    by rewrite Hms, Hm, <- app_assoc.
Qed.

(** The failure counter step adds the fallback instruction or nothing. *)
Lemma update_failures_history (st : LoopState) (e : bool) :
  let st' := (update_failures st e).2 in
  shared_history st' = shared_history st
  \/ shared_history st'
     = shared_history st
         ++ [plain_message user
               (fallback_prompt (tool_error_history st))].
Proof.
  unfold update_failures. destruct e; [|by left].
  destruct (_ <=? _); [by right | by left].
Qed.

Lemma execute_tools_eq (calls : list ToolCall) (st : LoopState) :
  execute_tools W calls st =
    let r := run_tools W 1 (length calls) calls
               (append_history (assistant_tool_calls calls) st) false in
    let f := update_failures r.1.2 r.2 in
    (tool_plan ("AI决定调用 " +:+ dec (length calls) +:+ " 个工具") (length calls)
       :: r.1.1 ++ f.1, f.2).
Proof.
  unfold execute_tools.
  destruct (run_tools _ _ _ _ _ _) as [[out st3] e]. simpl.
  by destruct (update_failures st3 e).
Qed.

(** The messages a tool round appends: the assistant message, one answer
    per call, and at most the fallback instruction. *)
Lemma execute_tools_history (calls : list ToolCall) (st : LoopState) :
  exists ms fb,
    shared_history (execute_tools W calls st).2
      = shared_history st ++ assistant_tool_calls calls :: ms ++ fb
    /\ Forall2 answer_to ms (effective_ids 1 calls)
    /\ (fb = [] \/ exists text, fb = [plain_message user text]).
Proof.
  rewrite execute_tools_eq. cbv zeta. simpl snd.
  destruct (agent_tools_history calls 1 (length calls)
              (append_history (assistant_tool_calls calls) st) false)
    as (ms & Hms & Hall).
  destruct (update_failures_history
              (run_tools W 1 (length calls) calls
                 (append_history (assistant_tool_calls calls) st) false).1.2
              (run_tools W 1 (length calls) calls
                 (append_history (assistant_tool_calls calls) st) false).2)
    as [Hf | Hf]; cbv zeta in Hf; rewrite Hf, Hms; simpl.
  - exists ms, []. rewrite app_nil_r, <- app_assoc. auto.
  - eexists ms, [_]. rewrite <- !app_assoc. simpl. eauto.
Qed.

End Facts.
End AgentFacts.

Module DetectFacts.
Import SingleAgent.

Section Facts.
Variable W : World.
Variable current_llm_tools : LLM.
Variable current_model_key : string.

(** Detection leaves the history, the round index and the failure
    bookkeeping alone. *)
Lemma detect_frame (st : LoopState) :
  let st' := (detect W current_llm_tools current_model_key st).1.2 in
  shared_history st' = shared_history st
  /\ round_index st' = round_index st
  /\ consecutive_tool_failures st' = consecutive_tool_failures st
  /\ tool_error_history st' = tool_error_history st.
Proof.
  unfold detect.
  destruct (consume _ _ _) as [[out1 s1] rv1].
  destruct (run_raises _); [|done].
  destruct (is_multimodal_error W _); [|done].
  destruct (consume_retry _ _) as [out3 rv3].
  by destruct (run_raises _).
Qed.

(** Detection calls the model once, or twice when it retries, the first
    time on the system prompt followed by the history. *)
Lemma detect_calls (st : LoopState) :
  exists more,
    external_calls (process (detect W current_llm_tools current_model_key st).1.2)
      = external_calls (process st) ++ llm_invoked (tools_messages W st) :: more
    /\ (more = [] \/ more = [llm_invoked (convert_multimodal_to_text (tools_messages W st))]).
Proof.
  unfold detect, tools_messages.
  destruct (consume _ _ _) as [[out1 s1] rv1].
  destruct (run_raises _); [|exists []; by auto].
  destruct (is_multimodal_error W _); [|exists []; by auto].
  destruct (consume_retry _ _) as [out3 rv3].
  destruct (run_raises _); eexists [_]; simpl; rewrite <- app_assoc; eauto.
Qed.

Lemma run_round_history (st : LoopState) :
  let calls := agent_requested W current_llm_tools current_model_key st in
  exists ms fb,
    shared_history (run_round W current_llm_tools current_model_key st).1.2
      = shared_history st
          ++ match calls with
             | [] => []
             | _ => assistant_tool_calls calls :: ms ++ fb
             end
    /\ Forall2 answer_to ms (effective_ids 1 calls)
    /\ (fb = [] \/ exists text, fb = [plain_message user text]).
Proof.
  cbv zeta. unfold agent_requested, run_round.
  pose proof (detect_frame st) as (Hh & _). cbv zeta in Hh.
  destruct (detect W current_llm_tools current_model_key st) as [[out st1] rv].
  simpl in *. destruct (tool_calls_check rv) as [| c rest] eqn:Hc.
  - exists [], []. simpl. rewrite app_nil_r. split; [done|]. split; [constructor | auto].
  - destruct (AgentFacts.execute_tools_history W (c :: rest) st1) as (ms & fb & H1 & H2 & H3).
    destruct (execute_tools W (c :: rest) st1) as [out_t st4]. simpl in *.
    exists ms, fb. by rewrite H1, Hh.
Qed.

End Facts.
End DetectFacts.

Module RoleFacts.
Import Orchestrator.

Section Facts.
Variable W : World.
Variables (role_id : string) (tools_allowlist : list string).
Variable role_llm_tools : LLM.

(** Reading the stream touches neither the messages nor the process. *)
Lemma role_consume_frame (evs : list LLMEvent) (st : RoleState) (iv : IterVars) :
  let st' := (consume role_id evs st iv).1.2 in
  messages st' = messages st
  /\ shared_history st' = shared_history st
  /\ role_last_content st' = role_last_content st
  /\ process st' = process st.
Proof.
  revert st iv. induction evs as [| ev rest IH]; intros st iv; [done|].
  destruct ev as [piece | output |]; simpl.
  - destruct (String.eqb piece ""); [apply IH|].
    specialize (IH (streamed st)
                  (mkIterVars (role_tool_calls iv) (content_preview iv)
                     (buffered_chunks iv ++ [piece]))).
    destruct (consume role_id rest _ _) as [[out st'] iv']. exact IH.
  - apply IH.
  - apply IH.
Qed.

Lemma run_iteration_messages (st : RoleState) :
  let calls := role_requested role_id role_llm_tools st in
  exists ms tail,
    messages (run_iteration W role_id tools_allowlist role_llm_tools st).1.2
      = messages st ++ ms ++ tail
    /\ Forall2 answer_to ms (effective_ids 1 calls)
    /\ (tail = [] \/ exists text, tail = [plain_message assistant text]).
Proof.
  cbv zeta. unfold role_requested, run_iteration.
  pose proof (role_consume_frame
                (run_events (role_llm_tools (now st) (messages st)))
                (await (llm_invoked (messages st)) st) fresh_iter) as (Hm & _).
  cbv zeta in Hm.
  destruct (consume role_id _ _ _) as [[out st1] iv]. cbn [fst snd] in *.
  destruct (run_raises _).
  - exists [], []. cbn [fst snd app]. rewrite app_nil_r, Hm. split; [done|]. split; [constructor|auto].
  - destruct (role_tool_calls iv) as [| c rest] eqn:Hc.
    + eexists [], [_]. cbn [fst snd app write_back messages]. rewrite Hm. split; [done|]. split; [constructor|eauto].
    + destruct (PipelineFacts.role_tools_messages W role_id tools_allowlist
                  (c :: rest) 1 st1) as (ms & H1 & H2).
      destruct (run_tools W role_id tools_allowlist 1 (c :: rest) st1) as [out_t st2].
      cbn [fst snd] in *. exists ms, []. rewrite app_nil_r, H1, Hm. auto.
Qed.

(** An iteration starts by calling the role's model on the role's
    messages. *)
Lemma role_tool_call_calls (i : nat) (c : ToolCall) (st : RoleState) :
  exists more,
    external_calls (process (run_tool_call W role_id tools_allowlist i c st).2)
      = external_calls (process st) ++ more.
Proof.
  unfold run_tool_call.
  destruct (rejected tools_allowlist (tool_name_of c));
    [exists []; by rewrite app_nil_r|].
  destruct (find_tool (tools W) (tool_name_of c)) as [t|];
    [| exists []; by rewrite app_nil_r].
  destruct (ainvoke t _ _); by eexists [_].
Qed.

Lemma role_tools_calls (calls : list ToolCall) (i : nat) (st : RoleState) :
  exists more,
    external_calls (process (run_tools W role_id tools_allowlist i calls st).2)
      = external_calls (process st) ++ more.
Proof.
  revert i st. induction calls as [| c rest IH]; intros i st.
  - exists []. by rewrite app_nil_r.
  - rewrite PipelineFacts.role_tools_cons. cbv zeta. simpl.
    destruct (role_tool_call_calls i c st) as (m1 & H1).
    destruct (IH (S i) (run_tool_call W role_id tools_allowlist i c st).2) as (m2 & H2).
    exists (m1 ++ m2). by rewrite H2, H1, <- app_assoc.
Qed.

Lemma run_iteration_calls (st : RoleState) :
  exists more,
    external_calls (process (run_iteration W role_id tools_allowlist role_llm_tools st).1.2)
      = external_calls (process st) ++ llm_invoked (messages st) :: more.
Proof.
  unfold run_iteration.
  pose proof (role_consume_frame
                (run_events (role_llm_tools (now st) (messages st)))
                (await (llm_invoked (messages st)) st) fresh_iter) as (_ & _ & _ & Hp).
  cbv zeta in Hp.
  destruct (consume role_id _ _ _) as [[out st1] iv]. cbn [fst snd] in *.
  destruct (run_raises _); [exists []; cbn [fst snd]; by rewrite Hp|].
  destruct (role_tool_calls iv) as [| c rest] eqn:Hc; [exists []; cbn [fst snd write_back process]; by rewrite Hp|].
  destruct (role_tools_calls (c :: rest) 1 st1) as (more & H).
  destruct (run_tools W role_id tools_allowlist 1 (c :: rest) st1) as [out_t st2].
  cbn [fst snd] in *. exists more. rewrite H, Hp. simpl. by rewrite <- app_assoc.
Qed.

End Facts.
End RoleFacts.

(** * Claims on tool calls *)

Lemma count_answers_tail (id : string) (fb : list Message) :
  (fb = [] \/ exists r text, r <> tool /\ fb = [plain_message r text]) ->
  count_answers id fb = 0.
Proof. intros [-> | (r & text & Hr & ->)]; [done|]. by destruct r. Qed.

(** C1: in every round of the single agent and in every iteration of a
    role, each identifier of the tool-call list the model returned
    ([agent_returned], [role_returned]: read off the events of the model
    call) is answered by exactly one tool-role message appended to the
    history before the model is called again, whether the tool was found,
    returned or raised.  The identifiers are those of the data model:
    present and distinct within the round. *)
Theorem every_tool_call_is_answered_once
    (W : World) (current_llm_tools : LLM) (key : string) (st : SingleAgent.LoopState)
    (role_id : string) (tools_allowlist : list string) (role_llm_tools : LLM)
    (rst : Orchestrator.RoleState) :
  well_formed_ids (agent_returned W current_llm_tools st) ->
  well_formed_ids (role_returned role_llm_tools rst) ->
  agent_round_answers W current_llm_tools key st
  /\ role_iteration_answers W role_id tools_allowlist role_llm_tools rst.
Proof.
  rewrite <- (ReadFacts.agent_reads_returned W current_llm_tools key st).
  rewrite <- (RoleReadFacts.role_reads_returned role_id role_llm_tools rst).
  unfold agent_round_answers, role_iteration_answers.
  rewrite <- (ReadFacts.agent_reads_returned W current_llm_tools key st).
  rewrite <- (RoleReadFacts.role_reads_returned role_id role_llm_tools rst).
  intros Hwf Hwf'. split.
  - split; [|destruct (DetectFacts.detect_calls W current_llm_tools key
                       (SingleAgent.run_round W current_llm_tools key st).1.2)
                as (more & Hmore & _); by exists more].
    destruct (DetectFacts.run_round_history W current_llm_tools key st)
      as (ms & fb & Hh & Hall & Hfb).
    cbv zeta in Hh. eexists. split; [exact Hh|].
    intros c Hc. destruct (agent_requested W current_llm_tools key st) as [| c0 rest] eqn:E.
    + by apply elem_of_nil in Hc.
    + rewrite count_answers_cons, count_answers_app. simpl.
      rewrite (answered_once ms 1 (c0 :: rest) c Hwf Hall Hc).
      rewrite count_answers_tail; [done|].
      destruct Hfb as [-> | (text & ->)]; [by left|]. right. by exists user, text.
  - split; [|apply RoleFacts.run_iteration_calls].
    destruct (RoleFacts.run_iteration_messages W role_id tools_allowlist role_llm_tools rst)
      as (ms & tail & Hm & Hall & Htail).
    cbv zeta in Hm. eexists. split; [exact Hm|].
    intros c Hc. rewrite count_answers_app.
    rewrite (answered_once ms 1 _ c Hwf' Hall Hc).
    rewrite count_answers_tail; [done|].
    destruct Htail as [-> | (text & ->)]; [by left|]. right. by exists assistant, text.
Qed.

Lemma every_tool_call_is_answered_once_witness :
  well_formed_ids
    (agent_returned ToolExamples.tool_world (Examples.asking_llm ToolExamples.two_calls)
       Examples.start_state)
  /\ well_formed_ids
       (role_returned (Examples.asking_llm ToolExamples.two_calls)
          ToolExamples.role_state)
  /\ agent_round_answers ToolExamples.tool_world (Examples.asking_llm ToolExamples.two_calls)
       "m0@https://base0" Examples.start_state
  /\ role_iteration_answers ToolExamples.tool_world "planner" []
       (Examples.asking_llm ToolExamples.two_calls) ToolExamples.role_state.
Proof.
  assert (Hwf : well_formed_ids ToolExamples.two_calls).
  { split.
    - repeat constructor; discriminate.
    - apply (bool_decide_unpack (NoDup (map tc_id ToolExamples.two_calls))).
      vm_compute. exact I. }
  split; [exact Hwf|]. split; [exact Hwf|].
  apply (every_tool_call_is_answered_once ToolExamples.tool_world
           (Examples.asking_llm ToolExamples.two_calls) "m0@https://base0"
           Examples.start_state "planner" []
           (Examples.asking_llm ToolExamples.two_calls) ToolExamples.role_state);
    exact Hwf.
Defined.

(** C10: in the role pipeline a rejected call yields its [tool_error] alone,
    with no [tool_start]; a call let through yields [tool_start] followed by
    its [tool_end] or [tool_error].  Over a batch, the [tool_start] events
    are as many as the calls let through, the closing events as many as the
    calls. *)
Theorem rejected_call_has_no_tool_start
    (W : World) (role_id : string) (tools_allowlist : list string)
    (i : nat) (c : ToolCall) (calls : list ToolCall) (st : Orchestrator.RoleState) :
  (let out := (Orchestrator.run_tool_call W role_id tools_allowlist i c st).1 in
   if Orchestrator.rejected tools_allowlist (tool_name_of c)
   then out = [tool_error (tool_id_of i c)
                 ("工具 '" +:+ tool_name_of c +:+ "' 不在允许列表中") (Some role_id)]
   else exists closing,
          out = [tool_start (tool_id_of i c) (tool_name_of c)
                   (parsed_args_of (json_loads W) (py_str W) c) None (Some role_id);
                 closing]
          /\ closes (tool_id_of i c) closing = true)
  /\ (let out := (Orchestrator.run_tools W role_id tools_allowlist i calls st).1 in
      count_events is_tool_start out
        = length (filter (fun c => Orchestrator.rejected tools_allowlist (tool_name_of c) = false)
                    calls)
      /\ count_events is_tool_closing out = length calls).
Proof.
  split.
  - apply PipelineFacts.role_tool_call_events.
  - apply PipelineFacts.role_tools_starts.
Qed.

(** C8 (as amended): in the role pipeline a call whose tool name is not
    empty and lies outside a non-empty global allowlist is rejected on the
    spot: one [tool_error] event, one tool message recording the rejection,
    and no tool is invoked.  (An empty allowlist lets every call through, and
    roles have no allowlist of their own.) *)
Theorem call_outside_allowlist_is_rejected
    (W : World) (role_id : string) (tools_allowlist : list string)
    (i : nat) (c : ToolCall) (st : Orchestrator.RoleState) :
  tools_allowlist <> [] ->
  tool_name_of c <> "" ->
  tool_name_of c ∉ tools_allowlist ->
  let r := Orchestrator.run_tool_call W role_id tools_allowlist i c st in
  r.1 = [tool_error (tool_id_of i c)
           ("工具 '" +:+ tool_name_of c +:+ "' 不在允许列表中") (Some role_id)]
  /\ Orchestrator.messages r.2
     = Orchestrator.messages st
         ++ [tool_message (tool_id_of i c) (tool_name_of c)
               ("错误: 工具 '" +:+ tool_name_of c +:+ "' 未被允许")]
  /\ external_calls (Orchestrator.process r.2) = external_calls (Orchestrator.process st).
Proof.
  intros H1 H2 H3. cbv zeta. unfold Orchestrator.run_tool_call.
  assert (Orchestrator.rejected tools_allowlist (tool_name_of c) = true) as Hr.
  { by apply PipelineFacts.rejected_true. }
  by rewrite Hr.
Qed.

Lemma call_outside_allowlist_is_rejected_witness :
  let c := Examples.call "c1" "get_price" in
  let r := Orchestrator.run_tool_call ToolExamples.tool_world "planner" ["search"] 1 c
             ToolExamples.role_state in
  r.1 = [tool_error "c1" "工具 'get_price' 不在允许列表中" (Some "planner")]
  /\ Orchestrator.messages r.2
     = Orchestrator.messages ToolExamples.role_state
         ++ [tool_message "c1" "get_price" "错误: 工具 'get_price' 未被允许"]
  /\ external_calls (Orchestrator.process r.2) = [].
Proof.
  apply (call_outside_allowlist_is_rejected ToolExamples.tool_world "planner" ["search"] 1
           (Examples.call "c1" "get_price") ToolExamples.role_state).
  - discriminate.
  - discriminate.
  - apply (bool_decide_unpack (_ ∉ _)). vm_compute. exact I.
Defined.

(** C8, counterexample: under the default specification, whose allowlist is
    empty and so names none of the available tools, a call is let through and
    the tool is invoked. *)
Lemma empty_allowlist_rejects_nothing :
  let r := Orchestrator.run_tool_call ToolExamples.tool_world "planner"
             (tools_allowlist Orchestrator.default_spec) 1
             (Examples.call "c1" "get_price") ToolExamples.role_state in
  ("get_price" ∉ tools_allowlist Orchestrator.default_spec)
  /\ r.1 = [tool_start "c1" "get_price" (PDict []) None (Some "planner");
            tool_end "c1" "get_price" "42" (Some "planner")]
  /\ external_calls (Orchestrator.process r.2) = [tool_invoked "get_price" (PDict [])].
Proof.
  cbv zeta. split; [|split; reflexivity].
  apply (bool_decide_unpack (_ ∉ _)). vm_compute. exact I.
Qed.

(** * The decision rule of a round *)

Lemma count_events_none (p : StreamEvent -> bool) (l : list StreamEvent) :
  Forall (fun e => p e = false) l -> count_events p l = 0.
Proof.
  induction 1 as [| e l He _ IH]; [done|].
  by rewrite count_events_cons, He, IH.
Qed.

Lemma tool_phase_not_end (l : list StreamEvent) :
  Forall (fun e => tool_phase_event e = true) l ->
  Forall (fun e => is_response_end e = false) l
  /\ Forall (fun e => is_response_start e = false) l
  /\ Forall (fun e => is_error e = false) l.
Proof.
  intros H. repeat split; eapply Forall_impl; try exact H;
    intros e He; by destruct e.
Qed.

Lemma batch_counts (l : list StreamEvent) :
  Forall (fun e => batch_event e = true) l ->
  count_events is_tool_plan l = 0 /\ count_events is_error l = 0.
Proof.
  intros H. split; apply count_events_none;
    (eapply Forall_impl; [exact H|]); intros e He; by destruct e.
Qed.

Module DecisionFacts.
Import SingleAgent.

Section Facts.
Variable W : World.
Variable current_llm_tools : LLM.
Variable current_model_key : string.

Lemma agent_tool_call_events (i n : nat) (c : ToolCall) (st : LoopState) (e : bool) :
  Forall (fun ev => batch_event ev = true) (run_tool_call W i n c st e).1.1.
Proof.
  unfold run_tool_call.
  destruct (find_tool (tools W) (tool_name_of c)) as [t|]; [|by repeat constructor].
  destruct (ainvoke t _ _); by repeat constructor.
Qed.

Lemma agent_tools_events (calls : list ToolCall) (i n : nat) (st : LoopState) (e : bool) :
  Forall (fun ev => batch_event ev = true) (run_tools W i n calls st e).1.1.
Proof.
  revert i st e. induction calls as [| c rest IH]; intros i st e; [constructor|].
  rewrite AgentFacts.agent_tools_cons. cbv zeta. cbn [fst snd].
  apply Forall_app. split; [apply agent_tool_call_events | apply IH].
Qed.

Lemma update_failures_events (st : LoopState) (e : bool) :
  Forall (fun ev => batch_event ev = true) (update_failures st e).1.
Proof.
  unfold update_failures. destruct e; [|constructor].
  destruct (_ <=? _); by repeat constructor.
Qed.

Lemma execute_tools_events (calls : list ToolCall) (st : LoopState) :
  Forall (fun ev => tool_phase_event ev = true) (execute_tools W calls st).1.
Proof.
  rewrite AgentFacts.execute_tools_eq. cbv zeta. cbn [fst snd].
  constructor; [done|]. apply Forall_app.
  split; (eapply Forall_impl;
          [first [apply agent_tools_events | apply update_failures_events]|]);
    intros ev Hev; by destruct ev.
Qed.

(** Reading a run of content pieces. *)
Lemma consume_tokens (toks : list string) (rest : list LLMEvent)
    (started : bool) (rv : RoundVars) :
  consume (map on_chat_model_stream toks ++ rest) started rv =
    let s := streamed_of toks in
    let r := consume rest (started || nonempty s)
               (mkRoundVars (tool_calls_check rv) (last_usage rv)
                  (buffered_chunks rv ++ s) (content_preview rv)
                  (response_started rv || nonempty s)) in
    (stream_events started s ++ r.1.1, r.1.2, r.2).
Proof.
  revert started rv. induction toks as [| t toks IH]; intros started rv.
  - cbv zeta. simpl. rewrite app_nil_r, !orb_false_r.
    destruct rv. by destruct (consume rest started _) as [[? ?] ?].
  - cbv zeta. cbn [map app consume]. unfold streamed_of. rewrite filter_cons.
    destruct (String.eqb t "") eqn:E.
    + apply String.eqb_eq in E. rewrite decide_False by (by intros H; apply H).
      apply IH.
    + apply String.eqb_neq in E. rewrite decide_True by done.
      rewrite IH. cbv zeta. fold (streamed_of toks).
      cbn [tool_calls_check last_usage buffered_chunks content_preview
             response_started nonempty].
      rewrite !orb_true_r, <- app_assoc. cbn [app].
      destruct (streamed_of toks) as [| t' s'] eqn:Es.
      * cbn [nonempty stream_events app map]. rewrite !orb_false_r.
        by rewrite <- app_assoc.
      * cbn [nonempty stream_events app map]. rewrite !orb_true_r.
        by destruct started.
Qed.

End Facts.
End DecisionFacts.

Module RoundFacts.
Import SingleAgent.

Section Facts.
Variable W : World.
Variable current_llm_tools : LLM.
Variable current_model_key : string.

(** Detection on a call that streams [toks], delivers [output] and does
    not raise. *)
Lemma detect_normal (st : LoopState) (toks : list string) (output : AIMessage) :
  current_llm_tools (now st) (tools_messages W st)
    = mkModelRun (map on_chat_model_stream toks ++ [on_chat_model_end output]) None ->
  detect W current_llm_tools current_model_key st =
    (stream_events (combined_response_started st) (streamed_of toks),
     set_started (combined_response_started st || nonempty (streamed_of toks))
       (await (llm_invoked (tools_messages W st)) st),
     mkRoundVars (out_tool_calls output)
       (match out_usage output with
        | Some u => Some (normalise_usage u)
        | None => None
        end)
       (streamed_of toks) (out_content output) (nonempty (streamed_of toks))).
Proof.
  intros Hrun. unfold detect. fold (tools_messages W st). rewrite Hrun.
  cbn [run_events run_raises]. rewrite DecisionFacts.consume_tokens.
  cbv zeta. cbn [consume fst snd fresh_round tool_calls_check last_usage
                   buffered_chunks content_preview response_started app orb].
  by rewrite app_nil_r.
Qed.

End Facts.
End RoundFacts.

(** * The failure counter and the fallback *)

Module FailureFacts.
Import SingleAgent.

Section Facts.
Variable W : World.

Lemma agent_tool_call_error (i n : nat) (c : ToolCall) (st : LoopState) (e : bool) :
  let r := run_tool_call W i n c st e in
  r.2 = e || negb (Nat.eqb (count_events is_tool_error r.1.1) 0).
Proof.
  unfold run_tool_call.
  destruct (find_tool (tools W) (tool_name_of c)) as [t|];
    [| by rewrite orb_true_r].
  destruct (ainvoke t _ _); cbn; by rewrite ?orb_true_r, ?orb_false_r.
Qed.

(** [current_round_has_error] after the batch: some call of the batch
    ended in a [tool_error]. *)
Lemma agent_tools_error (calls : list ToolCall) (i n : nat) (st : LoopState) (e : bool) :
  let r := run_tools W i n calls st e in
  r.2 = e || negb (Nat.eqb (count_events is_tool_error r.1.1) 0).
Proof.
  revert i st e. induction calls as [| c rest IH]; intros i st e.
  - cbn. by rewrite orb_false_r.
  - rewrite AgentFacts.agent_tools_cons. cbv zeta. cbn [fst snd].
    rewrite IH, agent_tool_call_error, count_events_app.
    destruct e; [done|]. cbn [orb].
    destruct (count_events is_tool_error (run_tool_call W i n c st false).1.1); [done|].
    by rewrite orb_true_l.
Qed.

Lemma Forall2_length_eq {A B} (R : A -> B -> Prop) (l : list A) (k : list B) :
  Forall2 R l k -> length l = length k.
Proof. induction 1; simpl; congruence. Qed.

Lemma effective_ids_length (i : nat) (calls : list ToolCall) :
  length (effective_ids i calls) = length calls.
Proof. revert i. induction calls as [| c rest IH]; intros i; simpl; congruence. Qed.

End Facts.
End FailureFacts.

(** * What persists in the process *)

Lemma extends_refl (p : Process) : extends p p.
Proof. split; [done|]. exists []. by rewrite app_nil_r. Qed.

Lemma extends_trans (p q r : Process) : extends p q -> extends q r -> extends p r.
Proof.
  intros [H1 (m1 & E1)] [H2 (m2 & E2)]. split; [set_solver|].
  exists (m1 ++ m2). by rewrite E2, E1, <- app_assoc.
Qed.

Lemma extends_await (c : Invocation) (p : Process) : extends p (ModelManager.await c p).
Proof. split; [done|]. by exists [c]. Qed.

Lemma extends_mark (key : string) (p : Process) :
  extends p (ModelManager.mark_non_multimodal key p).
Proof. split; [simpl; set_solver|]. exists []. by rewrite app_nil_r. Qed.

(** The process fields the model manager never writes. *)
Lemma extends_same (p p' : Process) :
  non_multimodal_models p' = non_multimodal_models p ->
  external_calls p' = external_calls p -> extends p p'.
Proof. intros H1 H2. split; [by rewrite H1|]. exists []. by rewrite H2, app_nil_r. Qed.

Module ManagerFacts.
Import ModelManager.

Section Facts.
Variable W : World.

Lemma get_or_create_frame (profile_id : string) (p : Process) :
  let p' := (get_or_create_llm_instances W profile_id p).2 in
  non_multimodal_models p' = non_multimodal_models p
  /\ external_calls p' = external_calls p.
Proof.
  unfold get_or_create_llm_instances.
  destruct (llm_cache p !! resolve W profile_id); [done|].
  destruct (llm_profiles W !! resolve W profile_id); [|done].
  by destruct (construction_raises W _).
Qed.

Lemma bind_user_model_frame (profile_id session_id : string) (p : Process) :
  let p' := (WebMCPAgent.bind_user_model W profile_id session_id p).2 in
  non_multimodal_models p' = non_multimodal_models p
  /\ external_calls p' = external_calls p
  /\ llm_cache p' = llm_cache p.
Proof.
  unfold WebMCPAgent.bind_user_model.
  destruct (_ && _); [|done].
  destruct (session_contexts W !! session_id) as [ctx|]; [|done].
  destruct (user_models ctx !! profile_id) as [cfg|]; [|done].
  by destruct (construction_raises W _).
Qed.

Lemma select_binding_frame (profile_id session_id : string) (p : Process) :
  let p' := (WebMCPAgent.select_binding W profile_id session_id p).2 in
  non_multimodal_models p' = non_multimodal_models p
  /\ external_calls p' = external_calls p.
Proof.
  unfold WebMCPAgent.select_binding.
  pose proof (bind_user_model_frame profile_id session_id p) as (H1 & H2 & _).
  cbv zeta in *.
  destruct (WebMCPAgent.bind_user_model W profile_id session_id p) as [[b|] p1];
    cbn [snd] in *; [done|].
  pose proof (get_or_create_frame profile_id p1) as (H3 & H4). cbv zeta in *.
  destruct (get_or_create_llm_instances W profile_id p1) as [[bundle | e] p2];
    cbn [snd] in *; split; congruence.
Qed.

End Facts.
End ManagerFacts.

Module PersistFacts.
Import SingleAgent.

Section Facts.
Variable W : World.
Variable current_llm_tools : LLM.
Variable current_model_key : string.

Lemma detect_extends (st : LoopState) :
  extends (process st) (process (detect W current_llm_tools current_model_key st).1.2).
Proof.
  unfold detect.
  destruct (consume _ _ _) as [[out1 s1] rv1].
  destruct (run_raises _); [|apply extends_await].
  destruct (is_multimodal_error W _); [|apply extends_await].
  destruct (consume_retry _ _) as [out3 rv3].
  assert (extends (process st)
            (ModelManager.await
               (llm_invoked
                  (convert_multimodal_to_text
                     (plain_message system (tools_system_prompt W) :: shared_history st)))
               (ModelManager.mark_non_multimodal current_model_key
                  (ModelManager.await
                     (llm_invoked
                        (plain_message system (tools_system_prompt W) :: shared_history st))
                     (process st))))) as H.
  { eapply extends_trans; [apply extends_await|].
    eapply extends_trans; [apply extends_mark|]. apply extends_await. }
  by destruct (run_raises _).
Qed.

Lemma agent_tool_call_extends (i n : nat) (c : ToolCall) (st : LoopState) (e : bool) :
  extends (process st) (process (run_tool_call W i n c st e).1.2).
Proof.
  unfold run_tool_call.
  destruct (find_tool (tools W) (tool_name_of c)) as [t|]; [|apply extends_refl].
  destruct (ainvoke t _ _); apply extends_await.
Qed.

Lemma agent_tools_extends (calls : list ToolCall) (i n : nat) (st : LoopState) (e : bool) :
  extends (process st) (process (run_tools W i n calls st e).1.2).
Proof.
  revert i st e. induction calls as [| c rest IH]; intros i st e; [apply extends_refl|].
  rewrite AgentFacts.agent_tools_cons. cbv zeta. cbn [fst snd].
  eapply extends_trans; [apply agent_tool_call_extends | apply IH].
Qed.

Lemma update_failures_process (st : LoopState) (e : bool) :
  process (update_failures st e).2 = process st.
Proof.
  unfold update_failures. destruct e; [|done]. by destruct (_ <=? _).
Qed.

Lemma execute_tools_extends (calls : list ToolCall) (st : LoopState) :
  extends (process st) (process (execute_tools W calls st).2).
Proof.
  rewrite AgentFacts.execute_tools_eq. cbv zeta. cbn [fst snd].
  rewrite update_failures_process.
  apply (agent_tools_extends calls 1 (length calls)
           (append_history (assistant_tool_calls calls) st) false).
Qed.

Lemma run_round_extends (st : LoopState) :
  extends (process st) (process (run_round W current_llm_tools current_model_key st).1.2).
Proof.
  unfold run_round. pose proof (detect_extends st) as Hd.
  destruct (detect W current_llm_tools current_model_key st) as [[out st1] rv].
  cbn [fst snd] in Hd. destruct (tool_calls_check rv) as [| c rest]; [exact Hd|].
  pose proof (execute_tools_extends (c :: rest) st1) as He.
  destruct (execute_tools W (c :: rest) st1) as [out_t st4].
  cbn [fst snd] in *. by eapply extends_trans.
Qed.

Lemma round_loop_extends (remaining : nat) (st : LoopState) :
  extends (process st)
    (process (round_loop W current_llm_tools current_model_key remaining st).1.2).
Proof.
  revert st. induction remaining as [| k IH]; intros st; [apply extends_refl|].
  cbn [round_loop]. pose proof (run_round_extends (next_round st)) as Hr.
  destruct (run_round W current_llm_tools current_model_key (next_round st))
    as [[out st1] outcome]. cbn [fst snd] in Hr.
  destruct outcome; [exact Hr|].
  specialize (IH st1).
  destruct (round_loop W current_llm_tools current_model_key k st1) as [[out' st2] r].
  cbn [fst snd] in *. by eapply extends_trans.
Qed.

Lemma rounds_extends (st : LoopState) :
  extends (process st) (process (rounds W current_llm_tools current_model_key st).1.2).
Proof.
  unfold rounds. pose proof (round_loop_extends (max_rounds - round_index st) st) as H.
  destruct (round_loop _ _ _ _ _) as [[out st1] r]. by destruct r.
Qed.

End Facts.
End PersistFacts.

Module PipelinePersist.
Import Orchestrator.

Section Facts.
Variable W : World.

Lemma role_tools_extends (role_id : string) (allow : list string)
    (calls : list ToolCall) (i : nat) (st : RoleState) :
  extends (process st) (process (run_tools W role_id allow i calls st).2).
Proof.
  revert i st. induction calls as [| c rest IH]; intros i st; [apply extends_refl|].
  rewrite PipelineFacts.role_tools_cons. cbv zeta. cbn [fst snd].
  eapply extends_trans; [|apply IH].
  unfold run_tool_call.
  destruct (rejected allow (tool_name_of c)); [apply extends_refl|].
  destruct (find_tool (tools W) (tool_name_of c)) as [t|]; [|apply extends_refl].
  destruct (ainvoke t _ _); apply extends_await.
Qed.

Lemma run_iteration_extends (role_id : string) (allow : list string)
    (role_llm_tools : LLM) (st : RoleState) :
  extends (process st) (process (run_iteration W role_id allow role_llm_tools st).1.2).
Proof.
  unfold run_iteration.
  pose proof (RoleFacts.role_consume_frame role_id
                (run_events (role_llm_tools (now st) (messages st)))
                (await (llm_invoked (messages st)) st) fresh_iter) as (_ & _ & _ & Hp).
  cbv zeta in Hp.
  destruct (consume role_id _ _ _) as [[out st1] iv]. cbn [fst snd] in *.
  assert (extends (process st) (process st1)) as H1.
  { rewrite Hp. apply extends_await. }
  destruct (run_raises _); [exact H1|].
  destruct (role_tool_calls iv) as [| c rest]; [exact H1|].
  pose proof (role_tools_extends role_id allow (c :: rest) 1 st1) as H2.
  destruct (run_tools W role_id allow 1 (c :: rest) st1) as [out_t st2].
  cbn [fst snd] in *. by eapply extends_trans.
Qed.

Lemma role_loop_extends (remaining : nat) (role_id : string) (allow : list string)
    (role_llm_tools : LLM) (st : RoleState) :
  extends (process st) (process (role_loop W remaining role_id allow role_llm_tools st).2).
Proof.
  revert st. induction remaining as [| k IH]; intros st; [apply extends_refl|].
  cbn [role_loop]. pose proof (run_iteration_extends role_id allow role_llm_tools st) as Hr.
  destruct (run_iteration W role_id allow role_llm_tools st) as [[out st1] outcome].
  cbn [fst snd] in Hr. destruct outcome; try exact Hr.
  specialize (IH st1).
  destruct (role_loop W k role_id allow role_llm_tools st1) as [out' st2].
  cbn [fst snd] in *. by eapply extends_trans.
Qed.

Lemma role_binding_frame (default_llm_tools : Binding) (role : RoleSpec) (p : Process) :
  let p' := (role_binding W default_llm_tools role p).2 in
  non_multimodal_models p' = non_multimodal_models p
  /\ external_calls p' = external_calls p.
Proof.
  unfold role_binding.
  destruct (String.eqb (model_profile role) ""); [done|].
  pose proof (ManagerFacts.get_or_create_frame W (model_profile role) p) as H.
  cbv zeta in H.
  by destruct (ModelManager.get_or_create_llm_instances W (model_profile role) p)
    as [[bundle | e] proc].
Qed.

Lemma run_role_extends (allow : list string) (default_llm_tools : Binding)
    (role : RoleSpec) (ps : PipelineState) :
  extends (p_process ps) (p_process (run_role W allow default_llm_tools role ps).2).
Proof.
  unfold run_role.
  pose proof (role_binding_frame default_llm_tools role (p_process ps)) as (H1 & H2).
  cbv zeta in H1, H2.
  destruct (role_binding W default_llm_tools role (p_process ps)) as [b proc].
  cbn [snd] in H1, H2.
  pose proof (role_loop_extends max_tool_iterations (str_or (id role) "role") allow
                (llm_of W b)
                (mkRoleState (plain_message system (system_prompt role)
                                :: p_shared_history ps)
                   (p_shared_history ps) "" false (p_any_streamed ps) proc)) as Hl.
  cbn [process] in Hl.
  destruct (role_loop W max_tool_iterations (str_or (id role) "role") allow
              (llm_of W b) _) as [out st'].
  cbn [fst snd p_process] in *.
  eapply extends_trans; [by apply extends_same | exact Hl].
Qed.

Lemma run_roles_extends (allow : list string) (default_llm_tools : Binding)
    (rs : list RoleSpec) (ps : PipelineState) :
  extends (p_process ps) (p_process (run_roles W allow default_llm_tools rs ps).2).
Proof.
  revert ps. induction rs as [| role rest IH]; intros ps; [apply extends_refl|].
  cbn [run_roles]. pose proof (run_role_extends allow default_llm_tools role ps) as H1.
  destruct (run_role W allow default_llm_tools role ps) as [out ps1].
  specialize (IH ps1).
  destruct (run_roles W allow default_llm_tools rest ps1) as [out' ps2].
  cbn [fst snd] in *. by eapply extends_trans.
Qed.

Lemma pipeline_extends (build_shared_history : bool -> list Message)
    (agent_cfg : Profile) (p : Process) :
  extends p (chat_stream W build_shared_history agent_cfg p).2.
Proof.
  unfold chat_stream.
  destruct (max_rounds_raises _); [apply extends_refl|].
  pose proof (ManagerFacts.get_or_create_frame W (backing_profile agent_cfg) p)
    as (H1 & H2). cbv zeta in *.
  destruct (ModelManager.get_or_create_llm_instances W (backing_profile agent_cfg) p)
    as [[bundle | e] p1]; cbn [snd] in *; [|by apply extends_same].
  pose proof (run_roles_extends (tools_allowlist (load_spec W (agent_file agent_cfg)))
                (llm_tools bundle) (roles (load_spec W (agent_file agent_cfg)))
                (mkPipelineState (build_shared_history false) false [] p1)) as Hr.
  destruct (run_roles W _ _ _ _) as [out ps]. cbn [fst snd p_process] in *.
  eapply extends_trans; [by apply extends_same | exact Hr].
Qed.

End Facts.
End PipelinePersist.

(** Nothing a turn does makes the process forget a text-only identity or an
    external call. *)
Lemma chat_stream_extends (W : World) (build_shared_history : bool -> list Message)
    (session_id : string) (p : Process) :
  extends p (WebMCPAgent.chat_stream W build_shared_history session_id p).2.
Proof.
  unfold WebMCPAgent.chat_stream.
  destruct (WebMCPAgent.agent_profile W _) as [agent_cfg|].
  - pose proof (PipelinePersist.pipeline_extends W build_shared_history agent_cfg p) as H.
    by destruct (Orchestrator.chat_stream W build_shared_history agent_cfg p).
  - pose proof (ManagerFacts.select_binding_frame W
                  (ModelManager.session_profile W session_id) session_id p) as (H1 & H2).
    cbv zeta in *.
    destruct (WebMCPAgent.select_binding W _ session_id p) as [[b | e] p1];
      cbn [snd] in *; [|by apply extends_same].
    pose proof (PersistFacts.rounds_extends W (llm_of W b)
                  (ModelManager.get_current_model_key W session_id)
                  (WebMCPAgent.initial_state
                     (build_shared_history
                        (bool_decide (ModelManager.get_current_model_key W session_id
                                        ∈ non_multimodal_models p1))) p1)) as Hr.
    destruct (SingleAgent.rounds W _ _ _) as [[out st] r]. cbn [fst snd] in *.
    eapply extends_trans; [by apply extends_same | exact Hr].
Qed.

(** * The text-only downgrade *)

Lemma strip_non_text_text_only (m : Message) : text_only (strip_non_text m) = true.
Proof.
  unfold strip_non_text, text_only. destruct (content m) as [s | ps] eqn:E.
  - by rewrite E.
  - cbn [content]. apply forallb_forall. intros x Hx.
    apply list_elem_of_In, list_elem_of_filter in Hx. by destruct Hx.
Qed.

Lemma convert_text_only (messages : list Message) :
  Forall (fun m => text_only m = true) (convert_multimodal_to_text messages).
Proof.
  unfold convert_multimodal_to_text. apply Forall_forall. intros m Hm.
  apply list_elem_of_In, in_map_iff in Hm as (m0 & <- & _).
  apply strip_non_text_text_only.
Qed.

Module DowngradeFacts.
Import SingleAgent.

Section Facts.
Variable W : World.
Variable current_llm_tools : LLM.
Variable current_model_key : string.

Lemma now_await (c : Invocation) (st : LoopState) : now (await c st) = S (now st).
Proof. unfold now. cbn. rewrite length_app. cbn. lia. Qed.

(** Detection when the first call raises the unsupported-input
    signature. *)
Lemma detect_downgrade (st : LoopState) (evs : list LLMEvent) (error_msg : string) :
  current_llm_tools (now st) (tools_messages W st) = mkModelRun evs (Some error_msg) ->
  is_multimodal_error W error_msg = true ->
  let d := detect W current_llm_tools current_model_key st in
  let retry :=
    current_llm_tools (S (now st))
      (convert_multimodal_to_text (tools_messages W st)) in
  let rv3 :=
    (consume_retry (run_events retry)
       (consume evs (combined_response_started st) fresh_round).2).2 in
  external_calls (process d.1.2)
    = external_calls (process st)
        ++ [llm_invoked (tools_messages W st);
            llm_invoked (convert_multimodal_to_text (tools_messages W st))]
  /\ non_multimodal_models (process d.1.2)
     = {[ current_model_key ]} ∪ non_multimodal_models (process st)
  /\ d.2 = match run_raises retry with
           | None => rv3
           | Some _ => clear_output rv3
           end.
Proof.
  intros Hrun Hsig. cbv zeta. unfold detect. fold (tools_messages W st).
  rewrite Hrun. cbn [run_events run_raises]. rewrite Hsig.
  destruct (consume evs (combined_response_started st) fresh_round) as [[out1 s1] rv1].
  cbn [snd].
  assert (now (set_started true
                 (mark_non_multimodal current_model_key
                    (set_started s1 (await (llm_invoked (tools_messages W st)) st))))
          = S (now st)) as -> by apply (now_await _ st).
  destruct (consume_retry _ rv1) as [out3 rv3]. cbn [snd].
  destruct (run_raises _); cbn; rewrite <- app_assoc; done.
Qed.

(** A turn that still has a round to run starts by calling the model on
    the system prompt followed by the history. *)
Lemma rounds_first_call (st : LoopState) :
  round_index st < max_rounds ->
  exists more,
    external_calls (process (rounds W current_llm_tools current_model_key st).1.2)
      = external_calls (process st) ++ llm_invoked (tools_messages W st) :: more.
Proof.
  intros Hlt. unfold rounds.
  destruct (max_rounds - round_index st) as [| k] eqn:Ek; [lia|].
  assert (exists more,
            external_calls
              (process (round_loop W current_llm_tools current_model_key (S k) st).1.2)
            = external_calls (process st) ++ llm_invoked (tools_messages W st) :: more)
    as (more & Hmore).
  { cbn [round_loop].
    pose proof (DetectFacts.detect_calls W current_llm_tools current_model_key
                  (next_round st)) as (m1 & H1 & _).
    unfold run_round.
    destruct (detect W current_llm_tools current_model_key (next_round st))
      as [[out st1] rv]. cbn [fst snd] in H1.
    destruct (tool_calls_check rv) as [| c rest]; [by exists m1|].
    pose proof (PersistFacts.execute_tools_extends W (c :: rest) st1) as (_ & m2 & H2).
    destruct (execute_tools W (c :: rest) st1) as [out_t st4]. cbn [fst snd] in *.
    pose proof (PersistFacts.round_loop_extends W current_llm_tools current_model_key
                  k st4) as (_ & m3 & H3).
    destruct (round_loop W current_llm_tools current_model_key k st4) as [[out' st2] r].
    cbn [fst snd] in *. exists (m1 ++ m2 ++ m3).
    rewrite H3, H2, H1. cbn. by rewrite <- !app_assoc. }
  destruct (round_loop W current_llm_tools current_model_key (S k) st) as [[out st1] r].
  cbn [fst snd] in *. exists more. by destruct r.
Qed.

End Facts.
End DowngradeFacts.

(** C5 (as amended): when a model call raises the unsupported-input
    signature, the identity is recorded as text-only at once, by insertion
    into a set, before the retry and whatever the retry does; the call is
    retried exactly once, on the messages with the non-text content stripped
    from each; a retry that raises ends the round as an answer round.  No
    turn removes an identity from the set, and a later single-agent turn
    whose identity is recorded calls the model on a history built text-only
    from the start. *)
Theorem text_only_downgrade
    (W : World) (current_llm_tools : LLM) (key : string) (st : SingleAgent.LoopState)
    (evs : list LLMEvent) (error_msg : string)
    (build_shared_history : bool -> list Message) (session_id : string)
    (p p1 : Process) (b : Binding) :
  current_llm_tools (SingleAgent.now st) (tools_messages W st)
    = mkModelRun evs (Some error_msg) ->
  is_multimodal_error W error_msg = true ->
  WebMCPAgent.agent_profile W (ModelManager.session_profile W session_id) = None ->
  WebMCPAgent.select_binding W (ModelManager.session_profile W session_id) session_id p
    = (inl b, p1) ->
  ModelManager.get_current_model_key W session_id ∈ non_multimodal_models p ->
  let d := SingleAgent.detect W current_llm_tools key st in
  let retry :=
    current_llm_tools (S (SingleAgent.now st))
      (convert_multimodal_to_text (tools_messages W st)) in
  external_calls (SingleAgent.process d.1.2)
    = external_calls (SingleAgent.process st)
        ++ [llm_invoked (tools_messages W st);
            llm_invoked (convert_multimodal_to_text (tools_messages W st))]
  /\ Forall (fun m => text_only m = true)
       (convert_multimodal_to_text (tools_messages W st))
  /\ non_multimodal_models (SingleAgent.process d.1.2)
     = {[ key ]} ∪ non_multimodal_models (SingleAgent.process st)
  /\ match run_raises retry with
     | Some _ =>
         SingleAgent.tool_calls_check d.2 = []
         /\ exists final_text,
              (SingleAgent.run_round W current_llm_tools key st).2
              = SingleAgent.ANSWER_DECIDED final_text
     | None =>
         d.2 = (SingleAgent.consume_retry (run_events retry)
                  (SingleAgent.consume evs (SingleAgent.combined_response_started st)
                     SingleAgent.fresh_round).2).2
     end
  /\ (forall (W' : World) (build' : bool -> list Message) (sid' : string) (p' : Process),
        non_multimodal_models p'
          ⊆ non_multimodal_models (WebMCPAgent.chat_stream W' build' sid' p').2)
  /\ exists more,
       external_calls (WebMCPAgent.chat_stream W build_shared_history session_id p).2
       = external_calls p
           ++ llm_invoked (plain_message system (tools_system_prompt W)
                             :: build_shared_history true) :: more.
Proof.
  intros Hrun Hsig Hagent Hsel Hkey. cbv zeta.
  destruct (DowngradeFacts.detect_downgrade W current_llm_tools key st evs error_msg
              Hrun Hsig) as (Hcalls & Hset & Hrv).
  split; [exact Hcalls|]. split; [apply convert_text_only|]. split; [exact Hset|].
  split.
  { destruct (run_raises _) eqn:Hretry; [|exact Hrv].
    assert (SingleAgent.tool_calls_check
              (SingleAgent.detect W current_llm_tools key st).2 = []) as Hnone
      by by rewrite Hrv.
    split; [exact Hnone|]. unfold SingleAgent.run_round.
    destruct (SingleAgent.detect W current_llm_tools key st) as [[out st1] rv].
    cbn [snd] in Hnone. rewrite Hnone. by eexists. }
  split.
  { intros W' build' sid' p'. apply chat_stream_extends. }
  unfold WebMCPAgent.chat_stream. rewrite Hagent, Hsel.
  pose proof (ManagerFacts.select_binding_frame W
                (ModelManager.session_profile W session_id) session_id p) as (H1 & H2).
  cbv zeta in H1, H2. rewrite Hsel in H1, H2. cbn [snd] in H1, H2.
  rewrite bool_decide_eq_true_2 by (by rewrite H1).
  destruct (DowngradeFacts.rounds_first_call W (llm_of W b)
              (ModelManager.get_current_model_key W session_id)
              (WebMCPAgent.initial_state (build_shared_history true) p1))
    as (more & Hmore).
  { cbn. unfold SingleAgent.max_rounds. lia. }
  destruct (SingleAgent.rounds W _ _ _) as [[out st'] r]. cbn [fst snd] in *.
  exists more. by rewrite Hmore, <- H2.
Qed.

Lemma text_only_downgrade_witness :
  let W := DowngradeExamples.blind_world in
  let m := Examples.broken_llm DowngradeExamples.signature_text in
  let d := SingleAgent.detect W m DowngradeExamples.model_key Examples.start_state in
  is_multimodal_error W DowngradeExamples.signature_text = true
  /\ (ModelManager.get_current_model_key W "" ∈ non_multimodal_models DowngradeExamples.marked_process)
  /\ external_calls (SingleAgent.process d.1.2)
     = [llm_invoked (tools_messages W Examples.start_state);
        llm_invoked (convert_multimodal_to_text (tools_messages W Examples.start_state))]
  /\ exists more,
       external_calls
         (WebMCPAgent.chat_stream W Examples.hello "" DowngradeExamples.marked_process).2
       = llm_invoked (plain_message system "sys" :: Examples.hello true) :: more.
Proof.
  cbv zeta.
  assert (Hkey : ModelManager.get_current_model_key DowngradeExamples.blind_world ""
                 ∈ non_multimodal_models DowngradeExamples.marked_process).
  { apply (bool_decide_unpack (_ ∈ _)). vm_compute. exact I. }
  assert (Hsel : WebMCPAgent.select_binding DowngradeExamples.blind_world
                   (ModelManager.session_profile DowngradeExamples.blind_world "") ""
                   DowngradeExamples.marked_process
                 = (inl (mkBinding "m0" (Some "k0") (Some "https://base0")),
                    (WebMCPAgent.select_binding DowngradeExamples.blind_world
                       (ModelManager.session_profile DowngradeExamples.blind_world "") ""
                       DowngradeExamples.marked_process).2)).
  { vm_compute. reflexivity. }
  pose proof (text_only_downgrade DowngradeExamples.blind_world
                (Examples.broken_llm DowngradeExamples.signature_text) DowngradeExamples.model_key
                Examples.start_state [] DowngradeExamples.signature_text Examples.hello ""
                DowngradeExamples.marked_process _ _ eq_refl eq_refl eq_refl Hsel Hkey) as H.
  cbv zeta in H. destruct H as (H1 & _ & _ & _ & _ & H6).
  split; [reflexivity|]. split; [exact Hkey|]. split; [exact H1|]. exact H6.
Defined.

(** C5, counterexample: the model refuses the text-only retry as well, so no
    downgrade ever succeeds; the identity is recorded all the same. *)
Lemma identity_recorded_without_successful_downgrade :
  let W := DowngradeExamples.blind_world in
  let r := WebMCPAgent.chat_stream W Examples.hello "" Examples.empty_process in
  run_raises (llm_of W (mkBinding "m0" (Some "k0") (Some "https://base0")) 1
                (convert_multimodal_to_text
                   (plain_message system "sys" :: Examples.hello false)))
    = Some DowngradeExamples.signature_text
  /\ r.1 = [status "开始生成..."; ai_response_start;
            ai_response_chunk SingleAgent.downgrade_notice; ai_response_end ""]
  /\ elements (non_multimodal_models r.2) = [DowngradeExamples.model_key].
Proof. cbv zeta. split; [reflexivity|]. split; by vm_compute. Qed.

(** * The round budget *)

Module BudgetFacts.
Import SingleAgent.

Section Facts.
Variable W : World.
Variable current_llm_tools : LLM.
Variable current_model_key : string.

Lemma consume_events (evs : list LLMEvent) (started : bool) (rv : RoundVars) :
  Forall (fun e => stream_phase_event e = true) (consume evs started rv).1.1.
Proof.
  revert started rv. induction evs as [| ev rest IH]; intros started rv; [constructor|].
  destruct ev as [piece | output |]; cbn [consume]; try apply IH.
  destruct (String.eqb piece ""); [apply IH|].
  specialize (IH true (mkRoundVars (tool_calls_check rv) (last_usage rv)
                         (buffered_chunks rv ++ [piece]) (content_preview rv) true)).
  destruct (consume rest true _) as [[out s'] rv']. cbn [fst snd] in *.
  apply Forall_app. split; [by destruct started; repeat constructor|].
  by constructor.
Qed.

Lemma consume_retry_events (evs : list LLMEvent) (rv : RoundVars) :
  Forall (fun e => stream_phase_event e = true) (consume_retry evs rv).1.
Proof.
  revert rv. induction evs as [| ev rest IH]; intros rv; [constructor|].
  destruct ev as [piece | output |]; cbn [consume_retry]; try apply IH.
  destruct (String.eqb piece ""); [apply IH|].
  specialize (IH (mkRoundVars (tool_calls_check rv) (last_usage rv)
                    (buffered_chunks rv ++ [piece]) (content_preview rv) true)).
  destruct (consume_retry rest _) as [out rv']. cbn [fst snd] in *.
  by constructor.
Qed.

Lemma detect_events (st : LoopState) :
  Forall (fun e => stream_phase_event e = true)
    (detect W current_llm_tools current_model_key st).1.1.
Proof.
  unfold detect.
  pose proof (consume_events
                (run_events (current_llm_tools (now st)
                   (plain_message system (tools_system_prompt W) :: shared_history st)))
                (combined_response_started st) fresh_round) as H1.
  destruct (consume _ _ _) as [[out1 s1] rv1]. cbn [fst snd] in H1.
  destruct (run_raises _); [|exact H1].
  destruct (is_multimodal_error W _); [|exact H1].
  pose proof (consume_retry_events
                (run_events
                   (current_llm_tools
                      (now (set_started true
                              (mark_non_multimodal current_model_key
                                 (set_started s1
                                    (await (llm_invoked
                                              (plain_message system (tools_system_prompt W)
                                                 :: shared_history st)) st)))))
                      (convert_multimodal_to_text
                         (plain_message system (tools_system_prompt W)
                            :: shared_history st)))) rv1) as H3.
  destruct (consume_retry _ rv1) as [out3 rv3]. cbn [fst snd] in H3.
  assert (Forall (fun e => stream_phase_event e = true)
            (out1
               ++ ((if combined_response_started
                          (mark_non_multimodal current_model_key
                             (set_started s1
                                (await (llm_invoked
                                          (plain_message system (tools_system_prompt W)
                                             :: shared_history st)) st)))
                    then [] else [ai_response_start])
                     ++ [ai_response_chunk downgrade_notice]) ++ out3)) as H.
  { apply Forall_app. split; [exact H1|]. apply Forall_app. split; [|exact H3].
    by destruct (combined_response_started _); repeat constructor. }
  by destruct (run_raises _).
Qed.

Lemma stream_phase_counts (l : list StreamEvent) :
  Forall (fun e => stream_phase_event e = true) l ->
  count_events is_error l = 0 /\ count_events is_tool_plan l = 0
  /\ count_events is_response_end l = 0.
Proof.
  intros H. repeat split; apply count_events_none;
    (eapply Forall_impl; [exact H|]); intros e He; by destruct e.
Qed.

Lemma tool_phase_counts (l : list StreamEvent) :
  Forall (fun e => tool_phase_event e = true) l -> count_events is_error l = 0.
Proof. intros H. apply count_events_none. by apply tool_phase_not_end. Qed.

Lemma execute_tools_plans (calls : list ToolCall) (st : LoopState) :
  count_events is_tool_plan (execute_tools W calls st).1 = 1.
Proof.
  rewrite AgentFacts.execute_tools_eq. cbv zeta. cbn [fst snd].
  rewrite count_events_cons, count_events_app. cbn [is_tool_plan].
  rewrite (proj1 (batch_counts _ (DecisionFacts.agent_tools_events W calls 1
                                    (length calls) _ false))).
  by rewrite (proj1 (batch_counts _ (DecisionFacts.update_failures_events _ _))).
Qed.

Lemma agent_tools_round_index (calls : list ToolCall) (i n : nat)
    (st : LoopState) (e : bool) :
  round_index (run_tools W i n calls st e).1.2 = round_index st.
Proof.
  revert i st e. induction calls as [| c rest IH]; intros i st e; [done|].
  rewrite AgentFacts.agent_tools_cons. cbv zeta. cbn [fst snd]. rewrite IH.
  unfold run_tool_call.
  destruct (find_tool (tools W) (tool_name_of c)) as [t|]; [|done].
  by destruct (ainvoke t _ _).
Qed.

Lemma execute_tools_round_index (calls : list ToolCall) (st : LoopState) :
  round_index (execute_tools W calls st).2 = round_index st.
Proof.
  rewrite AgentFacts.execute_tools_eq. cbv zeta. cbn [fst snd].
  unfold update_failures.
  destruct (run_tools W 1 (length calls) calls _ false).2;
    [destruct (_ <=? _)|]; cbn; by rewrite agent_tools_round_index.
Qed.

(** One round: the index stays, no [error] is yielded, and a plan is
    announced exactly when the round is a tool round. *)
Lemma run_round_budget (st : LoopState) :
  let r := run_round W current_llm_tools current_model_key st in
  round_index r.1.2 = round_index st
  /\ count_events is_error r.1.1 = 0
  /\ count_events is_tool_plan r.1.1
     = match r.2 with TOOL_DECIDED => 1 | ANSWER_DECIDED _ => 0 end.
Proof.
  cbv zeta. unfold run_round.
  pose proof (DetectFacts.detect_frame W current_llm_tools current_model_key st)
    as (_ & Hidx & _).
  pose proof (detect_events st) as Hev. apply stream_phase_counts in Hev.
  destruct Hev as (He & Hp & _). cbv zeta in Hidx.
  destruct (detect W current_llm_tools current_model_key st) as [[out st1] rv].
  cbn [fst snd] in *.
  destruct (tool_calls_check rv) as [| c rest].
  - cbn [fst snd]. rewrite !count_events_app, He, Hp. split; [exact Hidx|].
    unfold closing.
    destruct (combined_response_started st1), (String.eqb (final_text_of rv) ""),
      (last_usage rv); done.
  - pose proof (execute_tools_round_index (c :: rest) st1) as Hi.
    pose proof (execute_tools_plans (c :: rest) st1) as Hpl.
    pose proof (tool_phase_counts _ (DecisionFacts.execute_tools_events W (c :: rest) st1))
      as Her.
    destruct (execute_tools W (c :: rest) st1) as [out_t st4]. cbn [fst snd] in *.
    rewrite !count_events_app, He, Hp, Her, Hpl. split; [congruence|].
    unfold separator. by destruct (_ && _).
Qed.

(** The loop over the rounds that remain. *)
Lemma round_loop_budget (remaining : nat) (st : LoopState) :
  let r := round_loop W current_llm_tools current_model_key remaining st in
  count_events is_error r.1.1 = 0
  /\ match r.2 with
     | budget_exhausted =>
         round_index r.1.2 = round_index st + remaining
         /\ count_events is_tool_plan r.1.1 = remaining
     | answered _ =>
         round_index r.1.2 <= round_index st + remaining
         /\ round_index st + S (count_events is_tool_plan r.1.1) = round_index r.1.2
     end.
Proof.
  revert st. induction remaining as [| k IH]; intros st.
  - cbn. split; [done|]. split; [lia | done].
  - cbv zeta. cbn [round_loop].
    pose proof (run_round_budget (next_round st)) as (Hi & He & Hp). cbv zeta in *.
    destruct (run_round W current_llm_tools current_model_key (next_round st))
      as [[out st1] outcome]. cbn [fst snd] in *.
    cbn [next_round round_index] in Hi.
    destruct outcome as [final_text|].
    + cbn [fst snd]. split; [exact He|]. split; lia.
    + specialize (IH st1). cbv zeta in IH.
      destruct (round_loop W current_llm_tools current_model_key k st1)
        as [[out' st2] r]. cbn [fst snd] in *.
      destruct IH as (He' & IH). rewrite !count_events_app, He, He', Hp.
      split; [done|]. destruct r; lia.
Qed.

End Facts.
End BudgetFacts.

(** C7: the round loop of a turn runs at most 25 rounds and yields no
    [error] event.  When the budget runs out with no answer round, exactly
    25 tool rounds have run and the turn ends with the fixed message, sent
    as a start, a chunk and an end. *)
Theorem round_budget
    (W : World) (current_llm_tools : LLM) (key : string)
    (shared_history : list Message) (p : Process) :
  let r := SingleAgent.rounds W current_llm_tools key
             (WebMCPAgent.initial_state shared_history p) in
  SingleAgent.max_rounds = 25
  /\ SingleAgent.round_index r.1.2 <= 25
  /\ count_events is_tool_plan r.1.1 <= 25
  /\ count_events is_error r.1.1 = 0
  /\ match r.2 with
     | SingleAgent.budget_exhausted =>
         SingleAgent.round_index r.1.2 = 25
         /\ count_events is_tool_plan r.1.1 = 25
         /\ exists before,
              r.1.1 = before ++ [ai_response_start;
                                 ai_response_chunk SingleAgent.exhausted_text;
                                 ai_response_end SingleAgent.exhausted_text]
     | SingleAgent.answered _ =>
         SingleAgent.round_index r.1.2
         = S (count_events is_tool_plan r.1.1)
     end.
Proof.
  cbv zeta. split; [reflexivity|]. unfold SingleAgent.rounds.
  pose proof (BudgetFacts.round_loop_budget W current_llm_tools key
                (SingleAgent.max_rounds
                   - SingleAgent.round_index (WebMCPAgent.initial_state shared_history p))
                (WebMCPAgent.initial_state shared_history p)) as (He & H).
  cbv zeta in *.
  destruct (SingleAgent.round_loop W current_llm_tools key _ _) as [[out st1] r].
  cbn [fst snd] in *. cbn in H.
  destruct r as [final_text|]; cbn [fst snd].
  - destruct H as (H1 & H2). unfold SingleAgent.max_rounds in *.
    cbn [SingleAgent.round_index WebMCPAgent.initial_state] in *.
    split; [lia|]. split; [lia|]. split; [done|]. lia.
  - destruct H as (H1 & H2). unfold SingleAgent.max_rounds in *.
    rewrite !count_events_app, He.
    assert (count_events is_tool_plan
              [ai_response_start; ai_response_chunk SingleAgent.exhausted_text;
               ai_response_end SingleAgent.exhausted_text] = 0) as -> by reflexivity.
    assert (count_events is_error
              [ai_response_start; ai_response_chunk SingleAgent.exhausted_text;
               ai_response_end SingleAgent.exhausted_text] = 0) as -> by reflexivity.
    cbn [SingleAgent.round_index WebMCPAgent.initial_state] in *.
    split; [lia|]. split; [lia|]. split; [done|]. split; [lia|]. split; [lia|].
    by exists out.
Qed.

(** * Start and end markers *)

Module MarkerFacts.
Import SingleAgent.

Section Facts.
Variable W : World.
Variable current_llm_tools : LLM.
Variable current_model_key : string.

(** While a stream is read, a start marker is yielded exactly when the
    turn passes from not started to started. *)
Lemma consume_starts (evs : list LLMEvent) (started : bool) (rv : RoundVars) :
  let r := consume evs started rv in
  count_events is_response_start r.1.1 + flag started = flag r.1.2.
Proof.
  revert started rv. induction evs as [| ev rest IH]; intros started rv; [done|].
  destruct ev as [piece | output |]; cbn [consume]; try apply IH.
  destruct (String.eqb piece ""); [apply IH|].
  specialize (IH true (mkRoundVars (tool_calls_check rv) (last_usage rv)
                         (buffered_chunks rv ++ [piece]) (content_preview rv) true)).
  cbv zeta in *.
  destruct (consume rest true _) as [[out s'] rv']. cbn [fst snd] in *.
  rewrite count_events_app, count_events_cons. cbn [is_response_start].
  destruct started; rewrite ?count_events_cons, ?count_events_nil;
    cbn [is_response_start flag] in *; lia.
Qed.

Lemma consume_retry_starts (evs : list LLMEvent) (rv : RoundVars) :
  count_events is_response_start (consume_retry evs rv).1 = 0.
Proof.
  revert rv. induction evs as [| ev rest IH]; intros rv; [done|].
  destruct ev as [piece | output |]; cbn [consume_retry]; try apply IH.
  destruct (String.eqb piece ""); [apply IH|].
  specialize (IH (mkRoundVars (tool_calls_check rv) (last_usage rv)
                    (buffered_chunks rv ++ [piece]) (content_preview rv) true)).
  destruct (consume_retry rest _) as [out rv']. cbn [fst snd] in *.
  by rewrite count_events_cons.
Qed.

Lemma detect_starts (st : LoopState) :
  let r := detect W current_llm_tools current_model_key st in
  count_events is_response_start r.1.1 + flag (combined_response_started st)
  = flag (combined_response_started r.1.2).
Proof.
  cbv zeta. unfold detect.
  pose proof (consume_starts
                (run_events (current_llm_tools (now st)
                   (plain_message system (tools_system_prompt W) :: shared_history st)))
                (combined_response_started st) fresh_round) as H1.
  cbv zeta in H1.
  destruct (consume _ _ _) as [[out1 s1] rv1]. cbn [fst snd] in H1.
  destruct (run_raises _); [|exact H1].
  destruct (is_multimodal_error W _); [|exact H1].
  pose proof (consume_retry_starts
                (run_events
                   (current_llm_tools
                      (now (set_started true
                              (mark_non_multimodal current_model_key
                                 (set_started s1
                                    (await (llm_invoked
                                              (plain_message system (tools_system_prompt W)
                                                 :: shared_history st)) st)))))
                      (convert_multimodal_to_text
                         (plain_message system (tools_system_prompt W)
                            :: shared_history st)))) rv1) as H3.
  destruct (consume_retry _ rv1) as [out3 rv3]. cbn [fst snd] in H3.
  assert (count_events is_response_start
            (out1
               ++ ((if s1 then [] else [ai_response_start])
                     ++ [ai_response_chunk downgrade_notice]) ++ out3)
          + flag (combined_response_started st) = 1) as H.
  { rewrite !count_events_app, H3.
    destruct s1; rewrite ?count_events_cons, ?count_events_nil;
      cbn [is_response_start flag] in *; lia. }
  by destruct (run_raises _).
Qed.

Lemma agent_tools_started (calls : list ToolCall) (i n : nat)
    (st : LoopState) (e : bool) :
  combined_response_started (run_tools W i n calls st e).1.2
  = combined_response_started st.
Proof.
  revert i st e. induction calls as [| c rest IH]; intros i st e; [done|].
  rewrite AgentFacts.agent_tools_cons. cbv zeta. cbn [fst snd]. rewrite IH.
  unfold run_tool_call.
  destruct (find_tool (tools W) (tool_name_of c)) as [t|]; [|done].
  by destruct (ainvoke t _ _).
Qed.

Lemma execute_tools_started (calls : list ToolCall) (st : LoopState) :
  combined_response_started (execute_tools W calls st).2
  = combined_response_started st.
Proof.
  rewrite AgentFacts.execute_tools_eq. cbv zeta. cbn [fst snd].
  unfold update_failures.
  destruct (run_tools W 1 (length calls) calls _ false).2;
    [destruct (_ <=? _)|]; cbn; by rewrite agent_tools_started.
Qed.

Lemma tool_phase_markers (l : list StreamEvent) :
  Forall (fun e => tool_phase_event e = true) l ->
  count_events is_response_start l = 0 /\ count_events is_response_end l = 0.
Proof.
  intros H. split; apply count_events_none; by apply tool_phase_not_end.
Qed.

(** The markers of one round. *)
Lemma run_round_markers (st : LoopState) :
  let r := run_round W current_llm_tools current_model_key st in
  match r.2 with
  | ANSWER_DECIDED _ =>
      count_events is_response_start r.1.1 + flag (combined_response_started st) = 1
      /\ count_events is_response_end r.1.1 = 1
  | TOOL_DECIDED =>
      count_events is_response_start r.1.1 + flag (combined_response_started st)
      = flag (combined_response_started r.1.2)
      /\ count_events is_response_end r.1.1 = 0
  end.
Proof.
  cbv zeta. unfold run_round.
  pose proof (detect_starts st) as Hs. cbv zeta in Hs.
  pose proof (BudgetFacts.detect_events W current_llm_tools current_model_key st) as Hev.
  apply BudgetFacts.stream_phase_counts in Hev. destruct Hev as (_ & _ & He).
  destruct (detect W current_llm_tools current_model_key st) as [[out st1] rv].
  cbn [fst snd] in *.
  destruct (tool_calls_check rv) as [| c rest].
  - cbn [fst snd]. rewrite !count_events_app, He. unfold closing.
    destruct (combined_response_started st1) eqn:E1,
      (String.eqb (final_text_of rv) ""), (last_usage rv);
      count_out; lia.
  - pose proof (execute_tools_started (c :: rest) st1) as Hst.
    pose proof (tool_phase_markers _ (DecisionFacts.execute_tools_events W (c :: rest) st1))
      as (Hts & Hte).
    destruct (execute_tools W (c :: rest) st1) as [out_t st4]. cbn [fst snd] in *.
    rewrite !count_events_app, He, Hts, Hte, Hst. unfold separator.
    destruct (_ && _); count_out; lia.
Qed.

Lemma round_loop_markers (remaining : nat) (st : LoopState) :
  let r := round_loop W current_llm_tools current_model_key remaining st in
  match r.2 with
  | answered _ =>
      count_events is_response_start r.1.1 + flag (combined_response_started st) = 1
      /\ count_events is_response_end r.1.1 = 1
  | budget_exhausted =>
      count_events is_response_start r.1.1 + flag (combined_response_started st)
      = flag (combined_response_started r.1.2)
      /\ count_events is_response_end r.1.1 = 0
  end.
Proof.
  revert st. induction remaining as [| k IH]; intros st;
    [cbn [round_loop fst snd]; rewrite !count_events_nil; lia|].
  cbv zeta. cbn [round_loop].
  pose proof (run_round_markers (next_round st)) as Hr. cbv zeta in Hr.
  destruct (run_round W current_llm_tools current_model_key (next_round st))
    as [[out st1] outcome]. cbn [fst snd] in *.
  cbn [next_round combined_response_started] in Hr.
  destruct outcome as [final_text|]; [exact Hr|].
  specialize (IH st1). cbv zeta in IH.
  destruct (round_loop W current_llm_tools current_model_key k st1) as [[out' st2] r].
  cbn [fst snd] in *. rewrite !count_events_app.
  destruct r; lia.
Qed.

(** The markers of the rounds of a turn: one start and one end when a
    round answered; when the budget ran out, one end and a start on top
    of the one already sent, if any. *)
Lemma rounds_markers (shared_history : list Message) (p : Process) :
  let r := rounds W current_llm_tools current_model_key
             (WebMCPAgent.initial_state shared_history p) in
  count_events is_response_end r.1.1 = 1
  /\ count_events is_response_start r.1.1
     = match r.2 with
       | answered _ => 1
       | budget_exhausted => S (flag (combined_response_started r.1.2))
       end.
Proof.
  cbv zeta. unfold rounds.
  pose proof (round_loop_markers
                (max_rounds - round_index (WebMCPAgent.initial_state shared_history p))
                (WebMCPAgent.initial_state shared_history p)) as H.
  cbv zeta in H.
  destruct (round_loop W current_llm_tools current_model_key _ _) as [[out st1] r].
  cbn [fst snd] in *. cbn [WebMCPAgent.initial_state combined_response_started flag] in H.
  destruct r; cbn [fst snd]; [lia|].
  rewrite !count_events_app, !count_events_cons, !count_events_nil.
  cbn [is_response_start is_response_end]. lia.
Qed.

End Facts.
End MarkerFacts.

Lemma role_event_markers (l : list StreamEvent) :
  Forall (fun e => role_event e = true) l ->
  count_events is_response_start l = 0 /\ count_events is_response_end l = 0.
Proof.
  intros H. split; apply count_events_none;
    (eapply Forall_impl; [exact H|]); intros e He; by destruct e.
Qed.

Module PipelineMarkers.
Import Orchestrator.

Section Facts.
Variable W : World.

Lemma role_consume_events (role_id : string) (evs : list LLMEvent)
    (st : RoleState) (iv : IterVars) :
  Forall (fun e => role_event e = true) (consume role_id evs st iv).1.1.
Proof.
  revert st iv. induction evs as [| ev rest IH]; intros st iv; [constructor|].
  destruct ev as [piece | output |]; cbn [consume]; try apply IH.
  destruct (String.eqb piece ""); [apply IH|].
  specialize (IH (streamed st)
                (mkIterVars (role_tool_calls iv) (content_preview iv)
                   (buffered_chunks iv ++ [piece]))).
  destruct (consume role_id rest _ _) as [[out st'] iv']. cbn [fst snd] in *.
  constructor; [by destruct (role_prefix_sent st)|exact IH].
Qed.

Lemma role_tools_events (role_id : string) (allow : list string)
    (calls : list ToolCall) (i : nat) (st : RoleState) :
  Forall (fun e => role_event e = true) (run_tools W role_id allow i calls st).1.
Proof.
  revert i st. induction calls as [| c rest IH]; intros i st; [constructor|].
  rewrite PipelineFacts.role_tools_cons. cbv zeta. cbn [fst snd].
  apply Forall_app. split; [|apply IH].
  unfold run_tool_call.
  destruct (rejected allow (tool_name_of c)); [by repeat constructor|].
  destruct (find_tool (tools W) (tool_name_of c)) as [t|]; [|by repeat constructor].
  destruct (ainvoke t _ _); by repeat constructor.
Qed.

Lemma run_iteration_events (role_id : string) (allow : list string)
    (role_llm_tools : LLM) (st : RoleState) :
  Forall (fun e => role_event e = true)
    (run_iteration W role_id allow role_llm_tools st).1.1.
Proof.
  unfold run_iteration.
  pose proof (role_consume_events role_id
                (run_events (role_llm_tools (now st) (messages st)))
                (await (llm_invoked (messages st)) st) fresh_iter) as H1.
  destruct (consume role_id _ _ _) as [[out st1] iv]. cbn [fst snd] in *.
  destruct (run_raises _).
  { cbn [fst]. apply Forall_app. split; [exact H1 | by repeat constructor]. }
  destruct (role_tool_calls iv) as [| c rest].
  { cbn [fst]. apply Forall_app. split; [exact H1|].
    destruct (role_prefix_sent st1); by repeat constructor. }
  pose proof (role_tools_events role_id allow (c :: rest) 1 st1) as H2.
  destruct (run_tools W role_id allow 1 (c :: rest) st1) as [out_t st2].
  cbn [fst snd] in *. apply Forall_app. split; [exact H1|]. by constructor.
Qed.

Lemma role_loop_events (remaining : nat) (role_id : string) (allow : list string)
    (role_llm_tools : LLM) (st : RoleState) :
  Forall (fun e => role_event e = true)
    (role_loop W remaining role_id allow role_llm_tools st).1.
Proof.
  revert st. induction remaining as [| k IH]; intros st; [constructor|].
  cbn [role_loop].
  pose proof (run_iteration_events role_id allow role_llm_tools st) as Hr.
  destruct (run_iteration W role_id allow role_llm_tools st) as [[out st1] outcome].
  cbn [fst snd] in Hr. destruct outcome; try exact Hr.
  specialize (IH st1).
  destruct (role_loop W k role_id allow role_llm_tools st1) as [out' st2].
  cbn [fst snd] in *. by apply Forall_app.
Qed.

Lemma run_roles_events (allow : list string) (default_llm_tools : Binding)
    (rs : list RoleSpec) (ps : PipelineState) :
  Forall (fun e => role_event e = true) (run_roles W allow default_llm_tools rs ps).1.
Proof.
  revert ps. induction rs as [| role rest IH]; intros ps; [constructor|].
  cbn [run_roles].
  assert (Forall (fun e => role_event e = true)
            (run_role W allow default_llm_tools role ps).1) as H1.
  { unfold run_role.
    destruct (role_binding W default_llm_tools role (p_process ps)) as [b proc].
    pose proof (role_loop_events max_tool_iterations (str_or (id role) "role") allow
                  (llm_of W b)
                  (mkRoleState (plain_message system (system_prompt role)
                                  :: p_shared_history ps)
                     (p_shared_history ps) "" false (p_any_streamed ps) proc)) as Hl.
    by destruct (role_loop W max_tool_iterations (str_or (id role) "role") allow
                   (llm_of W b) _) as [out st']. }
  destruct (run_role W allow default_llm_tools role ps) as [out ps1].
  specialize (IH ps1).
  destruct (run_roles W allow default_llm_tools rest ps1) as [out' ps2].
  cbn [fst snd] in *. by apply Forall_app.
Qed.

(** A pipeline run that reaches its roles yields one start and one
    end, whatever the roles do; one whose agent file or default binding
    cannot be had yields the [error] event alone. *)
Lemma pipeline_markers (build_shared_history : bool -> list Message)
    (agent_cfg : Profile) (p : Process) :
  let out := (chat_stream W build_shared_history agent_cfg p).1 in
  (count_events is_response_start out = 1 /\ count_events is_response_end out = 1
   /\ count_events is_error out = 0)
  \/ exists e, out = [error ("Agent 执行出错: " +:+ e)].
Proof.
  cbv zeta. unfold chat_stream.
  destruct (max_rounds_raises _) as [e0|]; [right; by exists e0|].
  destruct (ModelManager.get_or_create_llm_instances W (backing_profile agent_cfg) p)
    as [[bundle | e] p1]; cbn [fst snd]; [|right; by exists e].
  pose proof (run_roles_events (tools_allowlist (load_spec W (agent_file agent_cfg)))
                (llm_tools bundle) (roles (load_spec W (agent_file agent_cfg)))
                (mkPipelineState (build_shared_history false) false [] p1)) as Hr.
  assert (count_events is_error
            (run_roles W (tools_allowlist (load_spec W (agent_file agent_cfg)))
               (llm_tools bundle) (roles (load_spec W (agent_file agent_cfg)))
               (mkPipelineState (build_shared_history false) false [] p1)).1 = 0) as Hn.
  { apply count_events_none. eapply Forall_impl; [exact Hr|]. by intros []. }
  apply role_event_markers in Hr. destruct Hr as (Hs & He).
  destruct (run_roles W _ _ _ _) as [out ps]. cbn [fst snd] in *. left.
  destruct (_ && _); count_out; rewrite ?Hs, ?He, ?Hn; done.
Qed.

End Facts.
End PipelineMarkers.

(** C2, at the failing input: a model that streams a token and then asks
    for a tool in each of the 25 rounds.  The start marker is sent with the
    first token, and once more when the budget runs out: two starts for one
    end. *)
Theorem second_start_when_budget_runs_out :
  let W := Examples.world (fun _ => false) [Examples.price_tool] Examples.eager_llm in
  let out := (WebMCPAgent.chat_stream W Examples.hello "" Examples.empty_process).1 in
  count_events is_response_start out = 2
  /\ count_events is_response_end out = 1
  /\ count_events is_tool_plan out = 25
  /\ take 3 out = [status "开始生成..."; ai_response_start; ai_response_chunk "x"]
  /\ drop (length out - 3) out
     = [ai_response_start; ai_response_chunk SingleAgent.exhausted_text;
        ai_response_end SingleAgent.exhausted_text].
Proof. cbv zeta. repeat split; by vm_compute. Qed.

(** * The decision rule, on every run of the model *)

(** C3 (as amended): the decision rule of a round, on every run of the
    model.  When the call completes, the tool-call list of the last
    finalized output decides.  With a non-empty list the round is
    TOOL_DECIDED: it has sent the streamed pieces as chunks, sends the
    separator after them when there are any and no end marker, and goes on
    with the tool phase from a state that keeps nothing of the streamed
    text; the history gains the assistant message with the calls, the tool
    answers and at most the fall-back instruction.  With an empty list the
    round is ANSWER_DECIDED and the final answer is the streamed pieces
    joined, or the finalized content when nothing was streamed; what it
    sends is [answer_sent]: the pieces as chunks, or the finalized content
    as one chunk only when the response had not started earlier in the
    turn, then the end marker and the usage.  A call that raises anything
    but the unsupported-input signature is answered with what was streamed
    before it failed.  After the signature, the call and its text-only
    retry are read as one stream: the notice and the retry's pieces are
    sent as chunks, and the round ends as above, the response having
    started.  In every case an answer round yields one end marker and leaves
    the history alone, and a tool round yields none. *)
Theorem decision_rule
    (W : World) (current_llm_tools : LLM) (key : string) (st : SingleAgent.LoopState) :
  let messages := tools_messages W st in
  let run := current_llm_tools (SingleAgent.now st) messages in
  let evs := run_events run in
  let pieces := stream_pieces evs in
  let usage := reported_usage evs in
  let started := SingleAgent.combined_response_started st in
  let st1 :=
    SingleAgent.set_started (started || nonempty pieces)
      (SingleAgent.await (llm_invoked messages) st) in
  let r := SingleAgent.run_round W current_llm_tools key st in
  match run_raises run with
  | None =>
      match returned_calls evs with
      | [] =>
          r = (answer_sent started pieces (returned_content evs) usage,
               SingleAgent.set_started true st1,
               SingleAgent.ANSWER_DECIDED (final_answer pieces (returned_content evs)))
      | calls =>
          r = (stream_events started pieces ++ separator_after pieces
                 ++ (SingleAgent.execute_tools W calls st1).1,
               (SingleAgent.execute_tools W calls st1).2,
               SingleAgent.TOOL_DECIDED)
      end
  | Some error_msg =>
      if is_multimodal_error W error_msg then
        let text_only_messages := convert_multimodal_to_text messages in
        let run' := current_llm_tools (S (SingleAgent.now st)) text_only_messages in
        let pieces' := stream_pieces (run_events run') in
        let sent :=
          stream_events started pieces
            ++ (if started || nonempty pieces then [] else [ai_response_start])
            ++ ai_response_chunk SingleAgent.downgrade_notice
                 :: map ai_response_chunk pieces' in
        let st4 :=
          SingleAgent.await (llm_invoked text_only_messages)
            (SingleAgent.set_started true (SingleAgent.mark_non_multimodal key st1)) in
        let content :=
          match run_raises run' with
          | None => returned_content (evs ++ run_events run')
          | Some _ => ""
          end in
        match agent_returned W current_llm_tools st with
        | [] =>
            r = (sent ++ [ai_response_end ""]
                   ++ match usage with Some u => [token_usage u] | None => [] end,
                 st4,
                 SingleAgent.ANSWER_DECIDED (final_answer (pieces ++ pieces') content))
        | calls =>
            r = (sent ++ separator_after (pieces ++ pieces')
                   ++ (SingleAgent.execute_tools W calls st4).1,
                 (SingleAgent.execute_tools W calls st4).2,
                 SingleAgent.TOOL_DECIDED)
        end
      else
        r = (answer_sent started pieces "" usage,
             SingleAgent.set_started true st1,
             SingleAgent.ANSWER_DECIDED (final_answer pieces ""))
  end
  /\ match agent_returned W current_llm_tools st with
     | [] =>
         count_events is_response_end r.1.1 = 1
         /\ SingleAgent.shared_history r.1.2 = SingleAgent.shared_history st
     | calls =>
         count_events is_response_end r.1.1 = 0
         /\ exists answers fallback,
              SingleAgent.shared_history r.1.2
              = SingleAgent.shared_history st
                  ++ assistant_tool_calls calls :: answers ++ fallback
              /\ Forall2 answer_to answers (effective_ids 1 calls)
              /\ (fallback = []
                  \/ exists text, fallback = [plain_message user text])
     end.
Proof.
  cbv zeta. split.
  - rewrite RoundReadFacts.run_round_eq. cbv zeta.
    unfold agent_returned. fold (tools_messages W st).
    destruct (run_raises (current_llm_tools (SingleAgent.now st) (tools_messages W st)))
      as [error_msg|] eqn:Hrun.
    + destruct (is_multimodal_error W error_msg) eqn:Hsig.
      * rewrite (RoundReadFacts.detect_retried W current_llm_tools key st error_msg Hrun Hsig).
        cbn [fst snd].
        destruct (run_raises (current_llm_tools (S (SingleAgent.now st)) _)) as [e'|].
        -- unfold SingleAgent.clear_output.
           cbn [SingleAgent.tool_calls_check SingleAgent.last_usage
                  SingleAgent.buffered_chunks SingleAgent.content_preview
                  SingleAgent.response_started].
           rewrite RoundReadFacts.final_text_read.
           cbn [SingleAgent.combined_response_started SingleAgent.await SingleAgent.on_process
                  SingleAgent.set_started SingleAgent.closing].
           by rewrite <- !app_assoc.
        -- cbn [SingleAgent.tool_calls_check SingleAgent.last_usage].
           destruct (returned_calls _) as [| c rest].
           ++ rewrite RoundReadFacts.final_text_read.
              cbn [SingleAgent.combined_response_started SingleAgent.await
                     SingleAgent.on_process SingleAgent.set_started SingleAgent.closing].
              by rewrite <- !app_assoc.
           ++ rewrite RoundReadFacts.separator_of. by rewrite <- !app_assoc.
      * rewrite (RoundReadFacts.detect_failed W current_llm_tools key st error_msg Hrun Hsig).
        cbn [fst snd SingleAgent.tool_calls_check SingleAgent.last_usage].
        rewrite RoundReadFacts.final_text_read.
        cbn [SingleAgent.combined_response_started SingleAgent.set_started].
        by rewrite RoundReadFacts.closing_sent.
    + rewrite (ReadFacts.detect_completed W current_llm_tools key st Hrun).
      cbn [fst snd SingleAgent.tool_calls_check SingleAgent.last_usage].
      destruct (returned_calls _) as [| c rest].
      * rewrite RoundReadFacts.final_text_read.
        cbn [SingleAgent.combined_response_started SingleAgent.set_started].
        by rewrite RoundReadFacts.closing_sent.
      * by rewrite RoundReadFacts.separator_of.
  - rewrite <- ReadFacts.agent_reads_returned with (current_model_key := key).
    pose proof (DetectFacts.run_round_history W current_llm_tools key st) as Hh.
    pose proof (MarkerFacts.run_round_markers W current_llm_tools key st) as Hm.
    cbv zeta in Hh, Hm. revert Hh Hm.
    rewrite RoundReadFacts.run_round_eq. cbv zeta. unfold agent_requested.
    destruct (SingleAgent.tool_calls_check _) as [| c rest]; cbn [fst snd].
    + intros (ms & fb & Hh & _) (_ & He). split; [exact He|]. by rewrite Hh, app_nil_r.
    + intros (ms & fb & Hh & Ha & Hf) (_ & He). split; [exact He|]. by exists ms, fb.
Qed.

(** C3, counterexample: the model streams a token and asks for a tool in
    the first round, then delivers its answer as finalized content without
    streaming.  The second round is ANSWER_DECIDED with that content as its
    final text, yet it sends the end marker alone: the response had started
    in the first round, so the content is sent in no chunk of the turn. *)
Lemma finalized_content_is_not_sent :
  let W := DecisionExamples.late_world in
  let llm := DecisionExamples.late_llm in
  let r1 := SingleAgent.run_round W llm "m0@https://base0"
              (SingleAgent.next_round Examples.start_state) in
  let st2 := SingleAgent.next_round r1.1.2 in
  let evs := run_events (llm (SingleAgent.now st2) (tools_messages W st2)) in
  let r2 := SingleAgent.run_round W llm "m0@https://base0" st2 in
  let turn := WebMCPAgent.chat_stream W Examples.hello "" Examples.empty_process in
  r1.2 = SingleAgent.TOOL_DECIDED
  /\ SingleAgent.combined_response_started st2 = true
  /\ (returned_calls evs = [] /\ stream_pieces evs = [] /\ returned_content evs = "42")
  /\ r2.2 = SingleAgent.ANSWER_DECIDED "42"
  /\ r2.1.1 = [ai_response_end ""]
  /\ turn.1 = status "开始生成..." :: r1.1.1 ++ r2.1.1
  /\ chunk_texts turn.1 = ["x"; nl +:+ nl].
Proof. cbv zeta. repeat split; by vm_compute. Qed.

(** C4 (as amended): the failure counter is stepped once a round, after
    every call of the batch has been run and answered.  It goes up by one
    when some call of the batch ended in a [tool_error]; when it then
    reaches 3, one user message carrying the fallback instruction is
    appended and the counter and the error history are emptied; no [error]
    event is yielded.  A call that returns sets the counter to 0, a call
    that fails leaves it as it was.  And the loop advances: a round in which
    the model returned calls is a tool round whose state is the one the
    batch and the counter step leave, the loop goes on from it with the
    rounds that remain, and the next round, when one remains, calls the
    model on the history that state holds; a round in which the model
    returned none ends the loop. *)
Theorem fallback_after_failed_rounds
    (W : World) (calls : list ToolCall) (st : SingleAgent.LoopState)
    (i n : nat) (c : ToolCall) (e : bool)
    (current_llm_tools : LLM) (key : string) (remaining : nat)
    (st0 : SingleAgent.LoopState) :
  let batch :=
    SingleAgent.run_tools W 1 (length calls) calls
      (SingleAgent.append_history (assistant_tool_calls calls) st) false in
  let st3 := batch.1.2 in
  let has_error := batch.2 in
  let step := SingleAgent.update_failures st3 has_error in
  (SingleAgent.execute_tools W calls st).2 = step.2
  /\ has_error = negb (Nat.eqb (count_events is_tool_error batch.1.1) 0)
  /\ (exists answers,
        SingleAgent.shared_history st3
          = SingleAgent.shared_history st ++ assistant_tool_calls calls :: answers
        /\ length answers = length calls)
  /\ (if has_error && (3 <=? S (SingleAgent.consecutive_tool_failures st3))
      then
        step.1 = [fallback_triggered "工具调用异常,正在生成替代回复..."
                    (S (SingleAgent.consecutive_tool_failures st3))]
        /\ SingleAgent.shared_history step.2
           = SingleAgent.shared_history st3
               ++ [plain_message user
                     (SingleAgent.fallback_prompt (SingleAgent.tool_error_history st3))]
        /\ SingleAgent.consecutive_tool_failures step.2 = 0
        /\ SingleAgent.tool_error_history step.2 = []
      else
        step.1 = []
        /\ SingleAgent.shared_history step.2 = SingleAgent.shared_history st3
        /\ SingleAgent.consecutive_tool_failures step.2
           = (if has_error then S (SingleAgent.consecutive_tool_failures st3)
              else SingleAgent.consecutive_tool_failures st3))
  /\ count_events is_error (SingleAgent.execute_tools W calls st).1 = 0
  /\ (let st' := (SingleAgent.run_tool_call W i n c st e).1.2 in
      match find_tool (tools W) (tool_name_of c) with
      | Some t =>
          match ainvoke t (SingleAgent.now st) (parsed_args_of (json_loads W) (py_str W) c) with
          | returns _ => SingleAgent.consecutive_tool_failures st' = 0
          | raises _ =>
              SingleAgent.consecutive_tool_failures st'
              = SingleAgent.consecutive_tool_failures st
          end
      | None =>
          SingleAgent.consecutive_tool_failures st'
          = SingleAgent.consecutive_tool_failures st
      end)
  /\ (let st1 := SingleAgent.next_round st0 in
      let asked := agent_returned W current_llm_tools st1 in
      let round := SingleAgent.run_round W current_llm_tools key st1 in
      let after :=
        (SingleAgent.execute_tools W asked
           (SingleAgent.detect W current_llm_tools key st1).1.2).2 in
      let later := SingleAgent.round_loop W current_llm_tools key remaining after in
      match asked with
      | [] =>
          exists text,
            round.2 = SingleAgent.ANSWER_DECIDED text
            /\ SingleAgent.round_loop W current_llm_tools key (S remaining) st0
               = (round.1.1, round.1.2, SingleAgent.answered text)
      | _ =>
          round.2 = SingleAgent.TOOL_DECIDED
          /\ round.1.2 = after
          /\ SingleAgent.round_loop W current_llm_tools key (S remaining) st0
             = (round.1.1 ++ later.1.1, later.1.2, later.2)
          /\ match remaining with
             | O => later = ([], after, SingleAgent.budget_exhausted)
             | S _ =>
                 exists more,
                   external_calls
                     (SingleAgent.process
                        (SingleAgent.run_round W current_llm_tools key
                           (SingleAgent.next_round after)).1.2)
                   = external_calls (SingleAgent.process after)
                       ++ llm_invoked (tools_messages W after) :: more
             end
      end).
Proof.
  cbv zeta. split; [by rewrite AgentFacts.execute_tools_eq|].
  split; [by rewrite FailureFacts.agent_tools_error|].
  split.
  { destruct (AgentFacts.agent_tools_history W calls 1 (length calls)
                (SingleAgent.append_history (assistant_tool_calls calls) st) false)
      as (ms & Hms & Hall).
    exists ms. split.
    - rewrite Hms. cbn. by rewrite <- app_assoc.
    - rewrite (FailureFacts.Forall2_length_eq _ _ _ Hall).
      apply FailureFacts.effective_ids_length. }
  split.
  { unfold SingleAgent.update_failures.
    destruct (SingleAgent.run_tools W 1 (length calls) calls _ false) as [[out st3] has_error].
    cbn [fst snd]. destruct has_error; [|done]. cbn [andb].
    cbn [SingleAgent.set_failures SingleAgent.consecutive_tool_failures].
    unfold SingleAgent.max_consecutive_failures.
    by destruct (3 <=? S (SingleAgent.consecutive_tool_failures st3)). }
  split.
  { apply count_events_none.
    by apply tool_phase_not_end, DecisionFacts.execute_tools_events. }
  split.
  { unfold SingleAgent.run_tool_call.
    destruct (find_tool (tools W) (tool_name_of c)) as [t|]; [|done].
    by destruct (ainvoke t _ _). }
  rewrite <- ReadFacts.agent_reads_returned with (current_model_key := key).
  unfold agent_requested. cbn [SingleAgent.round_loop].
  rewrite !RoundReadFacts.run_round_eq. cbv zeta.
  destruct (SingleAgent.tool_calls_check
              (SingleAgent.detect W current_llm_tools key (SingleAgent.next_round st0)).2)
    as [| c0 rest] eqn:Hasked.
  { eexists. split; reflexivity. }
  cbn [fst snd]. split; [done|]. split; [done|]. split.
  { by destruct (SingleAgent.round_loop _ _ _ _ _) as [[? ?] ?]. }
  destruct remaining as [| k]; [done|].
  set (after := (SingleAgent.execute_tools W (c0 :: rest) _).2).
  destruct (DetectFacts.detect_calls W current_llm_tools key (SingleAgent.next_round after))
    as (more & Hd & _).
  pose proof (PersistFacts.execute_tools_extends W) as He.
  destruct (SingleAgent.tool_calls_check
              (SingleAgent.detect W current_llm_tools key (SingleAgent.next_round after)).2)
    as [| c1 rest1]; cbn [fst snd SingleAgent.set_started SingleAgent.process].
  - exists more. exact Hd.
  - destruct (He (c1 :: rest1)
                (SingleAgent.detect W current_llm_tools key (SingleAgent.next_round after)).1.2)
      as (_ & more' & Hm).
    exists (more ++ more'). rewrite Hm, Hd.
    by rewrite <- app_assoc.
Qed.

(** C4, counterexample: the tool always fails.  A first batch of three
    failing calls runs all three, injects nothing and leaves the counter at
    1; and in the round in which the counter reaches 3, both calls of the
    batch are invoked before the fallback is injected. *)
Lemma no_call_is_short_circuited :
  let W3 := FailureExamples.failing_world (Examples.asking_llm FailureExamples.three_calls) in
  let r3 := SingleAgent.run_round W3 (Examples.asking_llm FailureExamples.three_calls)
              "m0@https://base0" Examples.start_state in
  let W2 := FailureExamples.failing_world (Examples.asking_llm FailureExamples.two_price_calls) in
  let r2 := SingleAgent.run_round W2 (Examples.asking_llm FailureExamples.two_price_calls)
              "m0@https://base0" FailureExamples.after_two_failures in
  (count_events is_tool_error r3.1.1 = 3
   /\ count_events is_fallback r3.1.1 = 0
   /\ SingleAgent.consecutive_tool_failures r3.1.2 = 1)
  /\ (count_events is_fallback r2.1.1 = 1
      /\ filter (fun c => is_tool_invocation c = true)
           (external_calls (SingleAgent.process r2.1.2))
         = [tool_invoked "get_price" (PDict []); tool_invoked "get_price" (PDict [])]).
Proof. cbv zeta. by vm_compute. Qed.

(** * Scoped credentials and the binding cache *)

Module CredentialFacts.
Import ModelManager.

Lemma KEY_BASE : KEY <> BASE.
Proof. discriminate. Qed.

(** After the [finally] block every variable that held a value holds it
    again. *)
Lemma restore_override_subseteq (a u : string) (env : gmap string string) :
  env ⊆ restore (env !! KEY) (env !! BASE) (override a u env).
Proof.
  apply map_subseteq_spec. intros i x Hi.
  unfold restore, override.
  destruct (decide (i = KEY)) as [-> | Hik].
  { rewrite Hi. destruct (env !! BASE), (String.eqb a ""), (String.eqb u "");
      by simplify_map_eq. }
  destruct (decide (i = BASE)) as [-> | Hib].
  { rewrite Hi. destruct (env !! KEY), (String.eqb a ""), (String.eqb u "");
      by simplify_map_eq. }
  destruct (env !! KEY), (env !! BASE), (String.eqb a ""), (String.eqb u "");
    by simplify_map_eq.
Qed.

(** No variable but the two credentials is touched. *)
Lemma restore_override_others (a u : string) (env : gmap string string) :
  delete KEY (delete BASE (restore (env !! KEY) (env !! BASE) (override a u env)))
  = delete KEY (delete BASE env).
Proof.
  apply map_eq. intros i. unfold restore, override.
  destruct (decide (i = KEY)) as [-> | Hik]; [by rewrite !lookup_delete_eq|].
  rewrite !(lookup_delete_ne _ KEY) by done.
  destruct (decide (i = BASE)) as [-> | Hib]; [by rewrite !lookup_delete_eq|].
  rewrite !(lookup_delete_ne _ BASE) by done.
  destruct (env !! KEY), (env !! BASE), (String.eqb a ""), (String.eqb u "");
    by simplify_map_eq.
Qed.

Section Facts.
Variable W : World.

Lemma get_or_create_environ (profile_id : string) (p : Process) :
  let p' := (get_or_create_llm_instances W profile_id p).2 in
  environ p ⊆ environ p'
  /\ delete KEY (delete BASE (environ p')) = delete KEY (delete BASE (environ p)).
Proof.
  unfold get_or_create_llm_instances.
  destruct (llm_cache p !! resolve W profile_id); [done|].
  destruct (llm_profiles W !! resolve W profile_id) as [cfg|]; [|done].
  destruct (construction_raises W _); cbn;
    (split; [apply restore_override_subseteq | apply restore_override_others]).
Qed.

Lemma bind_user_model_environ (profile_id session_id : string) (p : Process) :
  let p' := (WebMCPAgent.bind_user_model W profile_id session_id p).2 in
  environ p ⊆ environ p'
  /\ delete KEY (delete BASE (environ p')) = delete KEY (delete BASE (environ p)).
Proof.
  unfold WebMCPAgent.bind_user_model.
  destruct (_ && _); [|done].
  destruct (session_contexts W !! session_id) as [ctx|]; [|done].
  destruct (user_models ctx !! profile_id) as [cfg|]; [|done].
  destruct (construction_raises W _); cbn;
    (split; [apply restore_override_subseteq | apply restore_override_others]).
Qed.

(** A bundle that was handed out is handed out again, and nothing else
    happens. *)
Lemma get_or_create_cached (profile_id : string) (p : Process) :
  let r := get_or_create_llm_instances W profile_id p in
  match r.1 with
  | inl bundle =>
      llm_cache r.2 !! resolve W profile_id = Some bundle
      /\ get_or_create_llm_instances W profile_id r.2 = (inl bundle, r.2)
  | inr _ => llm_cache r.2 = llm_cache p /\ constructed r.2 = constructed p
  end.
Proof.
  cbv zeta.
  destruct (llm_cache p !! resolve W profile_id) as [bundle|] eqn:Hc.
  { assert (get_or_create_llm_instances W profile_id p = (inl bundle, p)) as E
      by (unfold get_or_create_llm_instances; by rewrite Hc).
    rewrite E. cbn [fst snd]. by split. }
  destruct (llm_profiles W !! resolve W profile_id) as [cfg|] eqn:Hp.
  2: { assert (get_or_create_llm_instances W profile_id p
               = (inr ("'" +:+ resolve W profile_id +:+ "'"), p)) as E
         by (unfold get_or_create_llm_instances; by rewrite Hc, Hp).
       by rewrite E. }
  destruct (construction_raises W
              (ChatOpenAI (override (api_key cfg) (base_url cfg) (environ p))
                 (model cfg))) as [e|] eqn:Hr.
  { assert (get_or_create_llm_instances W profile_id p
            = (inr e,
               with_environ
                 (restore (environ p !! KEY) (environ p !! BASE)
                    (override (api_key cfg) (base_url cfg) (environ p))) p)) as E
      by (unfold get_or_create_llm_instances; by rewrite Hc, Hp, Hr).
    by rewrite E. }
  set (base_llm := ChatOpenAI (override (api_key cfg) (base_url cfg) (environ p))
                     (model cfg)) in *.
  assert (get_or_create_llm_instances W profile_id p
          = (inl (mkBundle base_llm base_llm base_llm),
             cache (resolve W profile_id) (mkBundle base_llm base_llm base_llm)
               (built [base_llm; base_llm]
                  (with_environ
                     (restore (environ p !! KEY) (environ p !! BASE)
                        (override (api_key cfg) (base_url cfg) (environ p))) p)))) as E
    by (subst base_llm; unfold get_or_create_llm_instances; by rewrite Hc, Hp, Hr).
  rewrite E. cbn [fst snd].
  split; [by cbn; rewrite lookup_insert_eq|].
  unfold get_or_create_llm_instances. cbn [llm_cache cache].
  by rewrite lookup_insert_eq.
Qed.

Lemma override_lookup (a u : string) (env : gmap string string) :
  override a u env !! KEY = (if String.eqb a "" then env !! KEY else Some a)
  /\ override a u env !! BASE = (if String.eqb u "" then env !! BASE else Some u).
Proof.
  unfold override. pose proof KEY_BASE.
  destruct (String.eqb a ""), (String.eqb u ""); by simplify_map_eq.
Qed.

(** A bundle built now is built from the environment as overridden by
    the profile. *)
Lemma get_or_create_fresh (profile_id : string) (p : Process) :
  let r := get_or_create_llm_instances W profile_id p in
  match llm_cache p !! resolve W profile_id, llm_profiles W !! resolve W profile_id, r.1 with
  | None, Some cfg, inl bundle =>
      llm_tools bundle
      = ChatOpenAI (override (api_key cfg) (base_url cfg) (environ p)) (model cfg)
      /\ b_model (llm_tools bundle) = model cfg
      /\ b_api_key (llm_tools bundle)
         = (if String.eqb (api_key cfg) "" then environ p !! KEY
            else Some (api_key cfg))
      /\ b_base_url (llm_tools bundle)
         = (if String.eqb (base_url cfg) "" then environ p !! BASE
            else Some (base_url cfg))
      /\ constructed r.2 = constructed p ++ [llm bundle; llm_nontool bundle]
  | Some bundle, _, _ => r = (inl bundle, p)
  | _, _, _ => constructed r.2 = constructed p
  end.
Proof.
  cbv zeta. unfold get_or_create_llm_instances.
  destruct (llm_cache p !! resolve W profile_id) as [bundle|]; [done|].
  destruct (llm_profiles W !! resolve W profile_id) as [cfg|]; [|done].
  destruct (construction_raises W _); [done|]. cbn.
  by destruct (override_lookup (api_key cfg) (base_url cfg) (environ p)) as [-> ->].
Qed.

(** The binding of a user-defined model is the client built under the
    environment as overridden by the model's own credentials. *)
Lemma bind_user_model_fresh (profile_id session_id : string) (p : Process) :
  let u := WebMCPAgent.bind_user_model W profile_id session_id p in
  match u.1 with
  | Some b =>
      exists ctx cfg,
        session_contexts W !! session_id = Some ctx
        /\ user_models ctx !! profile_id = Some cfg
        /\ b = ChatOpenAI (override (um_api_key cfg) (um_base_url cfg) (environ p))
                 (default (model_name W) (um_model cfg))
        /\ b_api_key b
           = (if String.eqb (um_api_key cfg) "" then environ p !! KEY
              else Some (um_api_key cfg))
        /\ b_base_url b
           = (if String.eqb (um_base_url cfg) "" then environ p !! BASE
              else Some (um_base_url cfg))
  | None => constructed u.2 = constructed p
  end.
Proof.
  cbv zeta. unfold WebMCPAgent.bind_user_model.
  destruct (_ && _); [|done].
  destruct (session_contexts W !! session_id) as [ctx|]; [|done].
  destruct (user_models ctx !! profile_id) as [cfg|] eqn:Hcfg; [|done].
  destruct (construction_raises W _); [done|]. cbn [fst snd].
  exists ctx, cfg.
  split; [done|]. split; [done|]. split; [done|].
  cbn [ChatOpenAI b_api_key b_base_url].
  apply (override_lookup (um_api_key cfg) (um_base_url cfg) (environ p)).
Qed.

Lemma bind_user_model_built (profile_id session_id : string) (p : Process) :
  let u := WebMCPAgent.bind_user_model W profile_id session_id p in
  llm_cache u.2 = llm_cache p
  /\ constructed u.2
     = constructed p ++ match u.1 with Some b => [b] | None => [] end.
Proof.
  cbv zeta. unfold WebMCPAgent.bind_user_model.
  destruct (_ && _); [|by rewrite app_nil_r].
  destruct (session_contexts W !! session_id) as [ctx|]; [|by rewrite app_nil_r].
  destruct (user_models ctx !! profile_id) as [cfg|]; [|by rewrite app_nil_r].
  destruct (construction_raises W _); cbn; by rewrite ?app_nil_r.
Qed.

End Facts.
End CredentialFacts.

(** C9 (as amended): a binding is the client built under the environment
    in which the API key and the base URL are replaced by the profile's
    values, where these are not empty; this holds for the bundle of the
    model manager and for the binding of a user-defined model.  Once the
    binding is built, or its construction has failed, every environment
    variable that held a value before holds that value again
    ([environ p ⊆ environ _]) and no variable other than the API key and the
    base URL differs from before (the environments agree once the two are
    deleted); nothing is stated of a credential that held no value before.
    The model manager builds the bundle of a resolved profile id once and
    hands the cached bundle out afterwards; the binding of a user-defined
    model is built anew by each turn and never enters the cache. *)
Theorem credentials_scoped_and_bundles_cached
    (W : World) (profile_id session_id : string) (p : Process) :
  let r := ModelManager.get_or_create_llm_instances W profile_id p in
  let u := WebMCPAgent.bind_user_model W profile_id session_id p in
  (environ p ⊆ environ r.2
   /\ delete ModelManager.KEY (delete ModelManager.BASE (environ r.2))
      = delete ModelManager.KEY (delete ModelManager.BASE (environ p)))
  /\ (environ p ⊆ environ u.2
      /\ delete ModelManager.KEY (delete ModelManager.BASE (environ u.2))
         = delete ModelManager.KEY (delete ModelManager.BASE (environ p)))
  /\ match llm_cache p !! ModelManager.resolve W profile_id,
           llm_profiles W !! ModelManager.resolve W profile_id, r.1 with
     | None, Some cfg, inl bundle =>
         llm_tools bundle
         = ModelManager.ChatOpenAI
             (ModelManager.override (api_key cfg) (base_url cfg) (environ p)) (model cfg)
         /\ b_model (llm_tools bundle) = model cfg
         /\ b_api_key (llm_tools bundle)
            = (if String.eqb (api_key cfg) "" then environ p !! ModelManager.KEY
               else Some (api_key cfg))
         /\ b_base_url (llm_tools bundle)
            = (if String.eqb (base_url cfg) "" then environ p !! ModelManager.BASE
               else Some (base_url cfg))
         /\ constructed r.2 = constructed p ++ [llm bundle; llm_nontool bundle]
     | Some bundle, _, _ => r = (inl bundle, p)
     | _, _, _ => constructed r.2 = constructed p
     end
  /\ match r.1 with
     | inl bundle =>
         llm_cache r.2 !! ModelManager.resolve W profile_id = Some bundle
         /\ ModelManager.get_or_create_llm_instances W profile_id r.2 = (inl bundle, r.2)
     | inr _ => llm_cache r.2 = llm_cache p /\ constructed r.2 = constructed p
     end
  /\ match u.1 with
     | Some b =>
         exists ctx cfg,
           session_contexts W !! session_id = Some ctx
           /\ user_models ctx !! profile_id = Some cfg
           /\ b = ModelManager.ChatOpenAI
                    (ModelManager.override (um_api_key cfg) (um_base_url cfg) (environ p))
                    (default (model_name W) (um_model cfg))
           /\ b_api_key b
              = (if String.eqb (um_api_key cfg) "" then environ p !! ModelManager.KEY
                 else Some (um_api_key cfg))
           /\ b_base_url b
              = (if String.eqb (um_base_url cfg) "" then environ p !! ModelManager.BASE
                 else Some (um_base_url cfg))
     | None => constructed u.2 = constructed p
     end
  /\ llm_cache u.2 = llm_cache p
  /\ constructed u.2 = constructed p ++ match u.1 with Some b => [b] | None => [] end.
Proof.
  cbv zeta.
  split; [apply CredentialFacts.get_or_create_environ|].
  split; [apply CredentialFacts.bind_user_model_environ|].
  split; [apply CredentialFacts.get_or_create_fresh|].
  split; [apply CredentialFacts.get_or_create_cached|].
  split; [apply CredentialFacts.bind_user_model_fresh|].
  apply CredentialFacts.bind_user_model_built.
Qed.

(** C9, counterexample: a session that has selected its own model.  Two
    turns select the binding for the same profile id; it is built twice and
    the cache stays empty. *)
Lemma user_model_bound_on_every_turn :
  let W := CredentialExamples.user_world in
  let turn1 := WebMCPAgent.select_binding W (ModelManager.session_profile W "s1") "s1"
                 CredentialExamples.configured_process in
  let turn2 := WebMCPAgent.select_binding W (ModelManager.session_profile W "s1") "s1"
                 turn1.2 in
  ModelManager.session_profile W "s1" = "user-1"
  /\ turn1.1 = inl (mkBinding "um" (Some "uk") (Some "https://user"))
  /\ turn2.1 = turn1.1
  /\ constructed turn2.2
     = [mkBinding "um" (Some "uk") (Some "https://user");
        mkBinding "um" (Some "uk") (Some "https://user")]
  /\ map_to_list (llm_cache turn2.2) = []
  /\ environ turn2.2 = environ CredentialExamples.configured_process.
Proof. cbv zeta. repeat split; by vm_compute. Qed.

(** The variable that held no value: with no API key in the environment,
    the key of the profile stays behind after the bundle is built. *)
Lemma profile_key_left_behind :
  let W := Examples.world (fun _ => false) [] (Examples.broken_llm "down") in
  let r := ModelManager.get_or_create_llm_instances W "default" Examples.empty_process in
  environ Examples.empty_process !! ModelManager.KEY = None
  /\ environ r.2 !! ModelManager.KEY = Some "k0".
Proof. cbv zeta. split; by vm_compute. Qed.

(** * Beyond the claims: the events of a whole turn *)

Lemma role_event_no_error (l : list StreamEvent) :
  Forall (fun e => role_event e = true) l -> count_events is_error l = 0.
Proof.
  intros H. apply count_events_none.
  eapply Forall_impl; [exact H|]. intros e He; by destruct e.
Qed.

Lemma rounds_no_error (W : World) (current_llm_tools : LLM) (key : string)
    (st : SingleAgent.LoopState) :
  count_events is_error (SingleAgent.rounds W current_llm_tools key st).1.1 = 0.
Proof.
  unfold SingleAgent.rounds.
  pose proof (BudgetFacts.round_loop_budget W current_llm_tools key
                (SingleAgent.max_rounds - SingleAgent.round_index st) st) as (He & _).
  cbv zeta in He.
  destruct (SingleAgent.round_loop W current_llm_tools key _ st) as [[out st1] r].
  cbn [fst snd] in *. destruct r; cbn [fst snd]; [exact He|].
  count_out. lia.
Qed.

(** X1: every turn, single agent or pipeline, starts with the status event
    and yields exactly one terminal event: one [ai_response_end] and no
    [error], or one [error] and no [ai_response_end]. *)
Theorem one_terminal_event
    (W : World) (build_shared_history : bool -> list Message)
    (session_id : string) (p : Process) :
  let out := (WebMCPAgent.chat_stream W build_shared_history session_id p).1 in
  (exists rest, out = status "开始生成..." :: rest)
  /\ count_events is_response_end out + count_events is_error out = 1.
Proof.
  cbv zeta. unfold WebMCPAgent.chat_stream.
  destruct (WebMCPAgent.agent_profile W _) as [agent_cfg|].
  - pose proof (PipelineMarkers.pipeline_markers W build_shared_history agent_cfg p) as Hm.
    cbv zeta in Hm.
    destruct (Orchestrator.chat_stream W build_shared_history agent_cfg p) as [out p'].
    cbn [fst snd] in *. split; [by eexists|]. rewrite !count_events_cons. cbn.
    destruct Hm as [(_ & -> & ->) | (e & ->)]; [lia | by cbn].
  - destruct (WebMCPAgent.select_binding W _ session_id p) as [[b | e] p1].
    + pose proof (MarkerFacts.rounds_markers W (llm_of W b)
                    (ModelManager.get_current_model_key W session_id)
                    (build_shared_history
                       (bool_decide (ModelManager.get_current_model_key W session_id
                                       ∈ non_multimodal_models p1))) p1) as (Hend & _).
      pose proof (rounds_no_error W (llm_of W b)
                    (ModelManager.get_current_model_key W session_id)
                    (WebMCPAgent.initial_state
                       (build_shared_history
                          (bool_decide (ModelManager.get_current_model_key W session_id
                                          ∈ non_multimodal_models p1))) p1)) as Herr.
      cbv zeta in Hend.
      destruct (SingleAgent.rounds W _ _ _) as [[out st] r]. cbn [fst snd] in *.
      split; [by eexists|]. rewrite !count_events_cons. cbn. lia.
    + cbn [fst]. split; [by eexists|]. by cbn.
Qed.

Lemma rounds_exhausted_plans (W : World) (current_llm_tools : LLM) (key : string)
    (shared_history : list Message) (p : Process) :
  let r := SingleAgent.rounds W current_llm_tools key
             (WebMCPAgent.initial_state shared_history p) in
  match r.2 with
  | SingleAgent.budget_exhausted => count_events is_tool_plan r.1.1 = 25
  | SingleAgent.answered _ => count_events is_tool_plan r.1.1 < 25
  end.
Proof.
  cbv zeta. unfold SingleAgent.rounds.
  pose proof (BudgetFacts.round_loop_budget W current_llm_tools key
                (SingleAgent.max_rounds
                   - SingleAgent.round_index (WebMCPAgent.initial_state shared_history p))
                (WebMCPAgent.initial_state shared_history p)) as (_ & H).
  cbv zeta in H.
  destruct (SingleAgent.round_loop W current_llm_tools key _ _) as [[out st1] r].
  cbn [fst snd] in *. unfold SingleAgent.max_rounds in *.
  cbn [SingleAgent.round_index WebMCPAgent.initial_state] in H.
  destruct r; cbn [fst snd].
  - lia.
  - rewrite count_events_app.
    assert (count_events is_tool_plan
              [ai_response_start; ai_response_chunk SingleAgent.exhausted_text;
               ai_response_end SingleAgent.exhausted_text] = 0) as -> by reflexivity.
    lia.
Qed.

(** X2: in a pipeline turn, and in a single-agent turn that announced fewer
    than 25 tool plans (the round budget did not run out), the start markers
    are as many as the end markers, and at most one. *)
Theorem start_and_end_pair_up
    (W : World) (build_shared_history : bool -> list Message)
    (session_id : string) (p : Process) :
  is_Some (WebMCPAgent.agent_profile W (ModelManager.session_profile W session_id))
  \/ count_events is_tool_plan
       (WebMCPAgent.chat_stream W build_shared_history session_id p).1 < 25 ->
  let out := (WebMCPAgent.chat_stream W build_shared_history session_id p).1 in
  count_events is_response_start out = count_events is_response_end out
  /\ count_events is_response_start out <= 1.
Proof.
  cbv zeta. unfold WebMCPAgent.chat_stream.
  destruct (WebMCPAgent.agent_profile W _) as [agent_cfg|].
  - intros _.
    pose proof (PipelineMarkers.pipeline_markers W build_shared_history agent_cfg p) as Hm.
    cbv zeta in Hm.
    destruct (Orchestrator.chat_stream W build_shared_history agent_cfg p) as [out p'].
    cbn [fst snd] in *. rewrite !count_events_cons. cbn [is_response_start is_response_end].
    destruct Hm as [(-> & -> & _) | (e & ->)]; [lia | count_out; lia].
  - intros [[x Hx] | Hplans]; [discriminate|].
    destruct (WebMCPAgent.select_binding W _ session_id p) as [[b | e] p1].
    + pose proof (MarkerFacts.rounds_markers W (llm_of W b)
                    (ModelManager.get_current_model_key W session_id)
                    (build_shared_history
                       (bool_decide (ModelManager.get_current_model_key W session_id
                                       ∈ non_multimodal_models p1))) p1) as (Hend & Hstart).
      pose proof (rounds_exhausted_plans W (llm_of W b)
                    (ModelManager.get_current_model_key W session_id)
                    (build_shared_history
                       (bool_decide (ModelManager.get_current_model_key W session_id
                                       ∈ non_multimodal_models p1))) p1) as Hp.
      cbv zeta in Hend, Hstart, Hp.
      destruct (SingleAgent.rounds W _ _ _) as [[out st] r]. cbn [fst snd] in *.
      rewrite count_events_cons in Hplans. cbn [is_tool_plan] in Hplans.
      rewrite !count_events_cons. cbn [is_response_start is_response_end].
      destruct r; lia.
    + cbn [fst]. count_out. lia.
Qed.

Lemma start_and_end_pair_up_witness :
  let out := (WebMCPAgent.chat_stream (TurnExamples.answer_world "4") Examples.hello ""
                Examples.empty_process).1 in
  count_events is_tool_plan out < 25
  /\ count_events is_response_start out = count_events is_response_end out
  /\ count_events is_response_start out <= 1.
Proof.
  cbv zeta.
  assert (H : count_events is_tool_plan
                (WebMCPAgent.chat_stream (TurnExamples.answer_world "4") Examples.hello ""
                   Examples.empty_process).1 < 25).
  { vm_compute. lia. }
  split; [exact H|].
  apply (start_and_end_pair_up (TurnExamples.answer_world "4") Examples.hello ""
           Examples.empty_process).
  right. exact H.
Defined.

(** * Request order within a batch *)

Module OrderFacts.
Import SingleAgent.

Section Facts.
Variable W : World.

Lemma agent_tool_call_trace (i n : nat) (c : ToolCall) (st : LoopState) (e : bool) :
  exists closing,
    (run_tool_call W i n c st e).1.1
      = [tool_start (tool_id_of i c) (tool_name_of c)
           (parsed_args_of (json_loads W) (py_str W) c)
           (Some (dec i +:+ "/" +:+ dec n)) None; closing]
    /\ closes (tool_id_of i c) closing = true.
Proof.
  unfold run_tool_call.
  destruct (find_tool (tools W) (tool_name_of c)) as [t|].
  - destruct (ainvoke t _ _); eexists; (split; [reflexivity|]);
      cbn; apply String.eqb_refl.
  - eexists; split; [reflexivity|]. cbn; apply String.eqb_refl.
Qed.

Lemma agent_tools_trace (calls : list ToolCall) (i n : nat) (st : LoopState) (e : bool) :
  exists closings,
    (run_tools W i n calls st e).1.1 = paired (agent_starts W i n calls) closings
    /\ Forall2 (fun tool_id ev => closes tool_id ev = true) (effective_ids i calls) closings.
Proof.
  revert i st e. induction calls as [| c rest IH]; intros i st e.
  - exists []. split; [reflexivity | constructor].
  - rewrite AgentFacts.agent_tools_cons. cbv zeta. cbn [fst snd].
    destruct (agent_tool_call_trace i n c st e) as (closing & -> & Hc).
    destruct (IH (S i) (run_tool_call W i n c st e).1.2 (run_tool_call W i n c st e).2)
      as (closings & -> & Hall).
    exists (closing :: closings). split; [reflexivity | by constructor].
Qed.

End Facts.
End OrderFacts.

(** X3: the single agent runs a batch strictly in request order.  The
    events of the batch are, call after call, the [tool_start] of the call
    (with its progress [i/n]) followed by the [tool_end] or [tool_error] of
    that same call; and the tool messages appended to the history answer the
    calls in the same order. *)
Theorem batch_runs_in_request_order
    (W : World) (calls : list ToolCall) (i n : nat) (st : SingleAgent.LoopState) (e : bool) :
  let r := SingleAgent.run_tools W i n calls st e in
  exists closings answers,
    r.1.1 = paired (agent_starts W i n calls) closings
    /\ Forall2 (fun tool_id ev => closes tool_id ev = true) (effective_ids i calls) closings
    /\ SingleAgent.shared_history r.1.2 = SingleAgent.shared_history st ++ answers
    /\ Forall2 answer_to answers (effective_ids i calls).
Proof.
  cbv zeta.
  destruct (OrderFacts.agent_tools_trace W calls i n st e) as (closings & H1 & H2).
  destruct (AgentFacts.agent_tools_history W calls i n st e) as (answers & H3 & H4).
  by exists closings, answers.
Qed.

(** * What a turn adds, counted against its events *)

Lemma count_role_app (r : Role) (l1 l2 : list Message) :
  count_role r (l1 ++ l2) = count_role r l1 + count_role r l2.
Proof. unfold count_role. by rewrite filter_app, length_app. Qed.

Lemma count_role_cons (r : Role) (m : Message) (l : list Message) :
  count_role r (m :: l) = (if role_eqb (role m) r then 1 else 0) + count_role r l.
Proof.
  unfold count_role. rewrite filter_cons. destruct (role_eqb (role m) r); by case_decide.
Qed.

Lemma count_calls_app (q : Invocation -> bool) (l1 l2 : list Invocation) :
  count_calls q (l1 ++ l2) = count_calls q l1 + count_calls q l2.
Proof. unfold count_calls. by rewrite filter_app, length_app. Qed.

Lemma count_calls_cons (q : Invocation -> bool) (c : Invocation) (l : list Invocation) :
  count_calls q (c :: l) = (if q c then 1 else 0) + count_calls q l.
Proof.
  unfold count_calls. rewrite filter_cons. destruct (q c); by case_decide.
Qed.

Lemma count_role_nil (r : Role) : count_role r [] = 0.
Proof. reflexivity. Qed.

Lemma count_calls_nil (q : Invocation -> bool) : count_calls q [] = 0.
Proof. reflexivity. Qed.

(** Push the three counters through lists written out with [++] and [::]. *)
Ltac count_all :=
  repeat first [ rewrite count_events_app | rewrite count_events_cons
               | rewrite count_events_nil
               | rewrite count_role_app | rewrite count_role_cons
               | rewrite count_role_nil
               | rewrite count_calls_app | rewrite count_calls_cons
               | rewrite count_calls_nil ];
  cbn [is_tool_plan is_tool_start is_tool_closing is_tool_invocation
         is_llm_invocation role_eqb role plain_message assistant_tool_calls
         tool_message].

Lemma tally_app (k1 k2 : nat) (h1 h2 : list Message) (c1 c2 : list Invocation)
    (o1 o2 : list StreamEvent) :
  tally k1 h1 c1 o1 -> tally k2 h2 c2 o2 -> tally (k1 + k2) (h1 ++ h2) (c1 ++ c2) (o1 ++ o2).
Proof.
  unfold tally. intros (A1 & A2 & A3 & A4 & A5 & A6) (B1 & B2 & B3 & B4 & B5 & B6).
  rewrite !count_role_app, !count_calls_app, !count_events_app. repeat split; lia.
Qed.

(** Events that are neither a plan nor the start or closing of a call add
    nothing to the tally. *)
Lemma tally_silent (out : list StreamEvent) :
  Forall (fun e => is_tool_plan e || is_tool_start e || is_tool_closing e = false) out ->
  tally 0 [] [] out.
Proof.
  intros H. unfold tally.
  assert (count_events is_tool_plan out = 0 /\ count_events is_tool_start out = 0
          /\ count_events is_tool_closing out = 0) as (-> & -> & ->).
  { repeat split; apply count_events_none; (eapply Forall_impl; [exact H|]);
      intros e He; by destruct e. }
  cbn. repeat split; lia.
Qed.

Lemma stream_phase_silent (out : list StreamEvent) :
  Forall (fun e => stream_phase_event e = true) out ->
  Forall (fun e => is_tool_plan e || is_tool_start e || is_tool_closing e = false) out.
Proof. intros H. eapply Forall_impl; [exact H|]. intros e He; by destruct e. Qed.

Module TallyFacts.
Import SingleAgent.

Section Facts.
Variable W : World.
Variable current_llm_tools : LLM.
Variable current_model_key : string.

Lemma agent_tool_call_tally (i n : nat) (c : ToolCall) (st : LoopState) (e : bool) :
  let r := run_tool_call W i n c st e in
  exists m cs,
    shared_history r.1.2 = shared_history st ++ [m]
    /\ role m = tool
    /\ external_calls (process r.1.2) = external_calls (process st) ++ cs
    /\ count_calls is_tool_invocation cs <= 1
    /\ count_calls is_llm_invocation cs = 0
    /\ count_events is_tool_start r.1.1 = 1
    /\ count_events is_tool_closing r.1.1 = 1
    /\ count_events is_tool_plan r.1.1 = 0.
Proof.
  cbv zeta. unfold run_tool_call.
  destruct (find_tool (tools W) (tool_name_of c)) as [t|].
  - destruct (ainvoke t _ _); eexists _, [_]; cbn [fst snd];
      (split; [reflexivity|]); (split; [reflexivity|]); (split; [reflexivity|]);
      repeat split; try reflexivity; cbn; lia.
  - eexists _, []; cbn [fst snd]. rewrite app_nil_r.
    (split; [reflexivity|]); (split; [reflexivity|]); (split; [reflexivity|]).
    repeat split; try reflexivity; cbn; lia.
Qed.

Lemma agent_tools_tally (calls : list ToolCall) (i n : nat) (st : LoopState) (e : bool) :
  let r := run_tools W i n calls st e in
  exists hist cs,
    shared_history r.1.2 = shared_history st ++ hist
    /\ external_calls (process r.1.2) = external_calls (process st) ++ cs
    /\ count_role tool hist = length calls
    /\ count_role assistant hist = 0
    /\ count_role system hist = 0
    /\ count_calls is_tool_invocation cs <= length calls
    /\ count_calls is_llm_invocation cs = 0
    /\ count_events is_tool_start r.1.1 = length calls
    /\ count_events is_tool_closing r.1.1 = length calls
    /\ count_events is_tool_plan r.1.1 = 0.
Proof.
  revert i st e. induction calls as [| c rest IH]; intros i st e.
  - exists [], []. cbn [run_tools fst snd]. rewrite !app_nil_r. repeat split; reflexivity.
  - rewrite AgentFacts.agent_tools_cons. cbv zeta. cbn [fst snd].
    destruct (agent_tool_call_tally i n c st e) as (m & cs1 & H1 & Hm & H2 & A1 & A2 & A3 & A4 & A5).
    destruct (IH (S i) (run_tool_call W i n c st e).1.2 (run_tool_call W i n c st e).2)
      as (hist & cs2 & H3 & H4 & B1 & B2 & B3 & B4 & B5 & B6 & B7 & B8).
    exists (m :: hist), (cs1 ++ cs2).
    rewrite H3, H1, H4, H2, <- !app_assoc. cbn [app].
    rewrite !count_role_cons, !count_calls_app, !count_events_app, Hm. cbn [role_eqb length].
    repeat split; try reflexivity; lia.
Qed.

Lemma update_failures_tally (st : LoopState) (e : bool) :
  let r := update_failures st e in
  exists fb,
    shared_history r.2 = shared_history st ++ fb
    /\ count_role tool fb = 0 /\ count_role assistant fb = 0 /\ count_role system fb = 0
    /\ process r.2 = process st
    /\ count_events is_tool_start r.1 = 0
    /\ count_events is_tool_closing r.1 = 0
    /\ count_events is_tool_plan r.1 = 0.
Proof.
  cbv zeta. unfold update_failures. destruct e.
  - destruct (_ <=? _).
    + eexists [_]. cbn [fst snd]. split; [reflexivity|]. repeat split; reflexivity.
    + exists []. cbn [fst snd]. rewrite app_nil_r. repeat split; reflexivity.
  - exists []. cbn [fst snd]. rewrite app_nil_r. repeat split; reflexivity.
Qed.

Lemma execute_tools_tally (calls : list ToolCall) (st : LoopState) :
  let r := execute_tools W calls st in
  exists hist cs,
    shared_history r.2 = shared_history st ++ hist
    /\ external_calls (process r.2) = external_calls (process st) ++ cs
    /\ count_calls is_llm_invocation cs = 0
    /\ tally 0 hist cs r.1.
Proof.
  cbv zeta. rewrite AgentFacts.execute_tools_eq. cbv zeta. cbn [fst snd].
  destruct (agent_tools_tally calls 1 (length calls)
              (append_history (assistant_tool_calls calls) st) false)
    as (hist & cs & H1 & H2 & B1 & B2 & B3 & B4 & B5 & B6 & B7 & B8).
  cbv zeta in *.
  destruct (update_failures_tally
              (run_tools W 1 (length calls) calls
                 (append_history (assistant_tool_calls calls) st) false).1.2
              (run_tools W 1 (length calls) calls
                 (append_history (assistant_tool_calls calls) st) false).2)
    as (fb & F1 & F2 & F3 & F4 & F5 & F6 & F7 & F8).
  cbv zeta in *.
  exists (assistant_tool_calls calls :: hist ++ fb), cs.
  rewrite F1, F5, H1, H2. cbn [append_history shared_history process].
  rewrite <- !app_assoc. cbn [app].
  split; [reflexivity|]. split; [reflexivity|]. split; [exact B5|].
  unfold tally.
  rewrite !count_role_cons, !count_role_app, !count_events_cons, !count_events_app.
  cbn [role_eqb role assistant_tool_calls is_tool_plan is_tool_start is_tool_closing].
  rewrite B1, B2, B3, B6, B7, B8, F2, F3, F4, F6, F7, F8, B5.
  repeat split; lia.
Qed.

End Facts.
End TallyFacts.

Module TurnTally.
Import SingleAgent.

Section Facts.
Variable W : World.
Variable current_llm_tools : LLM.
Variable current_model_key : string.

Lemma detect_tally (st : LoopState) :
  let r := detect W current_llm_tools current_model_key st in
  exists cs,
    shared_history r.1.2 = shared_history st
    /\ external_calls (process r.1.2) = external_calls (process st) ++ cs
    /\ tally 1 [] cs r.1.1.
Proof.
  cbv zeta.
  destruct (DetectFacts.detect_frame W current_llm_tools current_model_key st) as (Hh & _).
  destruct (DetectFacts.detect_calls W current_llm_tools current_model_key st)
    as (more & Hc & Hmore).
  pose proof (tally_silent _ (stream_phase_silent _
                (BudgetFacts.detect_events W current_llm_tools current_model_key st)))
    as (T1 & T2 & T3 & T4 & T5 & T6).
  exists (llm_invoked (tools_messages W st) :: more).
  split; [exact Hh|]. split; [exact Hc|].
  unfold tally. rewrite count_role_nil, count_calls_nil in *.
  destruct Hmore as [-> | ->]; count_all; repeat split; lia.
Qed.

Lemma tally_answer (k : nat) (cs : list Invocation) (out extra : list StreamEvent) :
  tally k [] cs out ->
  Forall (fun e => is_tool_plan e || is_tool_start e || is_tool_closing e = false) extra ->
  tally k [] cs (out ++ extra).
Proof.
  intros T He. apply tally_silent in He.
  pose proof (tally_app k 0 [] [] cs [] out extra T He) as H.
  cbn [app] in H. rewrite app_nil_r in H. replace (k + 0) with k in H by lia. exact H.
Qed.

Lemma run_round_tally (st : LoopState) :
  let r := run_round W current_llm_tools current_model_key st in
  exists hist cs,
    shared_history r.1.2 = shared_history st ++ hist
    /\ external_calls (process r.1.2) = external_calls (process st) ++ cs
    /\ tally 1 hist cs r.1.1.
Proof.
  cbv zeta. unfold run_round.
  destruct (detect_tally st) as (cs1 & Hh & Hc & T1). cbv zeta in *.
  destruct (detect W current_llm_tools current_model_key st) as [[out st1] rv].
  cbn [fst snd] in *.
  destruct (tool_calls_check rv) as [| c rest].
  - exists [], cs1. cbn [fst snd process set_started shared_history].
    rewrite app_nil_r. split; [exact Hh|]. split; [exact Hc|].
    apply tally_answer; [exact T1|].
    apply Forall_app. split.
    + unfold closing.
      destruct (combined_response_started st1), (String.eqb (final_text_of rv) "");
        by repeat constructor.
    + destruct (last_usage rv); by repeat constructor.
  - destruct (TallyFacts.execute_tools_tally W (c :: rest) st1)
      as (hist & cs2 & H1 & H2 & _ & T2). cbv zeta in *.
    destruct (execute_tools W (c :: rest) st1) as [out_t st4]. cbn [fst snd] in *.
    exists hist, (cs1 ++ cs2). rewrite H1, H2, Hh, Hc, <- app_assoc.
    split; [reflexivity|]. split; [reflexivity|].
    assert (tally 1 [] cs1 (out ++ separator rv)) as T1'.
    { apply tally_answer; [exact T1|]. unfold separator.
      destruct (_ && _); by repeat constructor. }
    pose proof (tally_app 1 0 [] hist cs1 cs2 _ _ T1' T2) as H.
    cbn [app] in H. rewrite <- app_assoc in H.
    replace (1 + 0) with 1 in H by lia. exact H.
Qed.

(** The rounds that ran are the difference of the round indices. *)
Lemma round_loop_tally (remaining : nat) (st : LoopState) :
  let r := round_loop W current_llm_tools current_model_key remaining st in
  exists hist cs,
    shared_history r.1.2 = shared_history st ++ hist
    /\ external_calls (process r.1.2) = external_calls (process st) ++ cs
    /\ round_index st <= round_index r.1.2 <= round_index st + remaining
    /\ tally (round_index r.1.2 - round_index st) hist cs r.1.1.
Proof.
  revert st. induction remaining as [| k IH]; intros st.
  - exists [], []. cbn [round_loop fst snd]. rewrite !app_nil_r.
    split; [reflexivity|]. split; [reflexivity|]. split; [lia|].
    replace (round_index st - round_index st) with 0 by lia.
    apply tally_silent. constructor.
  - cbv zeta. cbn [round_loop].
    destruct (run_round_tally (next_round st)) as (h1 & c1 & H1 & H2 & T1).
    pose proof (BudgetFacts.run_round_budget W current_llm_tools current_model_key
                  (next_round st)) as (Hi & _).
    cbv zeta in *.
    destruct (run_round W current_llm_tools current_model_key (next_round st))
      as [[out st1] outcome]. cbn [fst snd] in *.
    cbn [next_round shared_history process round_index] in H1, H2, Hi.
    destruct outcome as [final_text|].
    + exists h1, c1. cbn [fst snd]. split; [exact H1|]. split; [exact H2|].
      split; [lia|]. replace (round_index st1 - round_index st) with 1 by lia. exact T1.
    + destruct (IH st1) as (h2 & c2 & H3 & H4 & Hr & T2). cbv zeta in *.
      destruct (round_loop W current_llm_tools current_model_key k st1)
        as [[out' st2] r]. cbn [fst snd] in *.
      exists (h1 ++ h2), (c1 ++ c2). rewrite H3, H4, H1, H2, <- !app_assoc.
      split; [reflexivity|]. split; [reflexivity|]. split; [lia|].
      pose proof (tally_app _ _ _ _ _ _ _ _ T1 T2) as H.
      replace (round_index st2 - round_index st)
        with (1 + (round_index st2 - round_index st1)) by lia.
      exact H.
Qed.

Lemma rounds_tally (shared_history0 : list Message) (p : Process) :
  let r := rounds W current_llm_tools current_model_key
             (WebMCPAgent.initial_state shared_history0 p) in
  exists hist cs,
    shared_history r.1.2 = shared_history0 ++ hist
    /\ external_calls (process r.1.2) = external_calls p ++ cs
    /\ round_index r.1.2 <= 25
    /\ tally (round_index r.1.2) hist cs r.1.1.
Proof.
  cbv zeta. unfold rounds.
  destruct (round_loop_tally
              (max_rounds - round_index (WebMCPAgent.initial_state shared_history0 p))
              (WebMCPAgent.initial_state shared_history0 p))
    as (hist & cs & H1 & H2 & Hr & T). cbv zeta in *.
  destruct (round_loop W current_llm_tools current_model_key _ _) as [[out st1] r].
  cbn [fst snd] in *.
  cbn [WebMCPAgent.initial_state shared_history process round_index] in *.
  unfold max_rounds in *. rewrite Nat.sub_0_r in T.
  exists hist, cs. destruct r; cbn [fst snd].
  - split; [exact H1|]. split; [exact H2|]. split; [lia | exact T].
  - split; [exact H1|]. split; [exact H2|]. split; [lia|].
    pose proof (tally_app _ 0 hist [] cs [] out
                  [ai_response_start; ai_response_chunk exhausted_text;
                   ai_response_end exhausted_text] T) as H.
    rewrite !app_nil_r, Nat.add_0_r in H. apply H.
    apply tally_silent. by repeat constructor.
Qed.

End Facts.
End TurnTally.

(** X4: the history of a single-agent turn only grows, and what the rounds
    append mirrors the events they yield: one assistant message for each
    tool plan, one tool message for each [tool_start], which is also one for
    each [tool_end] or [tool_error], and never a system message.  The answer
    itself is not written to the history. *)
Theorem history_grows_with_the_events
    (W : World) (current_llm_tools : LLM) (key : string)
    (shared_history : list Message) (p : Process) :
  let r := SingleAgent.rounds W current_llm_tools key
             (WebMCPAgent.initial_state shared_history p) in
  exists appended,
    SingleAgent.shared_history r.1.2 = shared_history ++ appended
    /\ count_role assistant appended = count_events is_tool_plan r.1.1
    /\ count_role tool appended = count_events is_tool_start r.1.1
    /\ count_events is_tool_start r.1.1 = count_events is_tool_closing r.1.1
    /\ count_role system appended = 0.
Proof.
  cbv zeta.
  destruct (TurnTally.rounds_tally W current_llm_tools key shared_history p)
    as (hist & cs & H1 & _ & _ & (T1 & T2 & T3 & T4 & _)).
  exists hist. repeat split; try done. lia.
Qed.

(** X5: a single-agent turn calls the model at least once for each round it
    runs and at most 50 times in all (25 rounds, each with at most one
    retry), and invokes a tool at most once for each [tool_start] event. *)
Theorem model_calls_are_bounded
    (W : World) (current_llm_tools : LLM) (key : string)
    (shared_history : list Message) (p : Process) :
  let r := SingleAgent.rounds W current_llm_tools key
             (WebMCPAgent.initial_state shared_history p) in
  exists awaited,
    external_calls (SingleAgent.process r.1.2) = external_calls p ++ awaited
    /\ SingleAgent.round_index r.1.2 <= count_calls is_llm_invocation awaited
    /\ count_calls is_llm_invocation awaited <= 2 * SingleAgent.round_index r.1.2
    /\ count_calls is_llm_invocation awaited <= 50
    /\ count_calls is_tool_invocation awaited <= count_events is_tool_start r.1.1.
Proof.
  cbv zeta.
  destruct (TurnTally.rounds_tally W current_llm_tools key shared_history p)
    as (hist & cs & _ & H2 & Hr & (_ & _ & _ & _ & T5 & T6)).
  exists cs. repeat split; try done; lia.
Qed.

(** * The failure counter across a turn *)

Module CounterFacts.
Import SingleAgent.

Section Facts.
Variable W : World.
Variable current_llm_tools : LLM.
Variable current_model_key : string.

Lemma agent_tools_counter (calls : list ToolCall) (i n : nat) (st : LoopState) (e : bool) :
  let r := run_tools W i n calls st e in
  consecutive_tool_failures r.1.2 <= consecutive_tool_failures st
  /\ count_events is_fallback r.1.1 = 0
  /\ Forall (fun ev => reports_three ev = true) r.1.1.
Proof.
  revert i st e. induction calls as [| c rest IH]; intros i st e.
  - cbn. repeat split; [lia | constructor].
  - rewrite AgentFacts.agent_tools_cons. cbv zeta. cbn [fst snd].
    destruct (IH (S i) (run_tool_call W i n c st e).1.2 (run_tool_call W i n c st e).2)
      as (H1 & H2 & H3).
    assert (consecutive_tool_failures (run_tool_call W i n c st e).1.2
            <= consecutive_tool_failures st
            /\ count_events is_fallback (run_tool_call W i n c st e).1.1 = 0
            /\ Forall (fun ev => reports_three ev = true)
                 (run_tool_call W i n c st e).1.1) as (A1 & A2 & A3).
    { unfold run_tool_call.
      destruct (find_tool (tools W) (tool_name_of c)) as [t|];
        [destruct (ainvoke t _ _)|]; cbn; repeat split; try lia;
        by repeat constructor. }
    rewrite count_events_app, A2, H2. split; [lia|]. split; [done|].
    by apply Forall_app.
Qed.

(** A tool round: three fallbacks' worth of failures cannot be had for
    less than three tool plans. *)
Lemma execute_tools_counter (calls : list ToolCall) (st : LoopState) :
  let r := execute_tools W calls st in
  consecutive_tool_failures st <= 2 ->
  consecutive_tool_failures r.2 <= 2
  /\ 3 * count_events is_fallback r.1 + consecutive_tool_failures r.2
     <= 1 + consecutive_tool_failures st
  /\ Forall (fun ev => reports_three ev = true) r.1.
Proof.
  cbv zeta. intros Hle. rewrite AgentFacts.execute_tools_eq. cbv zeta. cbn [fst snd].
  destruct (agent_tools_counter calls 1 (length calls)
              (append_history (assistant_tool_calls calls) st) false)
    as (H1 & H2 & H3). cbv zeta in *.
  cbn [append_history consecutive_tool_failures] in H1.
  destruct (run_tools W 1 (length calls) calls _ false) as [[out st3] has_error].
  cbn [fst snd] in *. unfold update_failures.
  rewrite count_events_cons, count_events_app, H2. cbn [is_fallback].
  destruct has_error.
  - cbn [set_failures consecutive_tool_failures]. unfold max_consecutive_failures.
    destruct (3 <=? S (consecutive_tool_failures st3)) eqn:E.
    + apply Nat.leb_le in E. cbn [fst snd set_error_history set_failures append_history
                                    consecutive_tool_failures].
      rewrite count_events_cons, count_events_nil. cbn [is_fallback].
      split; [lia|]. split; [lia|].
      constructor; [done|]. apply Forall_app. split; [done|].
      constructor; [|constructor]. cbn. apply Nat.eqb_eq. lia.
    + apply Nat.leb_gt in E. cbn [fst snd set_failures consecutive_tool_failures].
      rewrite count_events_nil. split; [lia|]. split; [lia|].
      constructor; [done|]. by rewrite app_nil_r.
  - cbn [fst snd]. rewrite count_events_nil. split; [lia|]. split; [lia|].
    constructor; [done|]. by rewrite app_nil_r.
Qed.

Lemma stream_phase_reports (l : list StreamEvent) :
  Forall (fun e => stream_phase_event e = true) l ->
  Forall (fun e => reports_three e = true) l /\ count_events is_fallback l = 0.
Proof.
  intros H. split; [|apply count_events_none];
    (eapply Forall_impl; [exact H|]); intros e He; by destruct e.
Qed.

Lemma run_round_counter (st : LoopState) :
  let r := run_round W current_llm_tools current_model_key st in
  consecutive_tool_failures st <= 2 ->
  consecutive_tool_failures r.1.2 <= 2
  /\ 3 * count_events is_fallback r.1.1 + consecutive_tool_failures r.1.2
     <= count_events is_tool_plan r.1.1 + consecutive_tool_failures st
  /\ Forall (fun ev => reports_three ev = true) r.1.1.
Proof.
  cbv zeta. intros Hle.
  pose proof (BudgetFacts.run_round_budget W current_llm_tools current_model_key st)
    as (_ & _ & Hplan). cbv zeta in Hplan. revert Hplan.
  unfold run_round.
  pose proof (DetectFacts.detect_frame W current_llm_tools current_model_key st)
    as (_ & _ & Hf & _).
  pose proof (stream_phase_reports _
                (BudgetFacts.detect_events W current_llm_tools current_model_key st))
    as (Hr & Hfb). cbv zeta in Hf.
  destruct (detect W current_llm_tools current_model_key st) as [[out st1] rv].
  cbn [fst snd] in *.
  destruct (tool_calls_check rv) as [| c rest].
  - cbn [fst snd set_started consecutive_tool_failures]. intros ->.
    rewrite !count_events_app, Hfb.
    assert (count_events is_fallback
              (closing (combined_response_started st1) (final_text_of rv)) = 0
            /\ Forall (fun ev => reports_three ev = true)
                 (closing (combined_response_started st1) (final_text_of rv)))
      as (-> & Hc).
    { unfold closing.
      destruct (combined_response_started st1), (String.eqb (final_text_of rv) "");
        split; try reflexivity; by repeat constructor. }
    split; [lia|]. split.
    + destruct (last_usage rv); count_out; cbn [is_fallback]; lia.
    + apply Forall_app. split; [done|]. apply Forall_app. split; [done|].
      destruct (last_usage rv); by repeat constructor.
  - destruct (execute_tools_counter (c :: rest) st1) as (A1 & A2 & A3); [lia|].
    destruct (execute_tools W (c :: rest) st1) as [out_t st4]. cbn [fst snd] in *.
    intros Hplan. rewrite !count_events_app, Hfb.
    assert (count_events is_fallback (separator rv) = 0
            /\ Forall (fun ev => reports_three ev = true) (separator rv)) as (-> & Hs).
    { unfold separator. destruct (_ && _); split; try reflexivity; by repeat constructor. }
    rewrite !count_events_app in Hplan. split; [lia|]. split; [lia|].
    apply Forall_app. split; [done|]. by apply Forall_app.
Qed.

Lemma round_loop_counter (remaining : nat) (st : LoopState) :
  let r := round_loop W current_llm_tools current_model_key remaining st in
  consecutive_tool_failures st <= 2 ->
  consecutive_tool_failures r.1.2 <= 2
  /\ 3 * count_events is_fallback r.1.1 + consecutive_tool_failures r.1.2
     <= count_events is_tool_plan r.1.1 + consecutive_tool_failures st
  /\ Forall (fun ev => reports_three ev = true) r.1.1.
Proof.
  revert st. induction remaining as [| k IH]; intros st.
  - cbn. intros Hle. repeat split; [lia | lia | constructor].
  - cbv zeta. intros Hle. cbn [round_loop].
    destruct (run_round_counter (next_round st)) as (A1 & A2 & A3); [exact Hle|].
    destruct (run_round W current_llm_tools current_model_key (next_round st))
      as [[out st1] outcome]. cbn [fst snd] in *.
    cbn [next_round consecutive_tool_failures] in A2.
    destruct outcome as [final_text|]; [by cbn [fst snd]|].
    destruct (IH st1 A1) as (B1 & B2 & B3).
    destruct (round_loop W current_llm_tools current_model_key k st1) as [[out' st2] r].
    cbn [fst snd] in *. rewrite !count_events_app.
    split; [lia|]. split; [lia|]. by apply Forall_app.
Qed.

End Facts.
End CounterFacts.

(** X6: when a single-agent turn ends the failure counter is at most 2,
    every [fallback_triggered] event of the turn reports exactly 3
    failures, and three times the number of fallbacks never exceeds the
    number of tool plans: the fallback fires at most once in three tool
    rounds, hence at most 8 times in a turn. *)
Theorem fallback_once_in_three_rounds
    (W : World) (current_llm_tools : LLM) (key : string)
    (shared_history : list Message) (p : Process) :
  let r := SingleAgent.rounds W current_llm_tools key
             (WebMCPAgent.initial_state shared_history p) in
  SingleAgent.consecutive_tool_failures r.1.2 <= 2
  /\ Forall (fun ev => reports_three ev = true) r.1.1
  /\ 3 * count_events is_fallback r.1.1 <= count_events is_tool_plan r.1.1
  /\ count_events is_fallback r.1.1 <= 8.
Proof.
  cbv zeta.
  pose proof (rounds_exhausted_plans W current_llm_tools key shared_history p) as Hp.
  cbv zeta in Hp. revert Hp. unfold SingleAgent.rounds.
  destruct (CounterFacts.round_loop_counter W current_llm_tools key
              (SingleAgent.max_rounds
                 - SingleAgent.round_index (WebMCPAgent.initial_state shared_history p))
              (WebMCPAgent.initial_state shared_history p)) as (A1 & A2 & A3);
    [cbn; lia|].
  destruct (SingleAgent.round_loop W current_llm_tools key _ _) as [[out st1] r].
  cbn [fst snd] in *.
  cbn [WebMCPAgent.initial_state SingleAgent.consecutive_tool_failures] in A2.
  destruct r; cbn [fst snd]; intros Hp.
  - repeat split; try done; lia.
  - rewrite !count_events_app in *.
    assert (count_events is_fallback
              [ai_response_start; ai_response_chunk SingleAgent.exhausted_text;
               ai_response_end SingleAgent.exhausted_text] = 0) as -> by reflexivity.
    assert (count_events is_tool_plan
              [ai_response_start; ai_response_chunk SingleAgent.exhausted_text;
               ai_response_end SingleAgent.exhausted_text] = 0) as E by reflexivity.
    rewrite E in *. split; [done|]. split; [|lia].
    apply Forall_app. split; [done|]. by repeat constructor.
Qed.

(** * What an answer round sends *)

(** X7: an answer round (the model streams [toks], delivers [output] with
    no tool call and does not raise) sends the streamed pieces, or the
    finalized content when nothing was streamed and the response had not
    started, then the end marker and the usage.  In a turn whose response
    had started in an earlier round, a round that streams nothing sends the
    end marker alone: the finalized content is not sent. *)
Theorem answer_round_events
    (W : World) (current_llm_tools : LLM) (key : string)
    (st : SingleAgent.LoopState) (toks : list string) (output : AIMessage) :
  current_llm_tools (SingleAgent.now st) (tools_messages W st)
    = mkModelRun (map on_chat_model_stream toks ++ [on_chat_model_end output]) None ->
  out_tool_calls output = [] ->
  (SingleAgent.run_round W current_llm_tools key st).1.1
    = answer_events (SingleAgent.combined_response_started st) (streamed_of toks) output.
Proof.
  intros Hrun Hcalls. unfold SingleAgent.run_round, answer_events.
  rewrite (RoundFacts.detect_normal W current_llm_tools key st toks output Hrun).
  cbn [SingleAgent.tool_calls_check]. rewrite Hcalls. cbn [fst snd].
  unfold SingleAgent.final_text_of, SingleAgent.closing, stream_events.
  cbn [SingleAgent.set_started SingleAgent.combined_response_started
       SingleAgent.buffered_chunks SingleAgent.content_preview SingleAgent.last_usage].
  destruct (SingleAgent.combined_response_started st), (streamed_of toks) as [| t ts];
    cbn [orb nonempty app]; destruct (out_usage output);
    rewrite <- ?app_assoc; reflexivity.
Qed.

Lemma answer_round_events_witness :
  let W := TurnExamples.answer_world "42" in
  (SingleAgent.run_round W (TurnExamples.silent_llm "42") "m0@https://base0"
     TurnExamples.started_state).1.1
  = [ai_response_end ""].
Proof.
  cbv zeta.
  rewrite (answer_round_events (TurnExamples.answer_world "42")
             (TurnExamples.silent_llm "42") "m0@https://base0"
             TurnExamples.started_state [] (mkAIMessage "42" [] None)
             eq_refl eq_refl).
  reflexivity.
Defined.

(** * The role pipeline: what roles hand over and what they call *)

Module HandoverFacts.
Import Orchestrator.

Section Facts.
Variable W : World.
Variables (role_id : string) (tools_allowlist : list string).
Variable role_llm_tools : LLM.

Lemma role_tools_frame (calls : list ToolCall) (i : nat) (st : RoleState) :
  let st' := (run_tools W role_id tools_allowlist i calls st).2 in
  shared_history st' = shared_history st
  /\ role_last_content st' = role_last_content st.
Proof.
  revert i st. induction calls as [| c rest IH]; intros i st; [done|].
  rewrite PipelineFacts.role_tools_cons. cbv zeta. cbn [snd].
  destruct (IH (S i) (run_tool_call W role_id tools_allowlist i c st).2) as [-> ->].
  by destruct (PipelineFacts.role_tool_call_frame W role_id tools_allowlist i c st)
    as (-> & -> & _).
Qed.

(** An iteration that answers writes the note; any other leaves the shared
    history and the last content alone. *)
Lemma run_iteration_handover (st : RoleState) :
  let r := run_iteration W role_id tools_allowlist role_llm_tools st in
  match r.2 with
  | role_answered =>
      exists text,
        shared_history r.1.2 = shared_history st ++ [note_of role_id text]
        /\ role_last_content r.1.2 = text
  | _ =>
      shared_history r.1.2 = shared_history st
      /\ role_last_content r.1.2 = role_last_content st
  end.
Proof.
  cbv zeta. unfold run_iteration.
  pose proof (RoleFacts.role_consume_frame role_id
                (run_events (role_llm_tools (now st) (messages st)))
                (await (llm_invoked (messages st)) st) fresh_iter) as (_ & Hs & Hl & _).
  cbv zeta in Hs, Hl. cbn [await shared_history role_last_content] in Hs, Hl.
  destruct (consume role_id _ _ _) as [[out st1] iv]. cbn [fst snd] in *.
  destruct (run_raises _); [done|].
  destruct (role_tool_calls iv) as [| c rest].
  - cbn [fst snd write_back shared_history role_last_content]. eexists. by rewrite Hs.
  - pose proof (role_tools_frame (c :: rest) 1 st1) as (H1 & H2). cbv zeta in H1, H2.
    destruct (run_tools W role_id tools_allowlist 1 (c :: rest) st1) as [out_t st2].
    cbn [fst snd] in *. split; congruence.
Qed.

Lemma role_loop_handover (remaining : nat) (st : RoleState) :
  let st' := (role_loop W remaining role_id tools_allowlist role_llm_tools st).2 in
  (shared_history st' = shared_history st /\ role_last_content st' = role_last_content st)
  \/ exists text,
       shared_history st' = shared_history st ++ [note_of role_id text]
       /\ role_last_content st' = text.
Proof.
  revert st. induction remaining as [| k IH]; intros st; [by left|].
  cbv zeta. cbn [role_loop].
  pose proof (run_iteration_handover st) as Hi. cbv zeta in Hi.
  destruct (run_iteration W role_id tools_allowlist role_llm_tools st)
    as [[out st1] outcome]. cbn [fst snd] in Hi.
  destruct outcome; cbn [snd]; [by left | by right |].
  specialize (IH st1). cbv zeta in IH. destruct Hi as (Hs & Hl).
  destruct (role_loop W k role_id tools_allowlist role_llm_tools st1) as [out' st2].
  cbn [snd] in *. by rewrite <- Hs, <- Hl.
Qed.

(** The stream of a role holds chunks only. *)
Lemma role_consume_chunks (evs : list LLMEvent) (st : RoleState) (iv : IterVars) :
  let out := (consume role_id evs st iv).1.1 in
  count_events is_tool_plan out = 0 /\ count_events is_tool_start out = 0.
Proof.
  revert st iv. induction evs as [| ev rest IH]; intros st iv; [done|].
  destruct ev as [piece | output |]; cbn [consume]; try apply IH.
  destruct (String.eqb piece ""); [apply IH|].
  specialize (IH (streamed st)
                (mkIterVars (role_tool_calls iv) (content_preview iv)
                   (buffered_chunks iv ++ [piece]))).
  destruct (consume role_id rest _ _) as [[out st'] iv']. cbn [fst snd] in *.
  rewrite !count_events_cons. by destruct (role_prefix_sent st).
Qed.

(** What a batch adds to the record of external calls. *)
Lemma role_tools_record (calls : list ToolCall) (i : nat) (st : RoleState) :
  let r := run_tools W role_id tools_allowlist i calls st in
  exists more,
    external_calls (process r.2) = external_calls (process st) ++ more
    /\ Forall (fun c => is_tool_invocation c = true) more
    /\ length more <= count_events is_tool_start r.1
    /\ count_events is_tool_plan r.1 = 0.
Proof.
  revert i st. induction calls as [| c rest IH]; intros i st.
  - exists []. cbn. rewrite app_nil_r. by repeat split.
  - rewrite PipelineFacts.role_tools_cons. cbv zeta. cbn [fst snd].
    destruct (IH (S i) (run_tool_call W role_id tools_allowlist i c st).2)
      as (m2 & H2 & F2 & L2 & P2).
    assert (exists m1,
              external_calls (process (run_tool_call W role_id tools_allowlist i c st).2)
                = external_calls (process st) ++ m1
              /\ Forall (fun c => is_tool_invocation c = true) m1
              /\ length m1
                 <= count_events is_tool_start
                      (run_tool_call W role_id tools_allowlist i c st).1
              /\ count_events is_tool_plan
                   (run_tool_call W role_id tools_allowlist i c st).1 = 0)
      as (m1 & H1 & F1 & L1 & P1).
    { unfold run_tool_call.
      destruct (rejected tools_allowlist (tool_name_of c)).
      { exists []. cbn. rewrite app_nil_r. by repeat split. }
      destruct (find_tool (tools W) (tool_name_of c)) as [t|].
      - destruct (ainvoke t _ _); eexists [_]; cbn; repeat split;
          try (by repeat constructor); lia.
      - exists []. cbn. rewrite app_nil_r. repeat split; [constructor | lia]. }
    exists (m1 ++ m2). rewrite H2, H1, <- app_assoc, !count_events_app, length_app.
    split; [done|]. split; [by apply Forall_app|]. split; lia.
Qed.

Lemma tool_answers (ms : list Message) (ids : list string) :
  Forall2 answer_to ms ids -> Forall (fun m => role m = tool) ms.
Proof. induction 1 as [| m i ms ids [Hr _] _ IH]; by constructor. Qed.

(** One iteration: the model is called on the role's messages, then tools
    only; an iteration that used tools appends tool messages only. *)
Lemma run_iteration_record (st : RoleState) :
  let r := run_iteration W role_id tools_allowlist role_llm_tools st in
  exists more,
    external_calls (process r.1.2)
      = external_calls (process st) ++ llm_invoked (messages st) :: more
    /\ Forall (fun c => is_tool_invocation c = true) more
    /\ length more <= count_events is_tool_start r.1.1
    /\ count_events is_tool_plan r.1.1 <= 1
    /\ (r.2 = role_used_tools ->
        exists answers,
          messages r.1.2 = messages st ++ answers
          /\ Forall (fun m => role m = tool) answers).
Proof.
  cbv zeta. unfold run_iteration.
  pose proof (RoleFacts.role_consume_frame role_id
                (run_events (role_llm_tools (now st) (messages st)))
                (await (llm_invoked (messages st)) st) fresh_iter) as (Hm & _ & _ & Hp).
  pose proof (role_consume_chunks
                (run_events (role_llm_tools (now st) (messages st)))
                (await (llm_invoked (messages st)) st) fresh_iter) as (Hplan & Hstart).
  cbv zeta in Hm, Hp, Hplan, Hstart.
  destruct (consume role_id _ _ _) as [[out st1] iv]. cbn [fst snd] in *.
  destruct (run_raises _).
  { exists []. cbn [fst snd]. rewrite Hp, !count_events_app, Hplan, Hstart.
    count_all. cbn [length].
    split; [done|]. split; [constructor|]. split; [lia|]. split; [lia|]. done. }
  destruct (role_tool_calls iv) as [| c rest].
  { exists []. cbn [fst snd write_back process]. rewrite Hp, !count_events_app, Hplan, Hstart.
    split; [done|]. split; [constructor|].
    destruct (role_prefix_sent st1); count_all; cbn [length];
      (split; [lia|]); (split; [lia|]); done. }
  destruct (role_tools_record (c :: rest) 1 st1) as (more & H & F & L & P).
  destruct (PipelineFacts.role_tools_messages W role_id tools_allowlist (c :: rest) 1 st1)
    as (ms & Hms & Hall).
  destruct (run_tools W role_id tools_allowlist 1 (c :: rest) st1) as [out_t st2].
  cbn [fst snd] in *. exists more.
  rewrite H, Hp, !count_events_app, !count_events_cons, Hplan, Hstart, P.
  cbn [is_tool_plan is_tool_start await process ModelManager.await external_calls].
  rewrite <- app_assoc. split; [done|]. split; [done|]. split; [lia|]. split; [lia|].
  intros _. exists ms. rewrite Hms, Hm. split; [done|]. by eapply tool_answers.
Qed.

Lemma role_call_tools (base : list Message) (more : list Invocation) :
  Forall (fun c => is_tool_invocation c = true) more -> Forall (role_call base) more.
Proof. intros H. eapply Forall_impl; [exact H|]. by intros [ms | n a]. Qed.

Lemma tools_only_counts (more : list Invocation) :
  Forall (fun c => is_tool_invocation c = true) more ->
  count_calls is_llm_invocation more = 0
  /\ count_calls is_tool_invocation more = length more.
Proof.
  induction 1 as [| c more Hc _ [IH1 IH2]]; [done|].
  rewrite !count_calls_cons, IH1, IH2. by destruct c.
Qed.

(** The loop of a role over at most [remaining] iterations, from messages
    that are [base] followed by tool messages. *)
Lemma role_loop_record (remaining : nat) (base : list Message) (st : RoleState) :
  let r := role_loop W remaining role_id tools_allowlist role_llm_tools st in
  (exists answers, messages st = base ++ answers
                   /\ Forall (fun m => role m = tool) answers) ->
  exists more,
    external_calls (process r.2) = external_calls (process st) ++ more
    /\ Forall (role_call base) more
    /\ role_tally (Nat.min 1 remaining) remaining more r.1
    /\ (0 < remaining -> exists rest, more = llm_invoked (messages st) :: rest).
Proof.
  revert st. induction remaining as [| k IH]; intros st.
  { cbv zeta. intros _. exists []. cbn [role_loop fst snd]. rewrite app_nil_r.
    split; [done|]. split; [constructor|]. split; [|lia].
    unfold role_tally. rewrite count_calls_nil, count_events_nil. cbn. lia. }
  cbv zeta. intros Hbase. cbn [role_loop].
  destruct (run_iteration_record st) as (m1 & H1 & F1 & L1 & P1 & M1). cbv zeta in *.
  destruct (tools_only_counts m1 F1) as (Z1 & T1).
  assert (role_call base (llm_invoked (messages st))) as Hfirst by exact Hbase.
  destruct (run_iteration W role_id tools_allowlist role_llm_tools st)
    as [[out st1] outcome]. cbn [fst snd] in *.
  destruct outcome; cbn [fst snd].
  1,2: exists (llm_invoked (messages st) :: m1); split; [done|];
       split; [constructor; [done | by apply role_call_tools]|];
       split; [|by eexists];
       unfold role_tally; rewrite !count_calls_cons, Z1, T1;
       cbn [is_llm_invocation is_tool_invocation]; lia.
  destruct (M1 eq_refl) as (ans1 & Hm1 & Ha1).
  destruct Hbase as (ans0 & Hm0 & Ha0).
  destruct (IH st1) as (m2 & H2 & F2 & (B2 & P2 & T2) & _).
  { exists (ans0 ++ ans1). rewrite Hm1, Hm0, <- app_assoc. split; [done|].
    by apply Forall_app. }
  destruct (role_loop W k role_id tools_allowlist role_llm_tools st1) as [out' st2].
  cbn [fst snd] in *. exists ((llm_invoked (messages st) :: m1) ++ m2).
  rewrite H2, H1, <- app_assoc. split; [done|].
  split; [apply Forall_app; split; [constructor; [done | by apply role_call_tools]|done]|].
  split; [|by eexists].
  unfold role_tally.
  rewrite !count_calls_app, !count_calls_cons, !count_events_app, Z1, T1.
  cbn [is_llm_invocation is_tool_invocation]. lia.
Qed.

End Facts.

Section Roles.
Variable W : World.
Variable tools_allowlist : list string.
Variable default_llm_tools : Binding.

Lemma run_role_handover (role : RoleSpec) (ps : PipelineState) :
  let ps' := (run_role W tools_allowlist default_llm_tools role ps).2 in
  p_shared_history ps' = p_shared_history ps
  \/ exists text,
       p_shared_history ps' = p_shared_history ps ++ [note_of (role_id_of role) text].
Proof.
  cbv zeta. unfold run_role.
  destruct (role_binding W default_llm_tools role (p_process ps)) as [b proc].
  destruct (role_loop_handover W (str_or (id role) "role") tools_allowlist (llm_of W b)
              max_tool_iterations
              (mkRoleState (plain_message system (system_prompt role) :: p_shared_history ps)
                 (p_shared_history ps) "" false (p_any_streamed ps) proc))
    as [(Hs & _) | (text & Hs & _)]; cbv zeta in Hs;
    destruct (role_loop W max_tool_iterations _ _ _ _) as [out st'];
    cbn [fst snd p_shared_history shared_history] in *; [by left | right; by exists text].
Qed.

Lemma run_role_record (role : RoleSpec) (ps : PipelineState) :
  let r := run_role W tools_allowlist default_llm_tools role ps in
  let base := plain_message system (system_prompt role) :: p_shared_history ps in
  exists more,
    external_calls (p_process r.2)
      = external_calls (p_process ps) ++ llm_invoked base :: more
    /\ Forall (role_call base) more
    /\ role_tally 1 6 (llm_invoked base :: more) r.1.
Proof.
  cbv zeta. unfold run_role.
  pose proof (PipelinePersist.role_binding_frame W default_llm_tools role (p_process ps))
    as (_ & Hc). cbv zeta in Hc.
  destruct (role_binding W default_llm_tools role (p_process ps)) as [b proc].
  cbn [snd] in Hc.
  destruct (role_loop_record W (str_or (id role) "role") tools_allowlist (llm_of W b)
              max_tool_iterations
              (plain_message system (system_prompt role) :: p_shared_history ps)
              (mkRoleState (plain_message system (system_prompt role) :: p_shared_history ps)
                 (p_shared_history ps) "" false (p_any_streamed ps) proc))
    as (more & H & F & T & Hd).
  { exists []. cbn [messages]. by rewrite app_nil_r. }
  cbv zeta in *.
  destruct (role_loop W max_tool_iterations _ _ _ _) as [out st'].
  cbn [fst snd p_process process messages] in *.
  destruct Hd as (rest & ->); [unfold max_tool_iterations; lia|].
  exists rest. rewrite H, Hc. split; [done|].
  split; [by apply Forall_cons in F as [_ F]|]. exact T.
Qed.

End Roles.
End HandoverFacts.

Module AnswerFacts.
Import Orchestrator.

Section Facts.
Variable W : World.
Variables (role_id : string) (tools_allowlist : list string).
Variable role_llm_tools : LLM.

(** One iteration, by what the model returned. *)
Lemma run_iteration_answer (st : RoleState) :
  let run := role_llm_tools (now st) (messages st) in
  let r := run_iteration W role_id tools_allowlist role_llm_tools st in
  match run_raises run with
  | Some _ =>
      r.2 = role_failed
      /\ shared_history r.1.2 = shared_history st
      /\ role_last_content r.1.2 = role_last_content st
  | None =>
      match returned_calls (run_events run) with
      | [] =>
          r.2 = role_answered
          /\ shared_history r.1.2
             = shared_history st ++ [note_of role_id (role_text_of (run_events run) [] "")]
          /\ role_last_content r.1.2 = role_text_of (run_events run) [] ""
      | _ =>
          r.2 = role_used_tools
          /\ shared_history r.1.2 = shared_history st
          /\ role_last_content r.1.2 = role_last_content st
      end
  end.
Proof.
  cbv zeta. unfold run_iteration.
  pose proof (RoleFacts.role_consume_frame role_id
                (run_events (role_llm_tools (now st) (messages st)))
                (await (llm_invoked (messages st)) st) fresh_iter) as (_ & Hs & Hl & _).
  pose proof (RoleReadFacts.role_consume_general role_id
                (run_events (role_llm_tools (now st) (messages st)))
                (await (llm_invoked (messages st)) st) fresh_iter) as Hiv.
  cbv zeta in Hs, Hl. cbn [await shared_history role_last_content] in Hs, Hl.
  destruct (consume role_id _ _ _) as [[out st1] iv]. cbn [fst snd] in *.
  subst iv. cbn [role_tool_calls content_preview fresh_iter buffered_chunks].
  destruct (run_raises _); [done|].
  fold (returned_calls (run_events (role_llm_tools (now st) (messages st)))).
  destruct (returned_calls _) as [| c rest].
  - cbn [fst snd write_back shared_history role_last_content]. by rewrite Hs.
  - pose proof (HandoverFacts.role_tools_frame W role_id tools_allowlist (c :: rest) 1 st1)
      as (H1 & H2). cbv zeta in H1, H2.
    destruct (run_tools W role_id tools_allowlist 1 (c :: rest) st1) as [out_t st2].
    cbn [fst snd] in *. split; [done|]. split; congruence.
Qed.

(** The loop of a role leaves the note of its answer, when it has one. *)
Lemma role_loop_answer (remaining : nat) (st : RoleState) :
  let st' := (role_loop W remaining role_id tools_allowlist role_llm_tools st).2 in
  let answer := role_answer W role_id tools_allowlist role_llm_tools remaining st in
  shared_history st'
  = shared_history st
      ++ match answer with Some text => [note_of role_id text] | None => [] end
  /\ role_last_content st' = default (role_last_content st) answer.
Proof.
  revert st. induction remaining as [| k IH]; intros st.
  { cbn. by rewrite app_nil_r. }
  cbv zeta. cbn [role_loop role_answer].
  pose proof (run_iteration_answer st) as Hi. cbv zeta in Hi.
  specialize (IH (run_iteration W role_id tools_allowlist role_llm_tools st).1.2).
  cbv zeta in IH.
  destruct (run_iteration W role_id tools_allowlist role_llm_tools st)
    as [[out st1] outcome]. cbn [fst snd] in *.
  destruct (run_raises _).
  { destruct Hi as (-> & Hs & Hl). cbn [snd default]. by rewrite Hs, app_nil_r. }
  destruct (returned_calls _) as [| c rest].
  { destruct Hi as (-> & Hs & Hl). cbn [snd default]. by rewrite Hs. }
  destruct Hi as (-> & Hs & Hl).
  destruct (role_loop W k role_id tools_allowlist role_llm_tools st1) as [out' st2].
  cbn [snd] in *. by rewrite <- Hs, <- Hl.
Qed.

End Facts.

Section Roles.
Variable W : World.
Variable tools_allowlist : list string.
Variable default_llm_tools : Binding.

Lemma run_role_answer (role : RoleSpec) (ps : PipelineState) :
  let ps' := (run_role W tools_allowlist default_llm_tools role ps).2 in
  let answer := answer_of_role W tools_allowlist default_llm_tools role ps in
  p_shared_history ps'
  = p_shared_history ps
      ++ match answer with
         | Some text => [note_of (role_id_of role) text]
         | None => []
         end
  /\ role_outputs ps' = dict_set (role_id_of role) (default "" answer) (role_outputs ps).
Proof.
  cbv zeta. unfold run_role, answer_of_role, role_start, role_id_of.
  destruct (role_binding W default_llm_tools role (p_process ps)) as [b proc].
  cbn [fst snd].
  pose proof (role_loop_answer W (str_or (id role) "role") tools_allowlist (llm_of W b)
                max_tool_iterations
                (mkRoleState (plain_message system (system_prompt role) :: p_shared_history ps)
                   (p_shared_history ps) "" false (p_any_streamed ps) proc)) as (Hs & Hl).
  cbv zeta in Hs, Hl.
  destruct (role_loop W max_tool_iterations _ _ _ _) as [out st'].
  cbn [fst snd p_shared_history role_outputs shared_history role_last_content] in *.
  by rewrite Hs, Hl.
Qed.

Lemma run_roles_cons (role : RoleSpec) (rest : list RoleSpec) (ps : PipelineState) :
  run_roles W tools_allowlist default_llm_tools (role :: rest) ps
  = let r1 := run_role W tools_allowlist default_llm_tools role ps in
    let r2 := run_roles W tools_allowlist default_llm_tools rest r1.2 in
    (r1.1 ++ r2.1, r2.2).
Proof.
  cbn [run_roles]. destruct (run_role _ _ _ _ _) as [out ps1]. cbn [fst snd].
  by destruct (run_roles _ _ _ _ _).
Qed.

Lemma run_roles_notes (rs : list RoleSpec) (ps : PipelineState) :
  p_shared_history (run_roles W tools_allowlist default_llm_tools rs ps).2
  = p_shared_history ps ++ pipeline_notes W tools_allowlist default_llm_tools rs ps.
Proof.
  revert ps. induction rs as [| role rest IH]; intros ps.
  { cbn. by rewrite app_nil_r. }
  rewrite run_roles_cons. cbv zeta. cbn [snd pipeline_notes].
  rewrite IH. destruct (run_role_answer role ps) as [-> _].
  by rewrite <- app_assoc.
Qed.

End Roles.
End AnswerFacts.

(** X8: the only thing a role leaves to the roles after it is one plain
    assistant message [[role_id] text], and it leaves it exactly when it
    answers.  The answer of a role ([role_answer]) is the text of its first
    model call that completes without tool calls: the content of the
    finalized output or, when that is empty, the pieces streamed before it;
    a role whose model call raises before that, or whose six iterations all
    ask for tools, has none, leaves no note and records the empty text.  So
    the shared history after a role is the one before it followed by the
    note of its answer, when there is one, and the shared history after the
    pipeline is the one before it followed by the notes of the roles that
    answered, in role order, each role having started from what the roles
    before it left: no tool message, no system prompt and no tool-call
    message is handed over. *)
Theorem roles_hand_over_notes
    (W : World) (tools_allowlist : list string) (default_llm_tools : Binding)
    (role : RoleSpec) (rs : list RoleSpec) (ps : Orchestrator.PipelineState) :
  (let after := (Orchestrator.run_role W tools_allowlist default_llm_tools role ps).2 in
   let answer := answer_of_role W tools_allowlist default_llm_tools role ps in
   Orchestrator.p_shared_history after
   = Orchestrator.p_shared_history ps
       ++ match answer with
          | Some text => [note_of (role_id_of role) text]
          | None => []
          end
   /\ Orchestrator.role_outputs after
      = dict_set (role_id_of role) (default "" answer) (Orchestrator.role_outputs ps))
  /\ Orchestrator.p_shared_history
       (Orchestrator.run_roles W tools_allowlist default_llm_tools rs ps).2
     = Orchestrator.p_shared_history ps
         ++ pipeline_notes W tools_allowlist default_llm_tools rs ps
  /\ exists notes : list (string * string),
       pipeline_notes W tools_allowlist default_llm_tools rs ps
       = map (fun n => note_of n.1 n.2) notes
       /\ sublist (map fst notes) (map role_id_of rs).
Proof.
  split; [apply AnswerFacts.run_role_answer|].
  split; [apply AnswerFacts.run_roles_notes|].
  revert ps. induction rs as [| r rest IH]; intros ps.
  { exists []. split; [done | constructor]. }
  cbn [pipeline_notes].
  destruct (IH (Orchestrator.run_role W tools_allowlist default_llm_tools r ps).2)
    as (notes & -> & Hsub).
  destruct (answer_of_role W tools_allowlist default_llm_tools r ps) as [text|].
  - exists ((role_id_of r, text) :: notes). split; [done|]. cbn [map fst].
    by apply sublist_skip.
  - exists notes. split; [done|]. cbn [map]. by apply sublist_cons.
Qed.

(** X9: a role first calls its model on its own system prompt followed by
    the shared history as the earlier roles left it; every later model call
    of the role is on these same messages followed by tool messages only
    (the assistant message that asked for the tools is never added); and
    the role calls its model at least once and at most 6 times. *)
Theorem role_calls_start_from_shared_history
    (W : World) (tools_allowlist : list string) (default_llm_tools : Binding)
    (role : RoleSpec) (ps : Orchestrator.PipelineState) :
  let r := Orchestrator.run_role W tools_allowlist default_llm_tools role ps in
  let base :=
    plain_message system (system_prompt role) :: Orchestrator.p_shared_history ps in
  exists more,
    external_calls (Orchestrator.p_process r.2)
      = external_calls (Orchestrator.p_process ps) ++ llm_invoked base :: more
    /\ Forall (role_call base) more
    /\ 1 <= count_calls is_llm_invocation (llm_invoked base :: more) <= 6.
Proof.
  cbv zeta.
  destruct (HandoverFacts.run_role_record W tools_allowlist default_llm_tools role ps)
    as (more & H & F & (B & _)).
  exists more. by repeat split; try apply B.
Qed.

(** X10: a pipeline over [n] roles calls a model at least [n] and at most
    [6 * n] times, announces at most one tool plan per model call, and
    invokes a tool at most once per [tool_start] event. *)
Theorem pipeline_calls_are_bounded
    (W : World) (tools_allowlist : list string) (default_llm_tools : Binding)
    (rs : list RoleSpec) (ps : Orchestrator.PipelineState) :
  let r := Orchestrator.run_roles W tools_allowlist default_llm_tools rs ps in
  exists more,
    external_calls (Orchestrator.p_process r.2)
      = external_calls (Orchestrator.p_process ps) ++ more
    /\ length rs <= count_calls is_llm_invocation more <= 6 * length rs
    /\ count_events is_tool_plan r.1 <= count_calls is_llm_invocation more
    /\ count_calls is_tool_invocation more <= count_events is_tool_start r.1.
Proof.
  cbv zeta. revert ps. induction rs as [| role rest IH]; intros ps.
  { exists []. cbn [Orchestrator.run_roles fst snd length]. rewrite app_nil_r.
    rewrite !count_calls_nil, !count_events_nil. repeat split; lia. }
  cbn [Orchestrator.run_roles].
  destruct (HandoverFacts.run_role_record W tools_allowlist default_llm_tools role ps)
    as (m1 & H1 & _ & (B1 & P1 & T1)). cbv zeta in *.
  destruct (Orchestrator.run_role W tools_allowlist default_llm_tools role ps)
    as [out ps1]. cbn [fst snd] in *.
  destruct (IH ps1) as (m2 & H2 & B2 & P2 & T2).
  destruct (Orchestrator.run_roles W tools_allowlist default_llm_tools rest ps1)
    as [out' ps2]. cbn [fst snd] in *.
  eexists (_ ++ m2). rewrite H2, H1, <- app_assoc. split; [reflexivity|].
  rewrite !count_calls_app, !count_events_app. cbn [length]. repeat split; lia.
Qed.

(** * Profiles that are not configured *)

Lemma resolve_unknown (W : World) (profile_id : string) :
  profile_id = "" \/ llm_profiles W !! profile_id = None ->
  ModelManager.resolve W profile_id = default_profile_id W.
Proof.
  unfold ModelManager.resolve, str_or. intros [-> | Hnone].
  - cbn. by case_bool_decide.
  - destruct (String.eqb profile_id ""); case_bool_decide as Hd; try done.
    rewrite Hnone in Hd. by destruct Hd.
Qed.

Lemma resolve_default (W : World) :
  ModelManager.resolve W (default_profile_id W) = default_profile_id W.
Proof.
  unfold ModelManager.resolve, str_or.
  destruct (String.eqb (default_profile_id W) ""); by case_bool_decide.
Qed.

(** X11: a request for the empty profile id, or for an id that is not
    configured, is served as a request for the default profile: it gets the
    default profile's bundle, from the cache when it is there, and changes
    the process as that request would. *)
Theorem unknown_profile_is_served_by_the_default
    (W : World) (profile_id : string) (p : Process) :
  profile_id = "" \/ llm_profiles W !! profile_id = None ->
  ModelManager.get_or_create_llm_instances W profile_id p
  = ModelManager.get_or_create_llm_instances W (default_profile_id W) p.
Proof.
  intros H. unfold ModelManager.get_or_create_llm_instances.
  by rewrite (resolve_unknown W profile_id H), resolve_default.
Qed.

Lemma unknown_profile_is_served_by_the_default_witness :
  ModelManager.get_or_create_llm_instances (TurnExamples.answer_world "4") "gpt-x"
    Examples.empty_process
  = ModelManager.get_or_create_llm_instances (TurnExamples.answer_world "4") "default"
      Examples.empty_process.
Proof.
  apply (unknown_profile_is_served_by_the_default (TurnExamples.answer_world "4") "gpt-x"
           Examples.empty_process).
  right. vm_compute. reflexivity.
Defined.

(** X12: when the default profile id is configured, no request ends in a
    missing profile: a request fails only when the client constructor
    refuses the binding of the resolved profile, and the text of the
    failure is the constructor's. *)
Theorem bundle_request_fails_only_in_the_constructor
    (W : World) (profile_id : string) (p : Process) (e : string) :
  is_Some (llm_profiles W !! default_profile_id W) ->
  (ModelManager.get_or_create_llm_instances W profile_id p).1 = inr e ->
  exists cfg,
    llm_profiles W !! ModelManager.resolve W profile_id = Some cfg
    /\ construction_raises W
         (ModelManager.ChatOpenAI
            (ModelManager.override (api_key cfg) (base_url cfg) (environ p)) (model cfg))
       = Some e.
Proof.
  intros Hdef. unfold ModelManager.get_or_create_llm_instances.
  assert (is_Some (llm_profiles W !! ModelManager.resolve W profile_id)) as [cfg Hcfg].
  { unfold ModelManager.resolve. by case_bool_decide. }
  destruct (llm_cache p !! ModelManager.resolve W profile_id); [done|].
  rewrite Hcfg. destruct (construction_raises W _) as [e'|] eqn:Hc; [|done].
  cbn [fst]. intros [= <-]. by exists cfg.
Qed.

Lemma bundle_request_fails_only_in_the_constructor_witness :
  let W :=
    mkWorld Examples.no_json Examples.scalar_str (fun _ => false) "sys" []
      (fun _ => Some "no key") (fun _ => Examples.broken_llm "down") (fun _ => None)
      {[ "default" := Examples.default_profile ]} "default" "m0" ∅ in
  exists cfg,
    llm_profiles W !! ModelManager.resolve W "gpt-x" = Some cfg
    /\ construction_raises W
         (ModelManager.ChatOpenAI
            (ModelManager.override (api_key cfg) (base_url cfg)
               (environ Examples.empty_process)) (model cfg))
       = Some "no key".
Proof.
  cbv zeta.
  apply (bundle_request_fails_only_in_the_constructor
           (mkWorld Examples.no_json Examples.scalar_str (fun _ => false) "sys" []
              (fun _ => Some "no key") (fun _ => Examples.broken_llm "down")
              (fun _ => None)
              {[ "default" := Examples.default_profile ]} "default" "m0" ∅)
           "gpt-x" Examples.empty_process "no key").
  - vm_compute. by eexists.
  - vm_compute. reflexivity.
Defined.

(** X13: every session whose selected profile id is not a configured
    profile, so every session on a model of its own, has the same model
    identity ["@"].  Once that identity is recorded as text-only, the turns
    of all of them are built text-only. *)
Theorem unconfigured_models_share_one_identity
    (W : World) (sid1 sid2 : string) (build_shared_history : bool -> list Message)
    (p : Process) :
  ModelManager.session_profile W sid1 <> "" ->
  llm_profiles W !! ModelManager.session_profile W sid1 = None ->
  ModelManager.session_profile W sid2 <> "" ->
  llm_profiles W !! ModelManager.session_profile W sid2 = None ->
  ModelManager.get_current_model_key W sid1 ∈ non_multimodal_models p ->
  ModelManager.get_current_model_key W sid1 = "@"
  /\ ModelManager.get_current_model_key W sid2 = "@"
  /\ WebMCPAgent.chat_stream W build_shared_history sid2 p
     = WebMCPAgent.chat_stream W (fun _ => build_shared_history true) sid2 p.
Proof.
  intros Hne1 Hn1 Hne2 Hn2 Hin.
  assert (forall sid, ModelManager.session_profile W sid <> "" ->
                      llm_profiles W !! ModelManager.session_profile W sid = None ->
                      ModelManager.get_current_model_key W sid = "@") as Hkey.
  { intros sid Hne Hn. unfold ModelManager.get_current_model_key, str_or.
    apply String.eqb_neq in Hne. by rewrite Hne, Hn. }
  rewrite (Hkey sid1 Hne1 Hn1) in *. rewrite (Hkey sid2 Hne2 Hn2).
  split; [done|]. split; [done|].
  unfold WebMCPAgent.chat_stream.
  assert (WebMCPAgent.agent_profile W (ModelManager.session_profile W sid2) = None) as ->.
  { unfold WebMCPAgent.agent_profile. rewrite Hn2. by destruct (String.eqb _ ""). }
  pose proof (ManagerFacts.select_binding_frame W
                (ModelManager.session_profile W sid2) sid2 p) as (Hset & _).
  cbv zeta in Hset.
  destruct (WebMCPAgent.select_binding W (ModelManager.session_profile W sid2) sid2 p)
    as [[b | e] p1]; [|done].
  cbn [snd] in Hset. rewrite (Hkey sid2 Hne2 Hn2).
  by rewrite bool_decide_eq_true_2 by (by rewrite Hset).
Qed.

Lemma unconfigured_models_share_one_identity_witness :
  ModelManager.get_current_model_key TurnExamples.two_user_world "s1" = "@"
  /\ ModelManager.get_current_model_key TurnExamples.two_user_world "s2" = "@"
  /\ WebMCPAgent.chat_stream TurnExamples.two_user_world Examples.hello "s2"
       TurnExamples.marked_process
     = WebMCPAgent.chat_stream TurnExamples.two_user_world (fun _ => Examples.hello true)
         "s2" TurnExamples.marked_process.
Proof.
  apply (unconfigured_models_share_one_identity TurnExamples.two_user_world "s1" "s2"
           Examples.hello TurnExamples.marked_process).
  - vm_compute. discriminate.
  - vm_compute. reflexivity.
  - vm_compute. discriminate.
  - vm_compute. reflexivity.
  - apply (bool_decide_unpack (_ ∈ _)). vm_compute. exact I.
Defined.

(** * Identifiers made from the position *)

Lemma to_uint_nonnil (n : nat) : Nat.to_uint n <> Decimal.Nil.
Proof.
  intros H. pose proof (DecimalNat.Unsigned.of_to n) as Hn. rewrite H in Hn.
  cbn in Hn. subst n. discriminate H.
Qed.

Lemma dec_inj (n m : nat) : dec n = dec m -> n = m.
Proof.
  unfold dec. intros H. apply DecimalNat.Unsigned.to_uint_inj.
  pose proof (NilZero.usu (Nat.to_uint n) (to_uint_nonnil n)) as Hn.
  pose proof (NilZero.usu (Nat.to_uint m) (to_uint_nonnil m)) as Hm.
  rewrite H in Hn. congruence.
Qed.

Lemma append_cancel (s a b : string) : s +:+ a = s +:+ b -> a = b.
Proof. induction s as [| c s IH]; cbn; [done|]. intros [= H]. by apply IH. Qed.

Lemma effective_ids_positional (i : nat) (calls : list ToolCall) :
  Forall (fun c => tc_id c = "") calls ->
  effective_ids i calls = map (fun k => "call_" +:+ dec k) (seq i (length calls)).
Proof.
  intros H. revert i. induction H as [| c calls Hc _ IH]; intros i; [done|].
  cbn [effective_ids length seq map]. rewrite IH. f_equal.
  unfold tool_id_of, str_or. by rewrite Hc.
Qed.

(** X14: when no call of a batch carries an identifier, the identifiers the
    loop makes up ([call_1], [call_2], ...) are pairwise distinct, so each
    of them is answered by exactly one of the tool messages the batch
    appends to the history. *)
Theorem positional_ids_are_distinct
    (W : World) (i n : nat) (calls : list ToolCall) (st : SingleAgent.LoopState)
    (e : bool) :
  Forall (fun c => tc_id c = "") calls ->
  NoDup (effective_ids i calls)
  /\ exists ms,
       SingleAgent.shared_history (SingleAgent.run_tools W i n calls st e).1.2
         = SingleAgent.shared_history st ++ ms
       /\ Forall (fun tool_id => count_answers tool_id ms = 1) (effective_ids i calls).
Proof.
  intros Hnone.
  assert (NoDup (effective_ids i calls)) as Hnd.
  { rewrite (effective_ids_positional i calls Hnone).
    apply NoDup_fmap_2; [|apply NoDup_seq].
    intros a b Hab. apply dec_inj. by apply (append_cancel "call_"). }
  split; [exact Hnd|].
  destruct (AgentFacts.agent_tools_history W calls i n st e) as (ms & Hms & Hall).
  exists ms. split; [exact Hms|].
  apply Forall_forall. intros tool_id Hin.
  rewrite (count_answers_Forall2 _ _ _ Hall). by apply occurrences_NoDup.
Qed.

Lemma positional_ids_are_distinct_witness :
  NoDup (effective_ids 1 [Examples.call "" "get_price"; Examples.call "" "lookup"]).
Proof.
  apply (positional_ids_are_distinct
           (Examples.world (fun _ => false) [Examples.price_tool] Examples.eager_llm)
           1 2 [Examples.call "" "get_price"; Examples.call "" "lookup"]
           Examples.start_state false).
  repeat constructor.
Defined.

(** * What a turn leaves in place *)

(** The loops touch the process through [await] and [mark_non_multimodal]
    only: a preorder on processes that both respect is kept by a whole run
    of either loop. *)
Module LoopFrame.

Section Preorder.
Variable R : Process -> Process -> Prop.
Hypothesis R_refl : forall p, R p p.
Hypothesis R_trans : forall p q r, R p q -> R q r -> R p r.
Hypothesis R_await : forall c p, R p (ModelManager.await c p).
Hypothesis R_mark : forall key p, R p (ModelManager.mark_non_multimodal key p).

Variable W : World.

Section Agent.
Import SingleAgent.
Variable current_llm_tools : LLM.
Variable current_model_key : string.




End Agent.

Section Role.
Import Orchestrator.



(** The bundles are had through the model manager alone. *)
Hypothesis R_bundle :
  forall profile_id p, R p (ModelManager.get_or_create_llm_instances W profile_id p).2.



End Role.
End Preorder.
End LoopFrame.






(** * What is saved of a turn *)

Lemma started_ids_app (l1 l2 : list StreamEvent) :
  started_ids (l1 ++ l2) = started_ids l1 ++ started_ids l2.
Proof. apply omap_app. Qed.

Lemma closed_ids_app (l1 l2 : list StreamEvent) :
  closed_ids (l1 ++ l2) = closed_ids l1 ++ closed_ids l2.
Proof. apply omap_app. Qed.

(** Events that are neither a start nor a closing event carry no
    identifier. *)
Lemma no_tool_ids (l : list StreamEvent) :
  Forall (fun e => is_tool_start e = false /\ is_tool_closing e = false) l ->
  started_ids l = [] /\ closed_ids l = [].
Proof.
  induction 1 as [| e l [Hs Hc] _ [IH1 IH2]]; [done|].
  change (e :: l) with ([e] ++ l).
  rewrite started_ids_app, closed_ids_app, IH1, IH2.
  by destruct e.
Qed.

Lemma stream_phase_no_ids (l : list StreamEvent) :
  Forall (fun e => stream_phase_event e = true) l ->
  started_ids l = [] /\ closed_ids l = [].
Proof.
  intros H. apply no_tool_ids. eapply Forall_impl; [exact H|]. by intros [].
Qed.

Lemma closes_closed_id (tool_id : string) (ev : StreamEvent) :
  closes tool_id ev = true -> closed_ids [ev] = [tool_id] /\ started_ids [ev] = [].
Proof.
  destruct ev; cbn; try discriminate; intros H; apply String.eqb_eq in H; by subst.
Qed.

Module RecordFacts.

Section Agent.
Import SingleAgent.
Variable W : World.
Variable current_llm_tools : LLM.
Variable current_model_key : string.

Lemma agent_tools_ids (calls : list ToolCall) (i n : nat) (st : LoopState) (e : bool) :
  let out := (run_tools W i n calls st e).1.1 in
  started_ids out = effective_ids i calls /\ closed_ids out = effective_ids i calls.
Proof.
  revert i st e. induction calls as [| c rest IH]; intros i st e; [done|].
  rewrite AgentFacts.agent_tools_cons. cbv zeta. cbn [fst snd].
  rewrite started_ids_app, closed_ids_app.
  destruct (IH (S i) (run_tool_call W i n c st e).1.2 (run_tool_call W i n c st e).2)
    as [-> ->].
  destruct (OrderFacts.agent_tool_call_trace W i n c st e) as (closing & -> & Hc).
  destruct (closes_closed_id _ _ Hc) as [H1 H2].
  change [tool_start (tool_id_of i c) (tool_name_of c)
            (parsed_args_of (json_loads W) (py_str W) c)
            (Some (dec i +:+ "/" +:+ dec n)) None; closing]
    with ([tool_start (tool_id_of i c) (tool_name_of c)
             (parsed_args_of (json_loads W) (py_str W) c)
             (Some (dec i +:+ "/" +:+ dec n)) None] ++ [closing]).
  rewrite started_ids_app, closed_ids_app, H1, H2. done.
Qed.

Lemma execute_tools_ids (calls : list ToolCall) (st : LoopState) :
  let out := (execute_tools W calls st).1 in
  started_ids out = closed_ids out.
Proof.
  cbv zeta. rewrite AgentFacts.execute_tools_eq. cbv zeta. cbn [fst snd].
  pose proof (agent_tools_ids calls 1 (length calls)
                (append_history (assistant_tool_calls calls) st) false) as [H1 H2].
  cbv zeta in H1, H2.
  destruct (run_tools W 1 (length calls) calls _ false) as [[out st3] has_error].
  cbn [fst snd] in *.
  assert (started_ids (update_failures st3 has_error).1 = []
          /\ closed_ids (update_failures st3 has_error).1 = []) as [F1 F2].
  { unfold update_failures. destruct has_error; [|done]. by destruct (_ <=? _). }
  change (tool_plan ?t ?n :: ?l) with ([tool_plan t n] ++ l).
  rewrite !started_ids_app, !closed_ids_app, H1, H2, F1, F2. done.
Qed.

Lemma run_round_ids (st : LoopState) :
  let out := (run_round W current_llm_tools current_model_key st).1.1 in
  started_ids out = closed_ids out.
Proof.
  cbv zeta. unfold run_round.
  pose proof (stream_phase_no_ids _
                (BudgetFacts.detect_events W current_llm_tools current_model_key st))
    as [D1 D2].
  destruct (detect W current_llm_tools current_model_key st) as [[out st1] rv].
  cbn [fst snd] in *.
  destruct (tool_calls_check rv) as [| c rest].
  - cbn [fst snd]. rewrite !started_ids_app, !closed_ids_app, D1, D2.
    assert (started_ids (closing (combined_response_started st1) (final_text_of rv)) = []
            /\ closed_ids (closing (combined_response_started st1) (final_text_of rv)) = [])
      as [-> ->].
    { unfold closing.
      by destruct (combined_response_started st1), (String.eqb (final_text_of rv) ""). }
    by destruct (last_usage rv).
  - pose proof (execute_tools_ids (c :: rest) st1) as He. cbv zeta in He.
    destruct (execute_tools W (c :: rest) st1) as [out_t st4]. cbn [fst snd] in *.
    rewrite !started_ids_app, !closed_ids_app, D1, D2, He.
    unfold separator. by destruct (_ && _).
Qed.

Lemma rounds_ids (st : LoopState) :
  let out := (rounds W current_llm_tools current_model_key st).1.1 in
  started_ids out = closed_ids out.
Proof.
  assert (forall k s,
            started_ids (round_loop W current_llm_tools current_model_key k s).1.1
            = closed_ids (round_loop W current_llm_tools current_model_key k s).1.1)
    as Hloop.
  { induction k as [| k IH]; intros s; [done|].
    cbn [round_loop]. pose proof (run_round_ids (next_round s)) as Hr. cbv zeta in Hr.
    destruct (run_round W current_llm_tools current_model_key (next_round s))
      as [[out st1] outcome]. cbn [fst snd] in Hr.
    destruct outcome; [exact Hr|].
    specialize (IH st1).
    destruct (round_loop W current_llm_tools current_model_key k st1) as [[out' st2] r].
    cbn [fst snd] in *. by rewrite started_ids_app, closed_ids_app, Hr, IH. }
  cbv zeta. unfold rounds. specialize (Hloop (max_rounds - round_index st) st).
  destruct (round_loop _ _ _ _ _) as [[out st1] r]. cbn [fst snd] in *.
  destruct r; cbn [fst snd]; [exact Hloop|].
  by rewrite started_ids_app, closed_ids_app, Hloop.
Qed.

End Agent.

Section Role.
Import Orchestrator.
Variable W : World.

Lemma role_tools_ids (role_id : string) (allow : list string)
    (calls : list ToolCall) (i : nat) (st : RoleState) :
  let out := (run_tools W role_id allow i calls st).1 in
  sublist (started_ids out) (closed_ids out).
Proof.
  revert i st. induction calls as [| c rest IH]; intros i st; [constructor|].
  rewrite PipelineFacts.role_tools_cons. cbv zeta. cbn [fst snd].
  rewrite started_ids_app, closed_ids_app. apply sublist_app; [|apply IH].
  pose proof (PipelineFacts.role_tool_call_events W role_id allow i c st) as H.
  cbv zeta in H. destruct (rejected allow (tool_name_of c)).
  - rewrite H. cbn. apply sublist_nil_l.
  - destruct H as (closing & -> & Hc).
    destruct (closes_closed_id _ _ Hc) as [H1 H2].
    change [tool_start (tool_id_of i c) (tool_name_of c)
              (parsed_args_of (json_loads W) (py_str W) c) None (Some role_id); closing]
      with ([tool_start (tool_id_of i c) (tool_name_of c)
               (parsed_args_of (json_loads W) (py_str W) c) None (Some role_id)]
              ++ [closing]).
    rewrite started_ids_app, closed_ids_app, H1, H2. done.
Qed.

Lemma role_consume_ids (role_id : string) (evs : list LLMEvent)
    (st : RoleState) (iv : IterVars) :
  let out := (consume role_id evs st iv).1.1 in
  started_ids out = [] /\ closed_ids out = [].
Proof.
  revert st iv. induction evs as [| ev rest IH]; intros st iv; [done|].
  destruct ev as [piece | output |]; cbn [consume]; try apply IH.
  destruct (String.eqb piece ""); [apply IH|].
  specialize (IH (streamed st)
                (mkIterVars (role_tool_calls iv) (content_preview iv)
                   (buffered_chunks iv ++ [piece]))).
  destruct (consume role_id rest _ _) as [[out st'] iv']. cbn [fst snd] in *.
  by destruct (role_prefix_sent st).
Qed.

Lemma run_roles_ids (allow : list string) (default_llm_tools : Binding)
    (rs : list RoleSpec) (ps : PipelineState) :
  let out := (run_roles W allow default_llm_tools rs ps).1 in
  sublist (started_ids out) (closed_ids out).
Proof.
  assert (forall role_id llm st,
            sublist (started_ids (run_iteration W role_id allow llm st).1.1)
                    (closed_ids (run_iteration W role_id allow llm st).1.1)) as Hiter.
  { intros role_id llm st. unfold run_iteration.
    pose proof (role_consume_ids role_id (run_events (llm (now st) (messages st)))
                  (await (llm_invoked (messages st)) st) fresh_iter) as [C1 C2].
    cbv zeta in C1, C2.
    destruct (consume role_id _ _ _) as [[out st1] iv]. cbn [fst snd] in *.
    destruct (run_raises _).
    { cbn [fst]. rewrite started_ids_app, closed_ids_app, C1, C2. constructor. }
    destruct (role_tool_calls iv) as [| c rest].
    { cbn [fst]. rewrite started_ids_app, closed_ids_app, C1, C2.
      destruct (role_prefix_sent st1); constructor. }
    pose proof (role_tools_ids role_id allow (c :: rest) 1 st1) as Ht. cbv zeta in Ht.
    destruct (run_tools W role_id allow 1 (c :: rest) st1) as [out_t st2].
    cbn [fst snd] in *.
    change (tool_plan ?t ?n :: ?l) with ([tool_plan t n] ++ l).
    rewrite !started_ids_app, !closed_ids_app, C1, C2. exact Ht. }
  assert (forall k role_id llm st,
            sublist (started_ids (role_loop W k role_id allow llm st).1)
                    (closed_ids (role_loop W k role_id allow llm st).1)) as Hloop.
  { induction k as [| k IH]; intros role_id llm st; [constructor|].
    cbn [role_loop]. pose proof (Hiter role_id llm st) as Hr.
    destruct (run_iteration W role_id allow llm st) as [[out st1] outcome].
    cbn [fst snd] in Hr. destruct outcome; try exact Hr.
    specialize (IH role_id llm st1).
    destruct (role_loop W k role_id allow llm st1) as [out' st2].
    cbn [fst snd] in *. rewrite started_ids_app, closed_ids_app. by apply sublist_app. }
  cbv zeta. revert ps. induction rs as [| role rest IH]; intros ps; [constructor|].
  cbn [run_roles].
  assert (sublist (started_ids (run_role W allow default_llm_tools role ps).1)
                  (closed_ids (run_role W allow default_llm_tools role ps).1)) as H1.
  { unfold run_role.
    destruct (role_binding W default_llm_tools role (p_process ps)) as [b proc].
    pose proof (Hloop max_tool_iterations (str_or (id role) "role") (llm_of W b)
                  (mkRoleState (plain_message system (system_prompt role)
                                  :: p_shared_history ps)
                     (p_shared_history ps) "" false (p_any_streamed ps) proc)) as Hl.
    by destruct (role_loop W max_tool_iterations _ _ _ _) as [out st']. }
  destruct (run_role W allow default_llm_tools role ps) as [out ps1].
  specialize (IH ps1).
  destruct (run_roles W allow default_llm_tools rest ps1) as [out' ps2].
  cbn [fst snd] in *. rewrite started_ids_app, closed_ids_app. by apply sublist_app.
Qed.

End Role.

(** The loop of the consumer on a stream without an [error] event. *)
Lemma consume_all (l : list StreamEvent) (cd : Consumer.ConversationData) :
  count_events is_error l = 0 ->
  let r := Consumer.consume l cd in
  r.1 = l
  /\ map Consumer.called_id (Consumer.mcp_tools_called r.2)
     = map Consumer.called_id (Consumer.mcp_tools_called cd) ++ started_ids l
  /\ map Consumer.result_id (Consumer.mcp_results r.2)
     = map Consumer.result_id (Consumer.mcp_results cd) ++ closed_ids l
  /\ Consumer.ai_response_parts r.2 = Consumer.ai_response_parts cd ++ chunk_texts l.
Proof.
  revert cd. induction l as [| e l IH]; intros cd Hn.
  { cbn. by rewrite !app_nil_r. }
  rewrite count_events_cons in Hn. cbv zeta. cbn [Consumer.consume].
  destruct (is_error e) eqn:He; [lia|].
  destruct (IH (Consumer.record e cd)) as (H1 & H2 & H3 & H4); [lia|]. cbv zeta in *.
  destruct (Consumer.consume l (Consumer.record e cd)) as [sent cd']. cbn [fst snd] in *.
  rewrite H1, H2, H3, H4. split; [done|].
  destruct e; try discriminate He;
    cbn [Consumer.record Consumer.mcp_tools_called Consumer.mcp_results
         Consumer.ai_response_parts started_ids closed_ids chunk_texts omap];
    rewrite ?map_app, <- ?app_assoc; done.
Qed.

End RecordFacts.

(** X16: the consumer of a turn forwards every event of the turn, and what
    it saves pairs calls with results.  In a single-agent turn the
    identifiers of the calls recorded as made are those of the results
    recorded, in the same order; in a pipeline turn they are a sub-list of
    them (a call rejected by the allowlist is recorded with a result
    only). *)
Theorem saved_calls_have_their_results
    (W : World) (build_shared_history : bool -> list Message) (session_id : string)
    (p : Process) :
  let out := (WebMCPAgent.chat_stream W build_shared_history session_id p).1 in
  let r := Consumer.stream_and_persist out in
  let made := map Consumer.called_id (Consumer.mcp_tools_called r.1.2) in
  let closed := map Consumer.result_id (Consumer.mcp_results r.1.2) in
  r.1.1 = out
  /\ made = started_ids out
  /\ closed = closed_ids out
  /\ sublist made closed
  /\ match WebMCPAgent.agent_profile W (ModelManager.session_profile W session_id) with
     | None => made = closed
     | Some _ => True
     end.
Proof.
  cbv zeta.
  assert (exists body tail,
            (WebMCPAgent.chat_stream W build_shared_history session_id p).1
              = status "开始生成..." :: body ++ tail
            /\ count_events is_error body = 0
            /\ (tail = [] \/ exists e, tail = [error e])
            /\ sublist (started_ids body) (closed_ids body)
            /\ match WebMCPAgent.agent_profile W
                       (ModelManager.session_profile W session_id) with
               | None => started_ids body = closed_ids body
               | Some _ => True
               end) as (body & tail & Hout & Hne & Htail & Hsub & Heq).
  { unfold WebMCPAgent.chat_stream.
    destruct (WebMCPAgent.agent_profile W _) as [agent_cfg|].
    - unfold Orchestrator.chat_stream.
      destruct (max_rounds_raises _) as [e0|].
      { exists [], [error ("Agent 执行出错: " +:+ e0)]. cbn.
        repeat split; eauto; constructor. }
      destruct (ModelManager.get_or_create_llm_instances W (backing_profile agent_cfg) p)
        as [[bundle | e] p1]; cbn [fst snd].
      2: { exists [], [error ("Agent 执行出错: " +:+ e)]. cbn.
           repeat split; eauto; constructor. }
      pose proof (PipelineMarkers.run_roles_events W
                    (tools_allowlist (Orchestrator.load_spec W (agent_file agent_cfg)))
                    (llm_tools bundle)
                    (roles (Orchestrator.load_spec W (agent_file agent_cfg)))
                    (Orchestrator.mkPipelineState (build_shared_history false) false []
                       p1)) as Hr.
      apply role_event_no_error in Hr.
      pose proof (RecordFacts.run_roles_ids W
                    (tools_allowlist (Orchestrator.load_spec W (agent_file agent_cfg)))
                    (llm_tools bundle)
                    (roles (Orchestrator.load_spec W (agent_file agent_cfg)))
                    (Orchestrator.mkPipelineState (build_shared_history false) false []
                       p1)) as Hs. cbv zeta in Hs.
      destruct (Orchestrator.run_roles W _ _ _ _) as [out ps]. cbn [fst snd] in *.
      eexists (ai_response_start :: out ++ _ ++ [ai_response_end ""]), [].
      rewrite app_nil_r. split; [reflexivity|].
      change (ai_response_start :: ?l) with ([ai_response_start] ++ l).
      rewrite !count_events_app, !started_ids_app, !closed_ids_app, Hr.
      destruct (_ && _); cbn; rewrite ?app_nil_r; repeat split; auto.
    - destruct (WebMCPAgent.select_binding W _ session_id p) as [[b | e] p1].
      2: { exists [], [error ("处理请求时出错: " +:+ e)]. cbn.
           repeat split; eauto; constructor. }
      pose proof (rounds_no_error W (llm_of W b)
                    (ModelManager.get_current_model_key W session_id)
                    (WebMCPAgent.initial_state
                       (build_shared_history
                          (bool_decide (ModelManager.get_current_model_key W session_id
                                          ∈ non_multimodal_models p1))) p1)) as Hr.
      pose proof (RecordFacts.rounds_ids W (llm_of W b)
                    (ModelManager.get_current_model_key W session_id)
                    (WebMCPAgent.initial_state
                       (build_shared_history
                          (bool_decide (ModelManager.get_current_model_key W session_id
                                          ∈ non_multimodal_models p1))) p1)) as Hs.
      cbv zeta in Hs.
      destruct (SingleAgent.rounds W _ _ _) as [[out st] r]. cbn [fst snd] in *.
      exists out, []. rewrite app_nil_r, Hs. repeat split; auto. }
  rewrite Hout. unfold Consumer.stream_and_persist.
  cbn [Consumer.consume is_error Consumer.record].
  assert (started_ids (status "开始生成..." :: body ++ tail) = started_ids body
          /\ closed_ids (status "开始生成..." :: body ++ tail) = closed_ids body)
    as [-> ->].
  { change (status ?t :: ?l) with ([status t] ++ l).
    rewrite !started_ids_app, !closed_ids_app.
    destruct Htail as [-> | (e & ->)]; cbn; by rewrite !app_nil_r. }
  assert (exists cd,
            Consumer.consume (body ++ tail) Consumer.fresh_data = (body ++ tail, cd)
            /\ map Consumer.called_id (Consumer.mcp_tools_called cd) = started_ids body
            /\ map Consumer.result_id (Consumer.mcp_results cd) = closed_ids body)
    as (cd & -> & Hm & Hc).
  { destruct Htail as [-> | (e & ->)].
    - rewrite app_nil_r.
      destruct (RecordFacts.consume_all body Consumer.fresh_data Hne) as (H1 & H2 & H3 & _).
      cbv zeta in *.
      destruct (Consumer.consume body Consumer.fresh_data) as [sent cd].
      cbn [fst snd] in *. exists cd. by rewrite H1.
    - assert (forall l cd0,
                count_events is_error l = 0 ->
                Consumer.consume (l ++ [error e]) cd0
                = (l ++ [error e], (Consumer.consume l cd0).2)) as Hcut.
      { induction l as [| x l IH]; intros cd0 Hn; [done|].
        rewrite count_events_cons in Hn. cbn [app Consumer.consume].
        destruct (is_error x) eqn:Hx; [lia|].
        rewrite IH by lia. by destruct (Consumer.consume l (Consumer.record x cd0)). }
      rewrite (Hcut body Consumer.fresh_data Hne).
      destruct (RecordFacts.consume_all body Consumer.fresh_data Hne) as (_ & H2 & H3 & _).
      cbv zeta in *. by eexists. }
  cbn [fst snd]. rewrite Hm, Hc. repeat split; auto.
Qed.

(** * Reading the profiles *)

Lemma dict_put_keys {V} (k : string) (v : V) (d : list (string * V)) :
  map fst (dict_put k v d)
  = if bool_decide (k ∈ map fst d) then map fst d else map fst d ++ [k].
Proof.
  induction d as [| [k' v'] d IH]; [done|].
  cbn [dict_put map fst]. destruct (String.eqb k' k) eqn:E.
  - apply String.eqb_eq in E as ->. rewrite bool_decide_eq_true_2; [done | left].
  - apply String.eqb_neq in E. cbn [map fst]. rewrite IH.
    case_bool_decide as H1; case_bool_decide as H2; try done.
    + exfalso. apply H2. by right.
    + exfalso. apply elem_of_cons in H2 as [-> | H2]; [done | by apply H1].
Qed.

Lemma dict_put_Forall {V} (P : string * V -> Prop) (k : string) (v : V)
    (d : list (string * V)) :
  Forall P d -> P (k, v) -> Forall P (dict_put k v d).
Proof.
  intros Hd Hk. induction Hd as [| [k' v'] d Hx Hd IH]; [by repeat constructor|].
  cbn [dict_put]. destruct (String.eqb k' k); by constructor.
Qed.

Lemma dict_put_head {V} (k : string) (v : V) (k0 : string) (v0 : V)
    (d : list (string * V)) :
  exists v1 rest, dict_put k v ((k0, v0) :: d) = (k0, v1) :: rest.
Proof.
  cbn [dict_put]. destruct (String.eqb k0 k) eqn:E; [|by eexists _, _].
  apply String.eqb_eq in E as ->. by eexists _, _.
Qed.

Lemma dict_put_NoDup {V} (k : string) (v : V) (d : list (string * V)) :
  NoDup (map fst d) -> NoDup (map fst (dict_put k v d)).
Proof.
  intros H. rewrite dict_put_keys. case_bool_decide as Hk; [done|].
  apply NoDup_app. split; [done|]. split; [|apply NoDup_singleton].
  intros x Hx Hx'. apply list_elem_of_singleton in Hx' as ->. by apply Hk.
Qed.

Lemma dict_lookup_Some {V} (k : string) (d : list (string * V)) :
  k ∈ map fst d -> is_Some (dict_lookup k d).
Proof.
  induction d as [| [k' v'] d IH]; cbn [map fst dict_lookup].
  - intros H. by apply elem_of_nil in H.
  - intros H. destruct (String.eqb k' k) eqn:E; [by eexists|].
    apply String.eqb_neq in E. apply elem_of_cons in H as [-> | H]; [done | by apply IH].
Qed.

Module SetupFacts.
Import ManagerSetup.

Section Facts.
Context {F : Type}.
Variable py_float : string -> option F.
Variable float_0_2 : F.
Variable py_int : string -> option Z.
Variables strip upper lower : string -> string.
Variable env : gmap string string.

Lemma profile_entry_usable (pid : string) (e : Entry F) :
  profile_entry py_float float_0_2 py_int strip upper lower env pid = Some e ->
  e_id e = pid /\ (e_kind e <> "agent" -> e_api_key e <> "" /\ e_model e <> "").
Proof.
  unfold profile_entry. cbv zeta.
  destruct (negb (String.eqb _ "agent") && _) eqn:E; [done|].
  intros [= <-]. cbn [e_id e_kind e_api_key e_model]. split; [done|].
  intros Hk. apply String.eqb_neq in Hk. rewrite Hk in E. cbn [negb andb] in E.
  apply orb_false_iff in E as [E1 E2].
  by apply String.eqb_neq in E1, E2.
Qed.

Lemma add_profiles_loaded (pids seen : list string) (profiles : list (string * Entry F)) :
  loaded seen profiles ->
  loaded (seen ++ pids)
    (add_profiles py_float float_0_2 py_int strip upper lower env pids profiles).
Proof.
  revert seen profiles. induction pids as [| pid pids IH]; intros seen profiles H.
  { by rewrite app_nil_r. }
  cbn [add_profiles foldl]. fold (add_profiles py_float float_0_2 py_int strip upper lower env).
  replace (seen ++ pid :: pids) with ((seen ++ [pid]) ++ pids)
    by by rewrite <- app_assoc.
  apply IH. destruct H as ((d & rest & ->) & Hnd & Hid & Hcred & Hkeys).
  assert (Forall (fun kv : string * Entry F => kv.1 = "default" \/ kv.1 ∈ seen ++ [pid])
            (("default", d) :: rest)) as Hkeys'.
  { eapply Forall_impl; [exact Hkeys|]. intros kv [Hk | Hk]; [by left|].
    right. apply elem_of_app. by left. }
  destruct (profile_entry py_float float_0_2 py_int strip upper lower env pid)
    as [e|] eqn:He.
  2: { split; [by eexists _, _|]. by repeat split. }
  destruct (profile_entry_usable pid e He) as [Hi Hc].
  split; [apply dict_put_head|]. split; [by apply dict_put_NoDup|].
  split; [by apply dict_put_Forall|]. split.
  - apply dict_put_Forall; [done|]. cbn [fst snd]. by intros _.
  - apply dict_put_Forall; [done|]. cbn [fst]. right. apply elem_of_app. right. left.
Qed.

End Facts.
End SetupFacts.

(** X17: the profiles read from the environment.  Reading fails exactly
    when [OPENAI_TEMPERATURE] or [OPENAI_TIMEOUT] (or its default) does not
    parse.  Otherwise the dictionary starts with the key ["default"], holds
    no key twice, holds under every key an entry with that id, holds under
    every key other than ["default"] an agent or an entry with both an API
    key and a model, and holds no key beyond ["default"] and the ids that
    [LLM_PROFILES] declares. *)
Theorem loaded_profiles_are_usable
    {F : Type} (py_float : string -> option F) (float_0_2 : F)
    (py_int : string -> option Z) (strip upper lower : string -> string)
    (env : gmap string string) :
  match ManagerSetup.load_llm_profiles_from_env py_float float_0_2 py_int
          strip upper lower env with
  | None =>
      py_float (ManagerSetup.getenv env "OPENAI_TEMPERATURE" "0.2") = None
      \/ py_int (ManagerSetup.getenv env "OPENAI_TIMEOUT" "60") = None
  | Some profiles =>
      is_Some (py_float (ManagerSetup.getenv env "OPENAI_TEMPERATURE" "0.2"))
      /\ is_Some (py_int (ManagerSetup.getenv env "OPENAI_TIMEOUT" "60"))
      /\ (exists d rest, profiles = ("default", d) :: rest)
      /\ NoDup (map fst profiles)
      /\ Forall (fun kv => ManagerSetup.e_id kv.2 = kv.1) profiles
      /\ Forall (fun kv => kv.1 <> "default" -> ManagerSetup.e_kind kv.2 <> "agent" ->
                           ManagerSetup.e_api_key kv.2 <> ""
                           /\ ManagerSetup.e_model kv.2 <> "") profiles
      /\ Forall (fun kv => kv.1 = "default"
                           \/ kv.1 ∈ ManagerSetup.profile_ids strip env) profiles
  end.
Proof.
  unfold ManagerSetup.load_llm_profiles_from_env, ManagerSetup.default_entry.
  destruct (py_float _) as [t|]; [|by left].
  destruct (py_int _) as [n|]; [|by right].
  split; [by eexists|]. split; [by eexists|].
  apply (SetupFacts.add_profiles_loaded py_float float_0_2 py_int strip upper lower env
           (ManagerSetup.profile_ids strip env) []).
  split; [by eexists _, _|]. split; [apply NoDup_singleton|].
  split; [by repeat constructor|]. split; [by repeat constructor|].
  by repeat constructor.
Qed.

(** X18: constructing the manager fails exactly when reading the profiles
    does.  A manager that was constructed has its default id among its
    profiles (so no request for a bundle can miss the default profile), and
    its temperature and timeout are the parsed values: the fallbacks 0.2
    and 60 of the guarded assignments are never used. *)
Theorem constructed_manager_has_its_default
    {F : Type} (py_float : string -> option F) (float_0_2 : F)
    (py_int : string -> option Z) (strip upper lower : string -> string)
    (env : gmap string string) :
  match ManagerSetup.init py_float float_0_2 py_int strip upper lower env with
  | None =>
      py_float (ManagerSetup.getenv env "OPENAI_TEMPERATURE" "0.2") = None
      \/ py_int (ManagerSetup.getenv env "OPENAI_TIMEOUT" "60") = None
  | Some m =>
      ManagerSetup.m_default_profile_id m ∈ map fst (ManagerSetup.m_llm_profiles m)
      /\ is_Some (ManagerSetup.profiles_map (ManagerSetup.m_llm_profiles m)
                    !! ManagerSetup.m_default_profile_id m)
      /\ py_float (ManagerSetup.getenv env "OPENAI_TEMPERATURE" "0.2")
         = Some (ManagerSetup.m_temperature m)
      /\ py_int (ManagerSetup.getenv env "OPENAI_TIMEOUT" "60")
         = Some (ManagerSetup.m_timeout m)
  end.
Proof.
  unfold ManagerSetup.init, ManagerSetup.load_llm_profiles_from_env,
    ManagerSetup.default_entry.
  destruct (py_float _) as [t|]; [|by left].
  destruct (py_int _) as [n|]; [|by right].
  destruct (SetupFacts.add_profiles_loaded py_float float_0_2 py_int strip upper lower env
              (ManagerSetup.profile_ids strip env) []
              [("default",
                ManagerSetup.mkEntry "default"
                  (ManagerSetup.getenv env "LLM_DEFAULT_LABEL" "Default")
                  (strip (ManagerSetup.getenv env "OPENAI_API_KEY" ""))
                  (strip (ManagerSetup.getenv env "OPENAI_BASE_URL" ""))
                  (strip (ManagerSetup.getenv env "OPENAI_MODEL"
                            (ManagerSetup.getenv env "OPENAI_MODEL_NAME" "deepseek-chat")))
                  t n
                  (strip (ManagerSetup.getenv env "LLM_DEFAULT_SYSTEM_PROMPT" ""))
                  (str_or (strip (ManagerSetup.getenv env "LLM_DEFAULT_KIND" "model"))
                     "model")
                  (strip (ManagerSetup.getenv env "LLM_DEFAULT_AGENT_FILE" ""))
                  (strip (ManagerSetup.getenv env "LLM_DEFAULT_BACKING_PROFILE" "")))])
    as ((d & rest & Hshape) & _).
  { split; [by eexists _, _|]. split; [apply NoDup_singleton|].
    split; [by repeat constructor|]. split; [by repeat constructor|].
    by repeat constructor. }
  cbn [app] in Hshape. rewrite Hshape.
  cbn [ManagerSetup.m_default_profile_id ManagerSetup.m_llm_profiles
       ManagerSetup.m_temperature ManagerSetup.m_timeout default from_option id].
  assert ((if bool_decide
                (str_or (strip (ManagerSetup.getenv env "LLM_DEFAULT" "default")) "default"
                   ∈ map fst (("default", d) :: rest))
           then str_or (strip (ManagerSetup.getenv env "LLM_DEFAULT" "default")) "default"
           else "default") ∈ map fst (("default", d) :: rest)) as Hin.
  { case_bool_decide; [done | left]. }
  split; [exact Hin|]. split; [|done].
  unfold ManagerSetup.profiles_map.
  apply not_eq_None_Some. intros Hnone. apply not_elem_of_list_to_map in Hnone.
  apply Hnone. rewrite <- list_fmap_compose.
  by replace (fst ∘ (fun kv : string * ManagerSetup.Entry F =>
                       (kv.1, ManagerSetup.profile_of kv.2))) with
    (fst : string * ManagerSetup.Entry F -> string) by done.
Qed.

(** * The listing of the models *)

Module ListingFacts.
Import ManagerSetup.

Lemma only_default (ids : list string) :
  NoDup ids -> filter (fun pid => pid <> "default") ids = [] ->
  ids = [] \/ ids = ["default"].
Proof.
  intros Hnd Hf. destruct ids as [| a ids]; [by left|]. right.
  assert (forall x, x ∈ a :: ids -> x = "default") as Hall.
  { intros x Hx. destruct (decide (x = "default")) as [|Hne]; [done|].
    assert (x ∈ filter (fun pid => pid <> "default") (a :: ids)) as Hin
      by by apply list_elem_of_filter.
    rewrite Hf in Hin. by apply elem_of_nil in Hin. }
  rewrite (Hall a) in * by left.
  destruct ids as [| b ids]; [done|].
  rewrite (Hall b) in Hnd by (right; left).
  apply NoDup_cons in Hnd as [Hnot _]. exfalso. apply Hnot. left.
Qed.

Lemma show_ids_NoDup (ids : list string) : NoDup ids -> NoDup (show_ids ids).
Proof.
  intros Hnd. unfold show_ids.
  pose proof (NoDup_filter (fun pid => pid <> "default") ids Hnd) as Hf.
  destruct (filter _ ids); [|done].
  case_bool_decide; [apply NoDup_singleton | constructor].
Qed.

Lemma effective_default_shown (ids : list string) (default_profile_id : string) :
  ids <> [] -> NoDup ids ->
  effective_default ids default_profile_id ∈ show_ids ids.
Proof.
  intros Hne Hnd. unfold effective_default, show_ids.
  destruct (negb (String.eqb default_profile_id "")
            && negb (String.eqb default_profile_id "default")
            && bool_decide (default_profile_id ∈ ids)) eqn:E.
  - apply andb_true_iff in E as [E Hin]. apply andb_true_iff in E as [_ Hd].
    apply bool_decide_eq_true in Hin. apply negb_true_iff, String.eqb_neq in Hd.
    assert (default_profile_id ∈ filter (fun pid => pid <> "default") ids) as Hf
      by by apply list_elem_of_filter.
    destruct (filter _ ids); [by apply elem_of_nil in Hf | done].
  - destruct (filter (fun pid => pid <> "default") ids) as [| pid rest] eqn:Hf; [|left].
    destruct (only_default ids Hnd Hf) as [-> | ->]; [done|].
    rewrite bool_decide_eq_true_2 by left. left.
Qed.

Lemma flagged_once {A} (f : string -> A) (flag : A -> bool) (effective : string)
    (ids : list string) :
  (forall pid, flag (f pid) = String.eqb pid effective) ->
  NoDup ids -> effective ∈ ids ->
  length (filter (fun m => flag m = true) (map f ids)) = 1.
Proof.
  intros Hflag Hnd Hin.
  assert (forall l, length (filter (fun m => flag m = true) (map f l))
                    = length (filter (fun t => t = effective) l)) as Hlen.
  { induction l as [| a l IH]; [done|].
    cbn [map]. rewrite !filter_cons, Hflag.
    destruct (String.eqb a effective) eqn:E.
    - apply String.eqb_eq in E. rewrite decide_True by done. rewrite decide_True by done.
      cbn [length]. by rewrite IH.
    - apply String.eqb_neq in E. rewrite decide_False by done.
      rewrite decide_False by done. exact IH. }
  rewrite Hlen. by apply occurrences_NoDup.
Qed.

End ListingFacts.

(** X19: the listing of the model manager, on a dictionary of profiles (no
    key twice).  It shows the profiles other than ["default"], or
    ["default"] alone when there is no other; unless there is no profile at
    all, the id it reports as the default is one of the ids it shows and is
    the only entry flagged as default. *)
Theorem one_default_in_the_listing
    {F : Type} (profiles : list (string * ManagerSetup.Entry F))
    (default_profile_id : string) :
  NoDup (map fst profiles) ->
  let r := ManagerSetup.get_models_info profiles default_profile_id in
  map ManagerSetup.mi_id r.1 = ManagerSetup.show_ids (map fst profiles)
  /\ NoDup (map ManagerSetup.mi_id r.1)
  /\ match profiles with
     | [] => r = ([], "default")
     | _ =>
         r.2 ∈ map ManagerSetup.mi_id r.1
         /\ length (filter (fun m => ManagerSetup.mi_is_default m = true) r.1) = 1
     end
  /\ ("default" ∈ map ManagerSetup.mi_id r.1 <-> map fst profiles = ["default"]).
Proof.
  intros Hnd. cbv zeta.
  assert (map ManagerSetup.mi_id
            (ManagerSetup.get_models_info profiles default_profile_id).1
          = ManagerSetup.show_ids (map fst profiles)) as Hids.
  { unfold ManagerSetup.get_models_info. cbn [fst].
    induction (ManagerSetup.show_ids (map fst profiles)) as [| a l IH]; [done|].
    cbn [map]. rewrite IH. f_equal. by destruct (dict_lookup a profiles). }
  assert (profiles <> [] ->
          (ManagerSetup.get_models_info profiles default_profile_id).2
            ∈ map ManagerSetup.mi_id
                (ManagerSetup.get_models_info profiles default_profile_id).1
          /\ length (filter (fun m => ManagerSetup.mi_is_default m = true)
                       (ManagerSetup.get_models_info profiles default_profile_id).1) = 1)
    as Hflag.
  { intros Hp. assert (map fst profiles <> []) as Hne by by destruct profiles.
    rewrite Hids. unfold ManagerSetup.get_models_info. cbn [fst snd].
    split; [by apply ListingFacts.effective_default_shown|].
    apply (ListingFacts.flagged_once _ ManagerSetup.mi_is_default
             (ManagerSetup.effective_default (map fst profiles) default_profile_id)).
    - intros pid. by destruct (dict_lookup pid profiles).
    - by apply ListingFacts.show_ids_NoDup.
    - by apply ListingFacts.effective_default_shown. }
  rewrite Hids. split; [done|]. split; [by apply ListingFacts.show_ids_NoDup|].
  split.
  { destruct profiles as [| kv rest]; [|rewrite <- Hids; by apply Hflag].
    unfold ManagerSetup.get_models_info, ManagerSetup.effective_default.
    cbn [map]. rewrite (bool_decide_eq_false_2 (default_profile_id ∈ []))
      by apply not_elem_of_nil.
    by rewrite andb_false_r. }
  unfold ManagerSetup.show_ids. split.
  - destruct (filter (fun pid => pid <> "default") (map fst profiles))
      as [| pid rest] eqn:Hf.
    + destruct (ListingFacts.only_default _ Hnd Hf) as [Hk | Hk]; [|done].
      rewrite Hk. rewrite bool_decide_eq_false_2 by apply not_elem_of_nil.
      intros Hin. by apply elem_of_nil in Hin.
    + intros Hin. rewrite <- Hf in Hin. apply list_elem_of_filter in Hin as [Hin _].
      done.
  - intros ->. rewrite filter_cons_False by (intros H; by apply H).
    rewrite filter_nil, bool_decide_eq_true_2 by left. left.
Qed.

Lemma one_default_in_the_listing_witness :
  (ManagerSetup.get_models_info
     [("default", ManagerSetup.mkEntry "default" "Default" "k0" "" "m0" 0%Z 60%Z "" "model"
                    "" "");
      ("fast", ManagerSetup.mkEntry "fast" "Fast" "k1" "" "m1" 0%Z 60%Z "" "model" "" "");
      ("team", ManagerSetup.mkEntry "team" "Team" "" "" "" 0%Z 60%Z "" "agent" "" "fast")]
     "team").2 = "team".
Proof.
  pose proof (one_default_in_the_listing
                [("default", ManagerSetup.mkEntry "default" "Default" "k0" "" "m0" 0%Z 60%Z ""
                               "model" "" "");
                 ("fast", ManagerSetup.mkEntry "fast" "Fast" "k1" "" "m1" 0%Z 60%Z "" "model"
                            "" "");
                 ("team", ManagerSetup.mkEntry "team" "Team" "" "" "" 0%Z 60%Z "" "agent" ""
                            "fast")]
                "team") as H.
  cbv zeta in H. destruct H as (_ & _ & _ & _).
  - apply (bool_decide_unpack (NoDup _)). vm_compute. exact I.
  - vm_compute. reflexivity.
Defined.

(** X20: the agent's own listing and the model manager's never disagree on
    the default id, on the ids shown and their order, on the labels, or on
    which entry is flagged as default.  They show the same model name for
    every entry that is not an agent; for an agent the manager may show the
    model of the backing profile instead. *)
Theorem listings_agree
    {F : Type} (profiles : list (string * ManagerSetup.Entry F))
    (default_profile_id : string) :
  let a := ManagerSetup.agent_get_models_info profiles default_profile_id in
  let m := ManagerSetup.get_models_info profiles default_profile_id in
  a.2 = m.2
  /\ Forall2 (fun x y =>
               ManagerSetup.mi_id x = ManagerSetup.mi_id y
               /\ ManagerSetup.mi_label x = ManagerSetup.mi_label y
               /\ ManagerSetup.mi_is_default x = ManagerSetup.mi_is_default y
               /\ (ManagerSetup.mi_is_agent y = Some false ->
                   ManagerSetup.mi_model x = ManagerSetup.mi_model y))
       a.1 m.1.
Proof.
  cbv zeta. unfold ManagerSetup.agent_get_models_info, ManagerSetup.get_models_info.
  cbn [fst snd]. split; [done|].
  induction (ManagerSetup.show_ids (map fst profiles)) as [| pid l IH]; [constructor|].
  cbn [map]. constructor; [|exact IH].
  destruct (dict_lookup pid profiles) as [cfg|];
    cbn [ManagerSetup.mi_id ManagerSetup.mi_label ManagerSetup.mi_is_default
         ManagerSetup.mi_is_agent ManagerSetup.mi_model]; [|done].
  repeat split. intros [= Hk]. by rewrite Hk.
Qed.

(** * The usage report *)

Lemma quiet_app (l1 l2 : list StreamEvent) : quiet l1 -> quiet l2 -> quiet (l1 ++ l2).
Proof. unfold quiet. rewrite count_events_app. lia. Qed.

Lemma quiet_Forall (p : StreamEvent -> bool) (l : list StreamEvent) :
  (forall e, p e = true -> is_token_usage e = false) ->
  Forall (fun e => p e = true) l -> quiet l.
Proof.
  intros Hp H. apply count_events_none. eapply Forall_impl; [exact H|]. exact Hp.
Qed.

Lemma quiet_reports (l : list StreamEvent) :
  quiet l -> Forall (fun e => reports_total e = true) l.
Proof.
  unfold quiet. induction l as [| e l IH]; [constructor|].
  rewrite count_events_cons. intros H.
  constructor; [destruct e; try done; cbn in H; lia|]. apply IH. lia.
Qed.

Lemma quiet_last (l : list StreamEvent) (u : Usage) :
  quiet l -> last l <> Some (token_usage u).
Proof.
  unfold quiet. intros Hq Hl.
  apply last_Some in Hl as (body & ->).
  rewrite count_events_app, count_events_cons in Hq. cbn in Hq. lia.
Qed.

Lemma usage_at_the_end_after (l out : list StreamEvent) :
  quiet l -> usage_at_the_end out -> usage_at_the_end (l ++ out).
Proof.
  intros Hl [Hq | (body & u & -> & Hb & Hu)]; [left; by apply quiet_app|].
  right. exists (l ++ body), u. rewrite <- app_assoc. split; [done|].
  split; [by apply quiet_app | done].
Qed.

Module UsageFacts.
Import SingleAgent.

Section Facts.
Variable W : World.
Variable current_llm_tools : LLM.
Variable current_model_key : string.

Lemma normalise_usage_total (u : Usage) : is_Some (total_tokens (normalise_usage u)).
Proof.
  unfold normalise_usage. cbn [total_tokens].
  destruct (total_tokens u) as [t|]; [destruct (Z.eqb t 0)|]; by eexists.
Qed.

Lemma consume_totalled (evs : list LLMEvent) (started : bool) (rv : RoundVars) :
  totalled rv -> totalled (consume evs started rv).2.
Proof.
  revert started rv. induction evs as [| ev rest IH]; intros started rv H; [done|].
  destruct ev as [piece | output |]; cbn [consume].
  - destruct (String.eqb piece ""); [by apply IH|].
    specialize (IH true (mkRoundVars (tool_calls_check rv) (last_usage rv)
                           (buffered_chunks rv ++ [piece]) (content_preview rv) true) H).
    by destruct (consume rest true _) as [[out s'] rv'].
  - apply IH. unfold totalled. cbn [last_usage].
    destruct (out_usage output); [apply normalise_usage_total | exact H].
  - by apply IH.
Qed.

Lemma consume_retry_totalled (evs : list LLMEvent) (rv : RoundVars) :
  totalled rv -> totalled (consume_retry evs rv).2.
Proof.
  revert rv. induction evs as [| ev rest IH]; intros rv H; [done|].
  destruct ev as [piece | output |]; cbn [consume_retry].
  - destruct (String.eqb piece ""); [by apply IH|].
    specialize (IH (mkRoundVars (tool_calls_check rv) (last_usage rv)
                      (buffered_chunks rv ++ [piece]) (content_preview rv) true) H).
    by destruct (consume_retry rest _) as [out rv'].
  - by apply IH.
  - by apply IH.
Qed.

Lemma detect_totalled (st : LoopState) :
  totalled (detect W current_llm_tools current_model_key st).2.
Proof.
  unfold detect.
  pose proof (consume_totalled
                (run_events (current_llm_tools (now st)
                   (plain_message system (tools_system_prompt W) :: shared_history st)))
                (combined_response_started st) fresh_round I) as H1.
  destruct (consume _ _ _) as [[out1 s1] rv1]. cbn [fst snd] in H1.
  destruct (run_raises _); [|exact H1].
  destruct (is_multimodal_error W _); [|exact H1].
  match goal with
  | |- context [consume_retry ?evs rv1] =>
      pose proof (consume_retry_totalled evs rv1 H1) as H3;
      destruct (consume_retry evs rv1) as [out3 rv3]
  end.
  cbn [fst snd] in H3. by destruct (run_raises _).
Qed.

Lemma run_round_usage (st : LoopState) :
  let r := run_round W current_llm_tools current_model_key st in
  match r.2 with
  | TOOL_DECIDED => quiet r.1.1
  | ANSWER_DECIDED _ => usage_at_the_end r.1.1
  end.
Proof.
  cbv zeta. unfold run_round.
  pose proof (BudgetFacts.detect_events W current_llm_tools current_model_key st) as Hd.
  apply (quiet_Forall stream_phase_event) in Hd; [|by intros []].
  pose proof (detect_totalled st) as Ht.
  destruct (detect W current_llm_tools current_model_key st) as [[out st1] rv].
  cbn [fst snd] in *.
  destruct (tool_calls_check rv) as [| c rest].
  - cbn [fst snd]. apply usage_at_the_end_after; [exact Hd|].
    unfold totalled in Ht. unfold closing.
    destruct (last_usage rv) as [u|].
    + right. destruct (combined_response_started st1).
      * by exists [], u.
      * destruct (String.eqb (final_text_of rv) "").
        -- by exists [ai_response_start], u.
        -- by exists [ai_response_start; ai_response_chunk (final_text_of rv)], u.
    + left. rewrite app_nil_r.
      by destruct (combined_response_started st1), (String.eqb (final_text_of rv) "").
  - pose proof (DecisionFacts.execute_tools_events W (c :: rest) st1) as He.
    apply (quiet_Forall tool_phase_event) in He; [|by intros []].
    destruct (execute_tools W (c :: rest) st1) as [out_t st4]. cbn [fst snd] in *.
    apply quiet_app; [exact Hd|]. apply quiet_app; [|exact He].
    unfold separator. by destruct (_ && _).
Qed.

Lemma rounds_usage (st : LoopState) :
  usage_at_the_end (rounds W current_llm_tools current_model_key st).1.1.
Proof.
  assert (forall k s,
            let r := round_loop W current_llm_tools current_model_key k s in
            match r.2 with
            | budget_exhausted => quiet r.1.1
            | answered _ => usage_at_the_end r.1.1
            end) as Hloop.
  { induction k as [| k IH]; intros s; [done|].
    cbv zeta. cbn [round_loop]. pose proof (run_round_usage (next_round s)) as Hr.
    cbv zeta in Hr.
    destruct (run_round W current_llm_tools current_model_key (next_round s))
      as [[out st1] outcome]. cbn [fst snd] in Hr.
    destruct outcome; [exact Hr|].
    specialize (IH st1). cbv zeta in IH.
    destruct (round_loop W current_llm_tools current_model_key k st1) as [[out' st2] r].
    cbn [fst snd] in *.
    destruct r; [by apply usage_at_the_end_after | by apply quiet_app]. }
  unfold rounds. specialize (Hloop (max_rounds - round_index st) st). cbv zeta in Hloop.
  destruct (round_loop _ _ _ _ _) as [[out st1] r]. cbn [fst snd] in *.
  destruct r; cbn [fst snd]; [exact Hloop|].
  left. by apply quiet_app.
Qed.

End Facts.
End UsageFacts.

(** X21: a turn reports token usage at most once, as its very last event
    right after the end marker, and the usage it reports always carries a
    total (the one given or, when that is missing or 0, input plus output).
    Only the usage of the round that answers is reported; a pipeline turn,
    a turn that runs out of rounds and a turn that ends in an error report
    none. *)
Theorem usage_is_reported_once_at_the_end
    (W : World) (build_shared_history : bool -> list Message) (session_id : string)
    (p : Process) :
  let out := (WebMCPAgent.chat_stream W build_shared_history session_id p).1 in
  Forall (fun e => reports_total e = true) out
  /\ match last out with
     | Some (token_usage u) =>
         exists body,
           out = body ++ [ai_response_end ""; token_usage u]
           /\ count_events is_token_usage body = 0
     | _ => count_events is_token_usage out = 0
     end
  /\ match WebMCPAgent.agent_profile W (ModelManager.session_profile W session_id) with
     | Some _ => count_events is_token_usage out = 0
     | None => count_events is_error out + count_events is_token_usage out <= 1
     end.
Proof.
  cbv zeta.
  assert (usage_at_the_end
            (WebMCPAgent.chat_stream W build_shared_history session_id p).1
          /\ match WebMCPAgent.agent_profile W
                     (ModelManager.session_profile W session_id) with
             | Some _ =>
                 quiet (WebMCPAgent.chat_stream W build_shared_history session_id p).1
             | None =>
                 count_events is_error
                   (WebMCPAgent.chat_stream W build_shared_history session_id p).1
                 + count_events is_token_usage
                     (WebMCPAgent.chat_stream W build_shared_history session_id p).1 <= 1
             end) as [Hshape Hpipe].
  { unfold WebMCPAgent.chat_stream.
    destruct (WebMCPAgent.agent_profile W _) as [agent_cfg|].
    - assert (quiet (Orchestrator.chat_stream W build_shared_history agent_cfg p).1) as Hq.
      { unfold Orchestrator.chat_stream.
        destruct (max_rounds_raises _); [done|].
        destruct (ModelManager.get_or_create_llm_instances W
                    (backing_profile agent_cfg) p) as [[bundle | e] p1]; [|done].
        pose proof (PipelineMarkers.run_roles_events W
                      (tools_allowlist (Orchestrator.load_spec W (agent_file agent_cfg)))
                      (llm_tools bundle)
                      (roles (Orchestrator.load_spec W (agent_file agent_cfg)))
                      (Orchestrator.mkPipelineState (build_shared_history false) false []
                         p1)) as Hr.
        apply (quiet_Forall role_event) in Hr; [|by intros []].
        destruct (Orchestrator.run_roles W _ _ _ _) as [out ps]. cbn [fst snd] in *.
        apply (quiet_app [ai_response_start]); [done|]. apply quiet_app; [exact Hr|].
        by destruct (_ && _). }
      destruct (Orchestrator.chat_stream W build_shared_history agent_cfg p) as [out p'].
      cbn [fst snd] in *.
      assert (quiet (status "开始生成..." :: out)) as Hq'
        by by apply (quiet_app [status "开始生成..."]).
      split; [by left | exact Hq'].
    - destruct (WebMCPAgent.select_binding W _ session_id p) as [[b | e] p1];
        [|split; [by left | by cbn]].
      pose proof (UsageFacts.rounds_usage W (llm_of W b)
                    (ModelManager.get_current_model_key W session_id)
                    (WebMCPAgent.initial_state
                       (build_shared_history
                          (bool_decide (ModelManager.get_current_model_key W session_id
                                          ∈ non_multimodal_models p1))) p1)) as Hu.
      pose proof (rounds_no_error W (llm_of W b)
                    (ModelManager.get_current_model_key W session_id)
                    (WebMCPAgent.initial_state
                       (build_shared_history
                          (bool_decide (ModelManager.get_current_model_key W session_id
                                          ∈ non_multimodal_models p1))) p1)) as Hne.
      destruct (SingleAgent.rounds W _ _ _) as [[out st] r]. cbn [fst snd] in *.
      split; [by apply (usage_at_the_end_after [status "开始生成..."])|].
      rewrite !count_events_cons, Hne. cbn [is_error is_token_usage].
      destruct Hu as [Hq | (body & u & -> & Hb & _)]; unfold quiet in *; [lia|].
      rewrite count_events_app, !count_events_cons, count_events_nil, Hb.
      cbn [is_token_usage]. lia. }
  split; [|split; [|exact Hpipe]].
  - destruct Hshape as [Hq | (body & u & -> & Hb & Hu)]; [by apply quiet_reports|].
    apply Forall_app. split; [by apply quiet_reports|].
    constructor; [done|]. constructor; [|constructor].
    cbn. by destruct Hu as [t ->].
  - destruct Hshape as [Hq | (body & u & -> & Hb & Hu)].
    + destruct (last _) as [[]|] eqn:Hl; try exact Hq.
      by apply quiet_last in Hl.
    + replace (body ++ [ai_response_end ""; token_usage u])
        with ((body ++ [ai_response_end ""]) ++ [token_usage u])
        by by rewrite <- app_assoc.
      rewrite last_snoc. exists body. by rewrite <- app_assoc.
Qed.

(** * The label of a role *)

(** X22: what a role streams reaches the client piece by piece and in
    order, empty pieces left out; the first piece the role ever streams is
    sent with the label [[role_id]] in front, every later piece of the role,
    in this or a later iteration, as it is.  Streaming anything is also what
    turns off the final-text chunk of the pipeline. *)
Theorem role_stream_is_labelled_once
    (role_id : string) (evs : list LLMEvent) (st : Orchestrator.RoleState)
    (iv : Orchestrator.IterVars) :
  let r := Orchestrator.consume role_id evs st iv in
  r.1.1 = map ai_response_chunk
            (labelled role_id (Orchestrator.role_prefix_sent st) (stream_pieces evs))
  /\ Orchestrator.role_prefix_sent r.1.2
     = Orchestrator.role_prefix_sent st || nonempty (stream_pieces evs)
  /\ Orchestrator.any_streamed r.1.2
     = Orchestrator.any_streamed st || nonempty (stream_pieces evs).
Proof.
  cbv zeta. revert st iv. induction evs as [| ev rest IH]; intros st iv.
  { cbn. by rewrite !orb_false_r. }
  rewrite stream_pieces_cons. destruct ev as [piece | output |]; cbn [Orchestrator.consume].
  - destruct (String.eqb piece "") eqn:E; [apply IH|].
    destruct (IH (Orchestrator.streamed st)
                (Orchestrator.mkIterVars (Orchestrator.role_tool_calls iv)
                   (Orchestrator.content_preview iv)
                   (Orchestrator.buffered_chunks iv ++ [piece])))
      as (H1 & H2 & H3).
    destruct (Orchestrator.consume role_id rest _ _) as [[out st'] iv'].
    cbn [fst snd Orchestrator.streamed Orchestrator.role_prefix_sent
         Orchestrator.any_streamed] in *.
    rewrite H1, H2, H3. cbn [labelled nonempty orb].
    rewrite !orb_true_r. split; [|done].
    destruct (stream_pieces rest); by destruct (Orchestrator.role_prefix_sent st).
  - apply IH.
  - apply IH.
Qed.

(** * What an answering role sends *)

Module RoleStream.
Import Orchestrator.

(** Reading a run of content pieces in a role. *)
Lemma role_consume_tokens (role_id : string) (toks : list string) (rest : list LLMEvent)
    (st : RoleState) (iv : IterVars) :
  consume role_id (map on_chat_model_stream toks ++ rest) st iv =
    let s := streamed_of toks in
    let st1 :=
      mkRoleState (messages st) (shared_history st) (role_last_content st)
        (role_prefix_sent st || nonempty s) (any_streamed st || nonempty s) (process st) in
    let r := consume role_id rest st1
               (mkIterVars (role_tool_calls iv) (content_preview iv)
                  (buffered_chunks iv ++ s)) in
    (map ai_response_chunk (labelled role_id (role_prefix_sent st) s) ++ r.1.1, r.1.2, r.2).
Proof.
  revert st iv. induction toks as [| t toks IH]; intros st iv.
  - cbv zeta. cbn [map app streamed_of filter nonempty labelled].
    change (streamed_of []) with (@nil string). cbn [nonempty labelled map app].
    rewrite app_nil_r, !orb_false_r. destruct st, iv.
    by destruct (consume role_id rest _ _) as [[? ?] ?].
  - cbv zeta. cbn [map app consume]. unfold streamed_of. rewrite filter_cons.
    destruct (String.eqb t "") eqn:E.
    + apply String.eqb_eq in E. rewrite decide_False by (by intros H; apply H).
      apply IH.
    + apply String.eqb_neq in E. rewrite decide_True by done.
      rewrite IH. cbv zeta. fold (streamed_of toks).
      cbn [streamed messages shared_history role_last_content role_prefix_sent
           any_streamed process role_tool_calls content_preview buffered_chunks
           nonempty labelled orb map].
      rewrite !orb_true_r, <- app_assoc. cbn [app].
      destruct (streamed_of toks) as [| t' s'];
        cbn [labelled map app fst snd]; by destruct (role_prefix_sent st).
Qed.

End RoleStream.

(** X23: an iteration in which the role's model streams [toks], delivers an
    output without tool calls and does not raise, ends the role.  The role
    sends the streamed pieces (the first one labelled) and, when it has
    streamed in this or an earlier iteration, a closing newline; the
    finalized content is not sent by the role.  The role's text, the
    finalized content or else the streamed pieces joined, is kept as its
    output and handed on as its note. *)
Theorem role_answer_events
    (W : World) (role_id : string) (tools_allowlist : list string)
    (role_llm_tools : LLM) (st : Orchestrator.RoleState)
    (toks : list string) (output : AIMessage) :
  role_llm_tools (Orchestrator.now st) (Orchestrator.messages st)
    = mkModelRun (map on_chat_model_stream toks ++ [on_chat_model_end output]) None ->
  out_tool_calls output = [] ->
  let r := Orchestrator.run_iteration W role_id tools_allowlist role_llm_tools st in
  let s := streamed_of toks in
  let text := str_or (out_content output) (join "" s) in
  r.2 = Orchestrator.role_answered
  /\ r.1.1 = map ai_response_chunk
               (labelled role_id (Orchestrator.role_prefix_sent st) s)
             ++ (if Orchestrator.role_prefix_sent st || nonempty s
                 then [ai_response_chunk nl] else [])
  /\ Orchestrator.role_last_content r.1.2 = text
  /\ Orchestrator.shared_history r.1.2
     = Orchestrator.shared_history st ++ [note_of role_id text]
  /\ Orchestrator.any_streamed r.1.2 = Orchestrator.any_streamed st || nonempty s.
Proof.
  intros Hrun Hcalls. cbv zeta. unfold Orchestrator.run_iteration.
  rewrite Hrun. cbn [run_events run_raises].
  rewrite RoleStream.role_consume_tokens. cbv zeta.
  cbn [Orchestrator.consume fst snd Orchestrator.fresh_iter Orchestrator.role_tool_calls
       Orchestrator.content_preview Orchestrator.buffered_chunks app].
  rewrite Hcalls, app_nil_r.
  cbn [fst snd Orchestrator.write_back Orchestrator.role_prefix_sent
       Orchestrator.role_last_content Orchestrator.shared_history
       Orchestrator.any_streamed Orchestrator.await].
  done.
Qed.

Lemma role_answer_events_witness :
  let r :=
    Orchestrator.run_iteration ToolExamples.tool_world "writer" []
      (TurnExamples.silent_llm "42") ToolExamples.role_state in
  r.2 = Orchestrator.role_answered /\ r.1.1 = [].
Proof.
  cbv zeta.
  destruct (role_answer_events ToolExamples.tool_world "writer" []
              (TurnExamples.silent_llm "42") ToolExamples.role_state []
              (mkAIMessage "42" [] None) eq_refl eq_refl) as (H1 & H2 & _).
  split; [exact H1 | exact H2].
Defined.
